(** * Multi-agent orchestrator: a shallow embedding of the agent pipeline

    The development follows the source files of the pipeline:
    [researchAgent.js] (topic extraction and the Wikipedia fetch),
    [analysisAgent.js] (key points and difficulty), [taskAgent.js] (intent
    classification and answer rendering), [coordinator.js] (sequencing and
    failure isolation) and [server.js] (the request handler).

    Text model.  A JavaScript string is the list of its UTF-16 code units
    ([Js.jsstring]); [length] is the length of that list.  The character
    classes [\s], [\w] and [.], [trim] and [split] are the ones of
    ECMAScript on code units.  Case mapping is exact on ASCII text; on
    other text [toLowerCase] and [toUpperCase] are the functions of an
    instance of the class [Js.Unicode], of which the development uses only
    the three laws stated there.

    Effects.  A call that may throw returns a completion ([Exn.Exc]); the
    outbound HTTP call and the clock are parameters; [await] is sequential
    composition; console output is not modelled. *)

From Stdlib Require Import String Ascii List Bool Arith NArith ZArith Lia DecimalString.
Import ListNotations.
Open Scope nat_scope.

(* ===================================================================== *)
(** ** JavaScript string primitives                                        *)
(* ===================================================================== *)

Module Js.

(** A string is the list of its code units. *)
Definition jsstring : Type := list N.

(** An ASCII literal. *)
Definition js (literal : string) : jsstring :=
  map N_of_ascii (list_ascii_of_string literal).

Arguments js literal%_string.

Definition between (lo hi c : N) : bool := ((lo <=? c) && (c <=? hi))%N.

(** [\s] and the characters [trim] removes: WhiteSpace and LineTerminator
    of ECMAScript (TAB, LF, VT, FF, CR, SP, NBSP, U+1680, U+2000 to
    U+200A, U+2028, U+2029, U+202F, U+205F, U+3000, U+FEFF). *)
Definition isWhiteSpace (c : N) : bool :=
  between 9 13 c || (c =? 32)%N || (c =? 160)%N || (c =? 5760)%N ||
  between 8192 8202 c || (c =? 8232)%N || (c =? 8233)%N || (c =? 8239)%N ||
  (c =? 8287)%N || (c =? 12288)%N || (c =? 65279)%N.

(** [\w] is [[A-Za-z0-9_]]. *)
Definition isWordChar (c : N) : bool :=
  between 48 57 c || between 65 90 c || between 97 122 c || (c =? 95)%N.

(** [.] matches everything but a line terminator (LF, CR, U+2028,
    U+2029). *)
Definition isLineTerminator (c : N) : bool :=
  (c =? 10)%N || (c =? 13)%N || (c =? 8232)%N || (c =? 8233)%N.

Definition isDot (c : N) : bool := negb (isLineTerminator c).

Definition isQuestionMark (c : N) : bool := (c =? 63)%N.

Definition isAsciiUnit (c : N) : bool := (c <? 128)%N.

Definition isAscii (s : jsstring) : bool := forallb isAsciiUnit s.

(** Case mapping of an ASCII code unit. *)
Definition asciiLower (c : N) : N := if between 65 90 c then (c + 32)%N else c.
Definition asciiUpper (c : N) : N := if between 97 122 c then (c - 32)%N else c.

(** A character of a lookup key: neither whitespace nor a question mark. *)
Definition keyChar (c : N) : bool :=
  negb (isWhiteSpace c) && negb (isQuestionMark c).

(** Case mapping outside ASCII: [toLowerCase] of a string that is not all
    ASCII, and [toUpperCase] of a one-unit string whose unit is not ASCII.
    The laws are the three facts about the Unicode mappings that the
    proofs use: upper-casing a visible character gives visible characters,
    at least one; the first unit of an upper-cased character is its own
    upper case; lower-casing a string of whitespace and question marks
    changes nothing. *)
Class Unicode : Type := {
  unicodeLowerCase : jsstring -> jsstring;
  unicodeUpperCase : N -> jsstring;
  upper_visible : forall c,
    isAsciiUnit c = false -> isWhiteSpace c = false ->
    unicodeUpperCase c <> [] /\ forallb keyChar (unicodeUpperCase c) = true;
  upper_stable : forall c u rest,
    isAsciiUnit c = false -> unicodeUpperCase c = u :: rest ->
    if isAsciiUnit u then asciiUpper u = u else unicodeUpperCase u = [u];
  lower_uncased : forall s,
    forallb (fun c => negb (keyChar c)) s = true -> unicodeLowerCase s = s
}.

(** The mapping that leaves everything outside ASCII alone. *)
Program Definition asciiOnly : Unicode := {|
  unicodeLowerCase := fun s => s;
  unicodeUpperCase := fun c => [c]
|}.
Next Obligation.
Proof.
  intros. split; [ discriminate |].
  cbn. unfold keyChar.
  match goal with H : isWhiteSpace _ = false |- _ => rewrite H end.
  match goal with H : isAsciiUnit _ = false |- _ => revert H end.
  unfold isQuestionMark, isAsciiUnit. cbn.
  destruct (N.eqb_spec c 63) as [-> |]; [ discriminate | reflexivity ].
Qed.
Next Obligation.
Proof.
  intros.
  match goal with H : isAsciiUnit _ = false |- _ => rewrite H end.
  reflexivity.
Qed.

Section CaseMapping.
Context {U : Unicode}.

(** [s.toLowerCase()]. *)
Definition toLowerCase (s : jsstring) : jsstring :=
  if isAscii s then map asciiLower s else unicodeLowerCase s.

(** [c.toUpperCase()] for the one-unit string [c]. *)
Definition upperUnit (c : N) : jsstring :=
  if isAsciiUnit c then [asciiUpper c] else unicodeUpperCase c.

(** [s.charAt(0).toUpperCase() + s.slice(1)]. *)
Definition capitalize (s : jsstring) : jsstring :=
  match s with
  | [] => []
  | c :: s' => upperUnit c ++ s'
  end.

End CaseMapping.

Definition isEmpty (s : jsstring) : bool :=
  match s with [] => true | _ :: _ => false end.

(** Truthiness of a string value: every string but the empty one. *)
Definition truthy (s : jsstring) : bool := negb (isEmpty s).

(** A value that is a string, [null] or [undefined]. *)
Inductive Value : Type :=
| undefined
| null
| str (s : jsstring).

Definition truthy_value (v : Value) : bool :=
  match v with
  | str s => truthy s
  | undefined | null => false
  end.

(** A value inside a template literal. *)
Definition show (v : Value) : jsstring :=
  match v with
  | undefined => js "undefined"
  | null => js "null"
  | str s => s
  end.

Fixpoint trimStart (s : jsstring) : jsstring :=
  match s with
  | [] => []
  | c :: s' => if isWhiteSpace c then trimStart s' else s
  end.

Fixpoint trimEnd (s : jsstring) : jsstring :=
  match s with
  | [] => []
  | c :: s' =>
      let t := trimEnd s' in
      if isWhiteSpace c && isEmpty t then [] else c :: t
  end.

Definition trim (s : jsstring) : jsstring := trimEnd (trimStart s).

(** [Array.prototype.join]. *)
Fixpoint join (sep : jsstring) (l : list jsstring) : jsstring :=
  match l with
  | [] => []
  | x :: xs =>
      match xs with
      | [] => x
      | _ :: _ => x ++ sep ++ join sep xs
      end
  end.

(** [a === b] on strings. *)
Fixpoint sameString (a b : jsstring) : bool :=
  match a, b with
  | [], [] => true
  | x :: a', y :: b' => (x =? y)%N && sameString a' b'
  | _, _ => false
  end.

(** [s.startsWith(p)]. *)
Fixpoint startsWith (p s : jsstring) : bool :=
  match p, s with
  | [], _ => true
  | a :: p', b :: s' => (a =? b)%N && startsWith p' s'
  | _ :: _, [] => false
  end.

(** [s.includes(needle)]. *)
Fixpoint includes (needle s : jsstring) : bool :=
  startsWith needle s ||
  match s with
  | [] => false
  | _ :: s' => includes needle s'
  end.

(** [s.split(/\s+/)]: the pieces between maximal runs of whitespace, the
    empty pieces at both ends included. *)
Fixpoint split_ws_go (in_sep : bool) (cur : jsstring) (s : jsstring)
  : list jsstring :=
  match s with
  | [] => [cur]
  | c :: s' =>
      if isWhiteSpace c then
        if in_sep then split_ws_go true [] s'
        else cur :: split_ws_go true [] s'
      else split_ws_go false (cur ++ [c]) s'
  end.

Definition split_ws (s : jsstring) : list jsstring := split_ws_go false [] s.

(** [.split(/\s+/).filter(Boolean)]. *)
Definition words (s : jsstring) : list jsstring := filter truthy (split_ws s).

(** [a.slice(-n)]: the last [n] elements. *)
Definition slice_last {A} (n : nat) (l : list A) : list A :=
  skipn (length l - n) l.

(** [s.slice(n)]: the string without its first [n] code units. *)
Definition slice (n : nat) (s : jsstring) : jsstring := skipn n s.

(** [new Set([...]).has(x)]. *)
Definition has (set : list jsstring) (x : jsstring) : bool :=
  existsb (sameString x) set.

End Js.

(* ===================================================================== *)
(** ** A backtracking matcher for the regular expressions of the source   *)
(* ===================================================================== *)

Module Regex.
Import Js.

Inductive regex : Type :=
| Class (p : N -> bool)              (** one character of a class *)
| Plus (p : N -> bool)               (** greedy [c+] over a class *)
| Seq (r1 r2 : regex)
| Alt (r1 r2 : regex)                (** ordered alternation *)
| Group (n : nat) (r : regex)        (** capture group number [n] *)
| Eps                                (** the empty pattern *)
| Eos.                               (** [$] without the [m] flag *)

Definition captures : Type := list (nat * jsstring).

Fixpoint capture (n : nat) (caps : captures) : option jsstring :=
  match caps with
  | [] => None
  | (m, s) :: caps' => if Nat.eqb n m then Some s else capture n caps'
  end.

(** The part of [s] in front of its suffix [rest]. *)
Definition consumed (s rest : jsstring) : jsstring :=
  firstn (length s - length rest) s.

(** Greedy repetition: the longest run first, shorter ones on backtracking. *)
Fixpoint plus_k {R} (p : N -> bool) (k : jsstring -> option R) (s : jsstring)
  : option R :=
  match s with
  | [] => None
  | c :: s' =>
      if p c then
        match plus_k p k s' with
        | Some r => Some r
        | None => k s'
        end
      else None
  end.

(** [exec r s caps k] matches [r] at the front of [s] and hands the rest
    and the captures to the continuation [k]; a failing continuation makes
    the matcher backtrack. *)
Fixpoint exec {R} (r : regex) (s : jsstring) (caps : captures)
  (k : jsstring -> captures -> option R) : option R :=
  match r with
  | Class p =>
      match s with
      | [] => None
      | c :: s' => if p c then k s' caps else None
      end
  | Plus p => plus_k p (fun s' => k s' caps) s
  | Seq r1 r2 => exec r1 s caps (fun s' caps' => exec r2 s' caps' k)
  | Alt r1 r2 =>
      match exec r1 s caps k with
      | Some x => Some x
      | None => exec r2 s caps k
      end
  | Group n r1 =>
      exec r1 s caps (fun s' caps' => k s' ((n, consumed s s') :: caps'))
  | Eps => k s caps
  | Eos =>
      match s with
      | [] => k s caps
      | _ :: _ => None
      end
  end.

(** A match anchored at the start of [s]: the unmatched rest and the
    captures. *)
Definition match_prefix (r : regex) (s : jsstring) : option (jsstring * captures) :=
  exec r s [] (fun rest caps => Some (rest, caps)).

(** [s.match(r)] for a pattern that starts with [^]. *)
Definition match_anchored (r : regex) (s : jsstring) : option captures :=
  option_map snd (match_prefix r s).

(** All matches of a [/g] pattern, left to right and without overlap.  After
    a match the scan resumes behind it ([skip] counts the characters still
    to pass over); after a failure it moves on by one character. *)
Fixpoint match_all_go (r : regex) (s : jsstring) (skip : nat) : list jsstring :=
  match s with
  | [] => []
  | _ :: s' =>
      match skip with
      | S n => match_all_go r s' n
      | O =>
          match match_prefix r s with
          | Some (rest, _) =>
              let m := consumed s rest in
              m :: match_all_go r s' (length m - 1)
          | None => match_all_go r s' 0
          end
      end
  end.

(** [s.match(r)] for a [/g] pattern: [null] when nothing matches. *)
Definition match_all (r : regex) (s : jsstring) : option (list jsstring) :=
  match match_all_go r s 0 with
  | [] => None
  | ms => Some ms
  end.

(** One literal ASCII character under the [i] flag: without the [u] flag a
    character outside ASCII never matches an ASCII one. *)
Definition char_ci (c : N) : regex :=
  Class (fun x => (asciiUpper x =? asciiUpper c)%N).

(** A literal under the [i] flag. *)
Fixpoint word_ci (w : jsstring) : regex :=
  match w with
  | [] => Eps
  | c :: w' => Seq (char_ci c) (word_ci w')
  end.

Fixpoint alts (first : jsstring) (others : list jsstring) : regex :=
  match others with
  | [] => word_ci first
  | w :: ws => Alt (word_ci first) (alts w ws)
  end.

Fixpoint seqs (first : regex) (others : list regex) : regex :=
  match others with
  | [] => first
  | r :: rs => Seq first (seqs r rs)
  end.

(** Whether a pattern can match without consuming a character, and
    whether a match of it can begin with the character [c]. *)
Fixpoint nullable (r : regex) : bool :=
  match r with
  | Class _ | Plus _ => false
  | Seq r1 r2 => nullable r1 && nullable r2
  | Alt r1 r2 => nullable r1 || nullable r2
  | Group _ r1 => nullable r1
  | Eps | Eos => true
  end.

Fixpoint first (r : regex) (c : N) : bool :=
  match r with
  | Class p | Plus p => p c
  | Seq r1 r2 => first r1 c || (nullable r1 && first r2 c)
  | Alt r1 r2 => first r1 c || first r2 c
  | Group _ r1 => first r1 c
  | Eps | Eos => false
  end.

End Regex.

(* ===================================================================== *)
(** ** Exceptions                                                          *)
(* ===================================================================== *)

Module Exn.
Import Js.

(** What the handlers of the source read from a thrown value:
    [error.response.status], whether [error.request] is set, and
    [error.message]. *)
Record JsError : Type := mkError {
  response : option nat;
  request : bool;
  message : jsstring
}.

(** A [TypeError] or [URIError] of the runtime: neither [response] nor
    [request]. *)
Definition runtimeError (message : jsstring) : JsError :=
  {| response := None; request := false; message := message |}.

(** The completion of a call: a value, or a thrown error. *)
Inductive Exc (A : Type) : Type :=
| Return (a : A)
| Throw (e : JsError).

Arguments Return {A} a.
Arguments Throw {A} e.

Definition bind {A B} (m : Exc A) (f : A -> Exc B) : Exc B :=
  match m with
  | Return a => f a
  | Throw e => Throw e
  end.

(** [try { body } catch (error) { handler }]. *)
Definition try_catch {A} (body : Exc A) (handler : JsError -> Exc A) : Exc A :=
  match body with
  | Return a => Return a
  | Throw e => handler e
  end.

Definition throws {A} (m : Exc A) : bool :=
  match m with Return _ => false | Throw _ => true end.

(** [object.member]: reading a member of [undefined] or [null] throws a
    [TypeError]. *)
Definition member {A B} (object : option A) (get : A -> B) : Exc B :=
  match object with
  | Some o => Return (get o)
  | None => Throw (runtimeError (js "Cannot read properties of undefined"))
  end.

End Exn.

Notation "x <- m ;; k" := (Exn.bind m (fun x => k))
  (at level 61, m at next level, right associativity).

(* ===================================================================== *)
(** ** researchAgent.js                                                    *)
(* ===================================================================== *)

Module ResearchAgent.
Import Js Regex Exn.

Definition WIKI_API_BASE : jsstring :=
  js "https://en.wikipedia.org/api/rest_v1/page/summary/".
Definition FALLBACK_TOPIC : jsstring := js "General-purpose_AI".

Definition FILLER_WORDS : list jsstring :=
  map js
    [ "explain"; "what"; "is"; "are"; "for"; "a"; "an"; "the"; "of"; "in"; "to";
      "how"; "do"; "i"; "get"; "started"; "beginners"; "learn"; "compare"; "vs";
      "overview"; "tell"; "me"; "about"; "please" ]%string.

Definition PRICE_WORDS : list jsstring :=
  map js [ "cost"; "price"; "new"; "average"; "car"; "buy" ]%string.

(** The three question forms, in the order of the source. *)
Definition patterns : list regex :=
  [ (* /^(who|what|where|when|why|how)\s+(is|was|are|were)\s+(.+)$/i *)
    seqs (Group 1 (alts (js "who")
                     (map js [ "what"; "where"; "when"; "why"; "how" ]%string)))
         [ Plus isWhiteSpace;
           Group 2 (alts (js "is") (map js [ "was"; "are"; "were" ]%string));
           Plus isWhiteSpace;
           Group 3 (Plus isDot);
           Eos ];
    (* /^(tell me about)\s+(.+)$/i *)
    seqs (Group 1 (word_ci (js "tell me about")))
         [ Plus isWhiteSpace; Group 2 (Plus isDot); Eos ];
    (* /^(give me an overview of)\s+(.+)$/i *)
    seqs (Group 1 (word_ci (js "give me an overview of")))
         [ Plus isWhiteSpace; Group 2 (Plus isDot); Eos ] ].

(** [match[3] || match[2]]. *)
Definition rawTopic_of (m : captures) : option jsstring :=
  match capture 3 m with
  | Some s => if truthy s then Some s else capture 2 m
  | None => capture 2 m
  end.

(** What one pattern captures as the subject of [trimmed], if it matches
    and the capture is truthy. *)
Definition pattern_subject (pattern : regex) (trimmed : jsstring) : option jsstring :=
  match match_anchored pattern trimmed with
  | Some m =>
      match rawTopic_of m with
      | Some rawTopic => if truthy rawTopic then Some rawTopic else None
      | None => None
      end
  | None => None
  end.

Section Extraction.
Context {U : Unicode}.

Definition normalizeTitle (phrase : jsstring) : jsstring :=
  join (js "_")
    (map capitalize
       (words (filter (fun c => negb (isQuestionMark c)) (trim phrase)))).

(** The body of [if (rawTopic) { ... }] up to the computation of
    [normalized]. *)
Definition subject_key (rawTopic : jsstring) : jsstring :=
  let phrase := trim (filter (fun c => negb (isQuestionMark c)) rawTopic) in
  let tokens := words (toLowerCase phrase) in
  let keyTokens :=
    filter (fun t => negb (has FILLER_WORDS t) && negb (has PRICE_WORDS t)) tokens in
  let phrase :=
    match keyTokens with
    | [] => phrase
    | _ :: _ => join (js " ") (slice_last 2 keyTokens)
    end in
  normalizeTitle phrase.

(** The [for (const pattern of patterns)] loop: the first normalized key of
    at least three characters is returned, anything shorter falls through
    to the next pattern. *)
Fixpoint pattern_loop (ps : list regex) (trimmed : jsstring) : option jsstring :=
  match ps with
  | [] => None
  | pattern :: ps' =>
      match pattern_subject pattern trimmed with
      | Some rawTopic =>
          let normalized := subject_key rawTopic in
          if 3 <=? length normalized then Some normalized
          else pattern_loop ps' trimmed
      | None => pattern_loop ps' trimmed
      end
  end.

(** The keyword candidate of step 2. *)
Definition keyword_candidate (lower : jsstring) : list jsstring :=
  let words :=
    filter (fun word => negb (has FILLER_WORDS word))
      (words (filter (fun c => isWordChar c || isWhiteSpace c) lower)) in
  let filtered := filter (fun w => negb (has PRICE_WORDS w)) words in
  let candidate := match filtered with [] => words | _ :: _ => filtered end in
  if 2 <=? length candidate then slice_last 2 candidate else candidate.

(** Steps 2 and 3: the keyword key, or the normalized original query. *)
Definition keyword_or_query (query lower : jsstring) : jsstring :=
  let candidate := keyword_candidate lower in
  let extracted := join (js "_") candidate in
  if 3 <=? length extracted then normalizeTitle (join (js " ") candidate)
  else normalizeTitle query.

Definition extractTopic (query : jsstring) : jsstring :=
  if negb (truthy query) then []
  else
    let trimmed := trim query in
    if negb (truthy trimmed) then []
    else
      let lower := toLowerCase trimmed in
      match pattern_loop patterns trimmed with
      | Some normalized => normalized
      | None => keyword_or_query query lower
      end.

End Extraction.

(** The body of a summary response, by the members the fetch reads.  The
    members [title], [extract] and [page] are strings when the body has
    them, as the response format documents them; [undefined] is a member
    the body does not have and [null] one that is null.  [None] is an
    object ([content_urls], [desktop], [thumbnail]) or a number ([pageid])
    that is missing or null; of the thumbnail object the model keeps the
    address of its image. *)
Record Desktop : Type := mkDesktop {
  page : Value
}.

Record ContentUrls : Type := mkUrls {
  desktop : option Desktop
}.

Record WikiData : Type := mkData {
  title : Value;
  pageid : option N;
  extract : Value;
  content_urls : option ContentUrls;
  thumbnail : option jsstring
}.

Record Raw : Type := mkRaw {
  raw_pageid : option N;
  raw_thumbnail : option jsstring
}.

(** The research result.  A field that an object literal of the source
    leaves out is [undefined] or [None]; [triedTopics] and [errorSummary]
    are read by the task agent and set by no producer. *)
Record FetchResult : Type := mkFetch {
  topic : Value;
  source : jsstring;
  ok : bool;
  summary : Value;
  url : Value;
  raw : option Raw;
  error : Value;
  triedTopics : option (list jsstring);
  errorSummary : Value
}.

Definition hexDigit (n : N) : N :=
  if (n <? 10)%N then (48 + n)%N else (55 + n)%N.

(** The characters [encodeURIComponent] leaves alone:
    [A-Z a-z 0-9 - _ . ! ~ * ' ( )]. *)
Definition isUnreserved (c : N) : bool :=
  isWordChar c || existsb (N.eqb c) [45; 46; 33; 126; 42; 39; 40; 41]%N.

(** The code points of a string: a high surrogate and the low surrogate
    behind it are one code point, every other unit is its own; [None] for
    a surrogate without its partner.  (A number from 65536 on is no code
    unit; the model fails on it.) *)
Definition isHighSurrogate (c : N) : bool := between 55296 56319 c.
Definition isLowSurrogate (c : N) : bool := between 56320 57343 c.

Fixpoint codePoints (s : jsstring) : option (list N) :=
  match s with
  | [] => Some []
  | c :: s' =>
      if isHighSurrogate c then
        match s' with
        | lo :: s'' =>
            if isLowSurrogate lo then
              option_map (cons (65536 + (c - 55296) * 1024 + (lo - 56320))%N)
                (codePoints s'')
            else None
        | [] => None
        end
      else if isLowSurrogate c || (65536 <=? c)%N then None
      else option_map (cons c) (codePoints s')
  end.

(** The UTF-8 octets of a code point. *)
Definition utf8 (cp : N) : list N :=
  (if cp <? 128 then [cp]
   else if cp <? 2048 then [192 + cp / 64; 128 + cp mod 64]
   else if cp <? 65536 then
     [224 + cp / 4096; 128 + (cp / 64) mod 64; 128 + cp mod 64]
   else
     [240 + cp / 262144; 128 + (cp / 4096) mod 64; 128 + (cp / 64) mod 64;
      128 + cp mod 64])%N.

(** An octet in the encoded string: itself when unreserved, [%XX]
    otherwise. *)
Definition escapeOctet (b : N) : jsstring :=
  if isUnreserved b then [b]
  else [37; hexDigit (b / 16); hexDigit (b mod 16)]%N.

(** [encodeURIComponent]: the code points of the string in UTF-8, octet by
    octet escaped; [None] is the [URIError] for a surrogate without its
    partner. *)
Definition encodeURIComponent (s : jsstring) : option jsstring :=
  option_map (fun cps => flat_map escapeOctet (flat_map utf8 cps)) (codePoints s).

(** A number in a template literal. *)
Definition showNumber (n : nat) : jsstring :=
  js (DecimalString.NilZero.string_of_uint (Nat.to_uint n)).

Definition USER_AGENT : jsstring :=
  js "Multi-Agent-Orchestrator-App/1.0 (harshit.uppala.portfolio@example.com)".

Section Fetch.
Context {U : Unicode}.

(** The outbound call [axios.get(url, { headers })]: [response.data], or
    the error it rejects with.  [None] is a body that is [undefined] or
    [null]. *)
Variable axios_get : jsstring -> jsstring -> Exc (option WikiData).

Definition fetchWikiSummary (topic : jsstring) : Exc FetchResult :=
  try_catch
    (encoded <- match encodeURIComponent topic with
                | Some encoded => Return encoded
                | None => Throw (runtimeError (js "URI malformed"))
                end ;;
     let url := WIKI_API_BASE ++ encoded in
     data <- axios_get url USER_AGENT ;;
     title <- member data title ;;
     extract <- member data extract ;;
     content_urls <- member data content_urls ;;
     page <- match content_urls with
             | Some urls => member (desktop urls) page
             | None => Return (str (js "https://en.wikipedia.org/wiki/" ++ topic))
             end ;;
     pageid <- member data pageid ;;
     thumbnail <- member data thumbnail ;;
     Return {|
       topic := title;
       source := js "wikipedia";
       ok := true;
       summary := extract;
       url := page;
       raw := Some {| raw_pageid := pageid; raw_thumbnail := thumbnail |};
       error := undefined;
       triedTopics := None;
       errorSummary := undefined
     |})
    (fun error =>
       let errorMessage :=
         match response error with
         | Some httpStatus =>
             if httpStatus =? 404 then
               js "Topic not found on Wikipedia (HTTP " ++ showNumber httpStatus ++ js ")."
             else
               js "Wikipedia API returned error status " ++ showNumber httpStatus ++ js "."
         | None =>
             if request error then js "No response received from Wikipedia API."
             else js "Network or unknown API error."
         end in
       Return {|
         topic := str topic;
         source := js "wikipedia";
         ok := false;
         summary := null;
         url := null;
         raw := None;
         error := str errorMessage;
         triedTopics := None;
         errorSummary := undefined
       |}).

(** [ResearchAgent.run]: the fallback-topic branch only logs. *)
Definition run (query : jsstring) : Exc FetchResult :=
  let primaryTopic := extractTopic query in
  result <- fetchWikiSummary primaryTopic ;;
  Return result.

End Fetch.

End ResearchAgent.

(* ===================================================================== *)
(** ** analysisAgent.js                                                    *)
(* ===================================================================== *)

Module AnalysisAgent.
Import Js Regex ResearchAgent.

Definition ADVANCED_WORDS : list jsstring :=
  map js
    [ "cluster"; "orchestration"; "distributed"; "concurrency"; "containerization";
      "scalability"; "stateless"; "latency"; "asynchronous"; "pipeline";
      "microservices" ]%string.

Definition BEGINNER_WORDS : list jsstring :=
  map js
    [ "introduction"; "basic"; "getting started"; "simple"; "fundamental";
      "beginner" ]%string.

Inductive Difficulty : Type :=
| beginner | intermediate | intermediate_advanced | unknown.

Definition difficulty_name (d : Difficulty) : jsstring :=
  match d with
  | beginner => js "beginner"
  | intermediate => js "intermediate"
  | intermediate_advanced => js "intermediate-advanced"
  | unknown => js "unknown"
  end.

(** [WORDS.forEach(word => { if (lowerSummary.includes(word)) count++ })]. *)
Definition countIncluded (vocabulary : list jsstring) (lowerSummary : jsstring) : nat :=
  fold_left (fun count word => if includes word lowerSummary then count + 1 else count)
    vocabulary 0.

Definition isTerminator (c : N) : bool :=
  existsb (N.eqb c) [46; 33; 63]%N.

(** The pattern [[^.!?]+[.!?]\s+] of the sentence split. *)
Definition sentence : regex :=
  seqs (Plus (fun c => negb (isTerminator c))) [ Class isTerminator; Plus isWhiteSpace ].

(** [summary.match(...) || [summary]]. *)
Definition sentences (summary : jsstring) : list jsstring :=
  match match_all sentence summary with
  | Some ms => ms
  | None => [summary]
  end.

Definition extractKeyPoints (summary : jsstring) (maxPoints : nat) : list jsstring :=
  if negb (truthy summary) then []
  else
    firstn maxPoints
      (filter (fun s => 20 <? length s) (map trim (sentences summary))).

Record AnalysisResult : Type := mkAnalysis {
  hasContent : bool;
  difficulty : Difficulty;
  keyPoints : list jsstring;
  advisory : jsstring
}.

Section Analysis.
Context {U : Unicode}.

Definition inferDifficulty (summary : jsstring) : Difficulty :=
  let lowerSummary := toLowerCase summary in
  let advancedCount := countIncluded ADVANCED_WORDS lowerSummary in
  let beginnerCount := countIncluded BEGINNER_WORDS lowerSummary in
  if (advancedCount <? beginnerCount) && (1 <=? beginnerCount) then beginner
  else if 2 <=? advancedCount then intermediate_advanced
  else intermediate.

Definition run (researchResult : FetchResult) : AnalysisResult :=
  if negb (ok researchResult) || negb (truthy_value (summary researchResult)) then
    {| hasContent := false;
       difficulty := unknown;
       keyPoints := [];
       advisory := js "No research content was found to analyze." |}
  else
    let summary := match summary researchResult with str s => s | _ => [] end in
    let keyPoints := extractKeyPoints summary 5 in
    let finalPoints :=
      if (length keyPoints =? 0) && truthy summary then [summary] else keyPoints in
    let difficulty := inferDifficulty summary in
    {| hasContent := true;
       difficulty := difficulty;
       keyPoints := finalPoints;
       advisory := js "These points are based on an initial Wikipedia summary; always cross-check for critical or specific decisions." |}.

End Analysis.

End AnalysisAgent.

(* ===================================================================== *)
(** ** taskAgent.js                                                        *)
(* ===================================================================== *)

Module TaskAgent.
Import Js ResearchAgent AnalysisAgent.

Inductive Mode : Type :=
| getting_started | comparison | overview | no_content.

Definition mode_name (m : Mode) : jsstring :=
  match m with
  | getting_started => js "getting-started"
  | comparison => js "comparison"
  | overview => js "overview"
  | no_content => js "no-content"
  end.

(** The line feed and the double quote of the string literals, and the
    three pictographs, in code units: U+1F4DA and U+1F4A1 are surrogate
    pairs, U+274C is one unit. *)
Definition nl : jsstring := [10%N].
Definition dq : jsstring := [34%N].
Definition books : jsstring := [55357; 56538]%N.
Definition bulb : jsstring := [55357; 56481]%N.
Definition crossMark : jsstring := [10060%N].

(** The mark in front of the topic in the heading of an answer. *)
Definition headingMark : jsstring := js "## " ++ books ++ js " ".

(** [keyPoints.forEach(point => { answer += before + point + after })]. *)
Definition appendPoints (before after : jsstring) (keyPoints : list jsstring)
  (answer : jsstring) : jsstring :=
  fold_left (fun answer point => answer ++ before ++ point ++ after) keyPoints answer.

Section Task.
Context {U : Unicode}.

Definition classifyIntent (query : jsstring) (hasContent : bool) : Mode :=
  if negb hasContent then no_content
  else
    let lowerQuery := toLowerCase query in
    if includes (js "how to") lowerQuery || includes (js "how do i") lowerQuery ||
       includes (js "get started") lowerQuery || includes (js "for beginners") lowerQuery ||
       includes (js "learn") lowerQuery
    then getting_started
    else if includes (js "compare") lowerQuery || includes (js " vs ") lowerQuery
    then comparison
    else overview.

Definition generateAnswer (research : FetchResult) (analysis : AnalysisResult)
  (mode : Mode) : jsstring :=
  let topic := show (topic research) in
  let url := show (url research) in
  let keyPoints := keyPoints analysis in
  let advisory := advisory analysis in
  let difficultyText := capitalize (difficulty_name (difficulty analysis)) in
  let answer := headingMark ++ topic ++ nl ++ nl in
  let answer :=
    match mode with
    | getting_started =>
        let answer := answer ++ js "**Presentation Mode: GETTING STARTED**" ++ nl ++ nl in
        let answer := answer ++ js "Welcome! The topic of **" ++ topic
                        ++ js "** has been identified with a complexity level of: **"
                        ++ difficultyText ++ js "**." ++ nl ++ nl in
        let answer := answer
                        ++ js "To start your learning journey, focus on the fundamentals outlined below:"
                        ++ nl ++ nl in
        let answer := appendPoints (js "- **") (js "**" ++ nl) keyPoints answer in
        let answer := answer ++ nl ++ js "---" ++ nl ++ nl in
        let answer := answer ++ js "### " ++ bulb ++ js " Suggested Next Steps" ++ nl in
        let answer := answer
                        ++ js "* **Read the Official Docs:** Start with the main documentation page linked below."
                        ++ nl in
        let answer := answer ++ js "* **Try a Simple Tutorial:** Search for a " ++ dq
                        ++ js "Hello World" ++ dq ++ js " or equivalent first project." ++ nl in
        answer
          ++ js "* **Understand Core Concepts:** Ensure you grasp the basic principles (e.g., if it's a tech topic, what is its primary problem domain?)."
          ++ nl ++ nl
    | comparison =>
        let answer := answer ++ js "**Presentation Mode: COMPARISON**" ++ nl ++ nl in
        let answer := answer ++ js "Here is an **Overview** of **" ++ topic
                        ++ js "** to help you start your comparison (Difficulty: **"
                        ++ difficultyText ++ js "**):" ++ nl ++ nl in
        let answer := appendPoints (js "* ") nl keyPoints answer in
        let answer := answer ++ nl ++ js "---" ++ nl ++ nl in
        answer
          ++ js "For a detailed comparison, you'll need to research its key alternatives and competitors. The points above provide its core foundation."
          ++ nl ++ nl
    | _ =>
        let answer := answer ++ js "**Presentation Mode: OVERVIEW**" ++ nl ++ nl in
        let answer := answer ++ js "Here's a high-level overview of **" ++ topic
                        ++ js "** (Difficulty: **" ++ difficultyText ++ js "**):" ++ nl ++ nl in
        appendPoints (js "* ") nl keyPoints answer
    end in
  let answer := answer ++ nl ++ js "---" ++ nl in
  let answer := answer ++ js "**Source URL:** [Wikipedia: " ++ topic ++ js "](" ++ url
                  ++ js ")" ++ nl in
  answer ++ js "**Advisory:** *" ++ advisory ++ js "*" ++ nl.

Record TaskResult : Type := mkTask {
  mode : Mode;
  finalAnswer : jsstring
}.

Definition run (query : jsstring) (researchResult : FetchResult)
  (analysisResult : AnalysisResult) : TaskResult :=
  let mode := classifyIntent query (hasContent analysisResult) in
  let finalAnswer :=
    match mode with
    | no_content =>
        let topicsTried :=
          match triedTopics researchResult with
          | Some (t :: ts) => join (js ", ") (t :: ts)
          | _ =>
              if truthy_value (topic researchResult) then show (topic researchResult)
              else js "No candidate topics were generated"
          end in
        let reason :=
          if truthy_value (errorSummary researchResult)
          then show (errorSummary researchResult)
          else if truthy_value (error researchResult) then show (error researchResult)
          else js "No suitable Wikipedia article was found for this query." in
        join nl
          [ js "## " ++ crossMark ++ js " No Content Found";
            [];
            js "The agent pipeline could not build an answer from Wikipedia for your question.";
            [];
            js "Query: " ++ query;
            js "Topics tried: " ++ topicsTried;
            js "Reason: " ++ reason;
            [];
            js "Suggestions:";
            js "- Try using a broader or simpler topic (remove prices, dates, or very local details).";
            js "- Check spelling for names or technical terms.";
            js "- If your question is about a very specific product or version, try asking about the general concept instead." ]
    | _ => generateAnswer researchResult analysisResult mode
    end in
  {| mode := mode; finalAnswer := finalAnswer |}.

End Task.

End TaskAgent.

(* ===================================================================== *)
(** ** coordinator.js                                                      *)
(* ===================================================================== *)

Module Coordinator.
Import Js Exn.

(** The three agents a coordinator holds ([this.researchAgent] and so on),
    each by its [run] method, which may throw. *)
Record Agents : Type := mkAgents {
  researchAgent : jsstring -> Exc ResearchAgent.FetchResult;
  analysisAgent : ResearchAgent.FetchResult -> Exc AnalysisAgent.AnalysisResult;
  taskAgent : jsstring -> ResearchAgent.FetchResult -> AnalysisAgent.AnalysisResult
              -> Exc TaskAgent.TaskResult
}.

(** The response object.  The two failure literals carry [error] and
    [errorMessage] and no [query] or [timestamp]; the literal of the normal
    completion carries [query] and [timestamp] and no [error]. *)
Record PipelineResponse : Type := mkResponse {
  error : bool;
  errorMessage : option jsstring;
  query : option jsstring;
  timestamp : option jsstring;
  research : option ResearchAgent.FetchResult;
  analysis : option AnalysisAgent.AnalysisResult;
  task : TaskAgent.Mode;                      (* task.mode *)
  finalAnswer : jsstring
}.

(** The substitute of a failed analysis. *)
Definition analysisFallback : AnalysisAgent.AnalysisResult :=
  {| AnalysisAgent.hasContent := false;
     AnalysisAgent.difficulty := AnalysisAgent.unknown;
     AnalysisAgent.keyPoints := [];
     AnalysisAgent.advisory := js "Analysis failed unexpectedly." |}.

(** [orchestrate]; [now] is what [new Date().toISOString()] reads. *)
Definition orchestrate (this : Agents) (now : jsstring) (query : jsstring)
  : Exc PipelineResponse :=
  match researchAgent this query with
  | Throw err =>
      Return {|
        error := true;
        errorMessage := Some (js "Research step failed unexpectedly.");
        query := None;
        timestamp := None;
        research := None;
        analysis := None;
        task := TaskAgent.no_content;
        finalAnswer :=
          js "No Content Found" ++ TaskAgent.nl ++ TaskAgent.nl
          ++ js "The research agent encountered an unexpected error while processing your query: "
          ++ TaskAgent.dq ++ query ++ TaskAgent.dq ++ js "."
      |}
  | Return researchResult =>
      let analysisResult :=
        match analysisAgent this researchResult with
        | Return analysisResult => analysisResult
        | Throw err => analysisFallback
        end in
      match taskAgent this query researchResult analysisResult with
      | Throw err =>
          Return {|
            error := true;
            errorMessage := Some (js "Task planning failed unexpectedly.");
            query := None;
            timestamp := None;
            research := Some researchResult;
            analysis := Some analysisResult;
            task := TaskAgent.no_content;
            finalAnswer :=
              js "An internal error prevented generating a final answer for the query: "
              ++ TaskAgent.dq ++ query ++ TaskAgent.dq ++ js "."
          |}
      | Return taskResult =>
          Return {|
            error := false;
            errorMessage := None;
            query := Some query;
            timestamp := Some now;
            research := Some researchResult;
            analysis := Some analysisResult;
            task := TaskAgent.mode taskResult;
            finalAnswer := TaskAgent.finalAnswer taskResult
          |}
      end
  end.

(** The agents the constructor installs, over the outbound call. *)
Definition constructor {U : Unicode}
  (axios_get : jsstring -> jsstring -> Exc (option ResearchAgent.WikiData))
  : Agents :=
  {| researchAgent := ResearchAgent.run axios_get;
     analysisAgent := fun researchResult => Return (AnalysisAgent.run researchResult);
     taskAgent := fun query researchResult analysisResult =>
                    Return (TaskAgent.run query researchResult analysisResult) |}.

End Coordinator.

(* ===================================================================== *)
(** ** server.js                                                           *)
(* ===================================================================== *)

Module Server.
Import Js Exn.

(** A value of a parsed JSON body.  Of a number the handler only looks at
    its type and at whether it is zero, of an array or an object at its
    type. *)
Inductive Json : Type :=
| JNull
| JBool (b : bool)
| JNumber (n : nat)
| JString (s : jsstring)
| JArray
| JObject.

(** [req.body] when it is an object: its member [query], [None] when the
    body has no such member. *)
Record Body : Type := mkBody {
  query : option Json
}.

(** The request: [body] is [None] when [req.body] is [undefined]. *)
Record Request : Type := mkRequest {
  body : option Body
}.

(** [!v] for the member [v] of the body; [None] is [undefined]. *)
Definition falsy (v : option Json) : bool :=
  match v with
  | None | Some JNull => true
  | Some (JBool b) => negb b
  | Some (JNumber n) => n =? 0
  | Some (JString s) => isEmpty s
  | Some JArray | Some JObject => false
  end.

(** [typeof v === 'string']. *)
Definition isString (v : option Json) : bool :=
  match v with
  | Some (JString _) => true
  | _ => false
  end.

(** What the handler sends: the 400 error object, the pipeline response,
    or the 500 failure object [{ query, error: true, message, details }]. *)
Inductive Payload : Type :=
| BadRequest (error : jsstring)
| Result (result : Coordinator.PipelineResponse)
| Failure (query : jsstring) (message : jsstring) (details : option jsstring).

Record HttpResponse : Type := mkHttp {
  status : nat;
  payload : Payload
}.

(** The handler of [POST /api/query].  The destructuring of [req.body]
    stands in front of the [try]: what it throws leaves the handler.
    [res.json] without [res.status] answers 200.  No thrown value of the
    model carries [details], so [error.details || null] is [null]. *)
Definition handleQuery (coordinator : Coordinator.Agents) (now : jsstring)
  (req : Request) : Exc HttpResponse :=
  query <- member (body req) query ;;
  if falsy query || negb (isString query) then
    Return {| status := 400;
              payload := BadRequest (js "Invalid or missing query in request body.") |}
  else
    match query with
    | Some (JString query) =>
        try_catch
          (result <- Coordinator.orchestrate coordinator now query ;;
           Return {| status := 200; payload := Result result |})
          (fun error =>
             Return {| status := 500;
                       payload :=
                         Failure query
                           (if truthy (message error) then message error
                            else js "An unknown error occurred during agent orchestration.")
                           None |})
    | _ =>
        Return {| status := 400;
                  payload := BadRequest (js "Invalid or missing query in request body.") |}
    end.

End Server.

(* ===================================================================== *)
(** ** The properties of the specification                                 *)
(* ===================================================================== *)

Module Spec.
Import Js Exn.

(** A query with at least one character that can end up in a key. *)
Definition hasKeyChar (query : jsstring) : bool :=
  negb (forallb (fun c => negb (keyChar c)) query).

(** A value that is neither [null] nor [undefined]. *)
Definition nonNull (v : Value) : bool :=
  match v with
  | str _ => true
  | undefined | null => false
  end.

(** The url a successful fetch of [key] reports for the body [data]:
    [data.content_urls.desktop.page], or the wiki url of the key for a body
    without [content_urls]; [None] when reading it throws. *)
Definition reportedUrl (key : jsstring) (data : ResearchAgent.WikiData)
  : option Value :=
  match ResearchAgent.content_urls data with
  | Some urls => option_map ResearchAgent.page (ResearchAgent.desktop urls)
  | None => Some (str (js "https://en.wikipedia.org/wiki/" ++ key))
  end.

(** A body from which the fetch builds a result with content: its url can
    be read and its extract is a non-empty string. *)
Definition usableBody (key : jsstring) (data : ResearchAgent.WikiData) : bool :=
  match reportedUrl key data with
  | Some _ => truthy_value (ResearchAgent.extract data)
  | None => false
  end.

(** The [ok = false] half of the invariant of a fetch result: no summary,
    no url, and an error message. *)
Definition FailureShape (r : ResearchAgent.FetchResult) : Prop :=
  ResearchAgent.summary r = null /\ ResearchAgent.url r = null /\
  exists message, ResearchAgent.error r = str message /\ message <> [].

(** The invariant of a fetch result as the specification words it. *)
Definition FetchInvariant (r : ResearchAgent.FetchResult) : Prop :=
  (ResearchAgent.ok r = true ->
     nonNull (ResearchAgent.summary r) = true /\ nonNull (ResearchAgent.url r) = true) /\
  (ResearchAgent.ok r = false -> FailureShape r).

(** The invariant of an analysis result. *)
Definition AnalysisInvariant (a : AnalysisAgent.AnalysisResult) : Prop :=
  AnalysisAgent.hasContent a = false ->
  AnalysisAgent.difficulty a = AnalysisAgent.unknown /\ AnalysisAgent.keyPoints a = [].

(** What the analyzer answers when there is nothing to analyze. *)
Definition noContentResult : AnalysisAgent.AnalysisResult :=
  {| AnalysisAgent.hasContent := false;
     AnalysisAgent.difficulty := AnalysisAgent.unknown;
     AnalysisAgent.keyPoints := [];
     AnalysisAgent.advisory := js "No research content was found to analyze." |}.

(** A Unicode code point. *)
Definition validCodePoint (cp : N) : Prop := (cp < 1114112)%N.

(** The words of the first question pattern. *)
Definition questionWords : list jsstring :=
  map js [ "who"; "what"; "where"; "when"; "why"; "how" ]%string.

Definition questionVerbs : list jsstring :=
  map js [ "is"; "was"; "are"; "were" ]%string.

(** A response is well formed when it has one of the two shapes of the
    source: a failure with its message and the [no-content] mode, or a
    completion with the query, the timestamp and both stage results. *)
Definition wellFormed (r : Coordinator.PipelineResponse) : bool :=
  if Coordinator.error r then
    match Coordinator.errorMessage r, Coordinator.task r with
    | Some _, TaskAgent.no_content => true
    | _, _ => false
    end
  else
    match Coordinator.query r, Coordinator.timestamp r,
          Coordinator.research r, Coordinator.analysis r with
    | Some _, Some _, Some _, Some _ => true
    | _, _, _, _ => false
    end.

(** [l] keeps some of the elements of [m], in the order of [m]. *)
Inductive Subseq {A} : list A -> list A -> Prop :=
| Subseq_nil : Subseq [] []
| Subseq_skip x l m : Subseq l m -> Subseq l (x :: m)
| Subseq_keep x l m : Subseq l m -> Subseq (x :: l) (x :: m).

(** The strings of [ms] occur in [s] one after the other, without
    overlap. *)
Inductive InOrder : list jsstring -> jsstring -> Prop :=
| InOrder_nil s : InOrder [] s
| InOrder_cons before m ms rest :
    InOrder ms rest -> InOrder (m :: ms) (before ++ m ++ rest).

(** [rest] is empty or begins with a character outside the class [p]: a
    greedy run over [p] stops in front of it. *)
Definition stopsAt (p : N -> bool) (rest : jsstring) : bool :=
  match rest with
  | [] => true
  | c :: _ => negb (p c)
  end.

(** A sentence as the analyzer can see one: a body without terminator that
    begins with a visible character, one terminator, and the whitespace
    that follows it; the trimmed sentence (body and terminator) is longer
    than 20 code units. *)
Definition sentenceText (body : jsstring) (terminator : N) (gap : jsstring) : bool :=
  truthy body && forallb (fun c => negb (AnalysisAgent.isTerminator c)) body &&
  stopsAt isWhiteSpace body &&
  AnalysisAgent.isTerminator terminator &&
  truthy gap && forallb isWhiteSpace gap &&
  (20 <? length body + 1).

Section CaseMapping.
Context {U : Unicode}.

(** The classification rule in the words of the specification: an ordered
    list of rules, the first matching one wins, [overview] otherwise. *)
Definition containsAny (keys : list jsstring) (query : jsstring) : bool :=
  existsb (fun key => includes key (toLowerCase query)) keys.

Definition classify_rules : list ((jsstring -> bool -> bool) * TaskAgent.Mode) :=
  [ (fun _ hasContent => negb hasContent, TaskAgent.no_content);
    (fun q _ =>
       containsAny
         (map js [ "how to"; "how do i"; "get started"; "for beginners"; "learn" ]%string) q,
     TaskAgent.getting_started);
    (fun q _ => containsAny (map js [ "compare"; " vs " ]%string) q,
     TaskAgent.comparison) ].

Fixpoint first_rule (rules : list ((jsstring -> bool -> bool) * TaskAgent.Mode))
  (q : jsstring) (hasContent : bool) : TaskAgent.Mode :=
  match rules with
  | [] => TaskAgent.overview
  | (applies, mode) :: rules' =>
      if applies q hasContent then mode else first_rule rules' q hasContent
  end.

Definition classify_spec (q : jsstring) (hasContent : bool) : TaskAgent.Mode :=
  first_rule classify_rules q hasContent.

(** A summary without any term of the two difficulty vocabularies. *)
Definition noVocabulary (summary : jsstring) : bool :=
  (AnalysisAgent.countIncluded AnalysisAgent.ADVANCED_WORDS (toLowerCase summary) =? 0) &&
  (AnalysisAgent.countIncluded AnalysisAgent.BEGINNER_WORDS (toLowerCase summary) =? 0).

End CaseMapping.

End Spec.

(* ===================================================================== *)
(** ** Concrete inputs                                                     *)
(* ===================================================================== *)

Module Scenario.
Import Js Exn.

(** The result of a fetch that met HTTP 404. *)
Definition failedFetch : ResearchAgent.FetchResult :=
  {| ResearchAgent.topic := str (js "Zzyzx_Qq");
     ResearchAgent.source := js "wikipedia";
     ResearchAgent.ok := false;
     ResearchAgent.summary := null;
     ResearchAgent.url := null;
     ResearchAgent.raw := None;
     ResearchAgent.error := str (js "Topic not found on Wikipedia (HTTP 404).");
     ResearchAgent.triedTopics := None;
     ResearchAgent.errorSummary := undefined |}.

(** A successful fetch. *)
Definition adaUrl : jsstring := js "https://en.wikipedia.org/wiki/Ada_Lovelace".

Definition fetched (summary : jsstring) : ResearchAgent.FetchResult :=
  {| ResearchAgent.topic := str (js "Ada Lovelace");
     ResearchAgent.source := js "wikipedia";
     ResearchAgent.ok := true;
     ResearchAgent.summary := str summary;
     ResearchAgent.url := str adaUrl;
     ResearchAgent.raw := Some {| ResearchAgent.raw_pageid := Some 974%N;
                                  ResearchAgent.raw_thumbnail := None |};
     ResearchAgent.error := undefined;
     ResearchAgent.triedTopics := None;
     ResearchAgent.errorSummary := undefined |}.

(** The response body of the stubbed call. *)
Definition adaData (summary : jsstring) : ResearchAgent.WikiData :=
  {| ResearchAgent.title := str (js "Ada Lovelace");
     ResearchAgent.pageid := Some 974%N;
     ResearchAgent.extract := str summary;
     ResearchAgent.content_urls :=
       Some {| ResearchAgent.desktop := Some {| ResearchAgent.page := str adaUrl |} |};
     ResearchAgent.thumbnail := None |}.

(** An outbound call stubbed to succeed with a given summary. *)
Definition stub (summary : jsstring) (url userAgent : jsstring)
  : Exc (option ResearchAgent.WikiData) :=
  Return (Some (adaData summary)).

(** A body that has a title and nothing else, and one whose [content_urls]
    has no [desktop] member. *)
Definition titleOnly : ResearchAgent.WikiData :=
  {| ResearchAgent.title := str (js "Ada Lovelace");
     ResearchAgent.pageid := None;
     ResearchAgent.extract := undefined;
     ResearchAgent.content_urls := None;
     ResearchAgent.thumbnail := None |}.

Definition mobileOnly (summary : jsstring) : ResearchAgent.WikiData :=
  {| ResearchAgent.title := str (js "Ada Lovelace");
     ResearchAgent.pageid := Some 974%N;
     ResearchAgent.extract := str summary;
     ResearchAgent.content_urls := Some {| ResearchAgent.desktop := None |};
     ResearchAgent.thumbnail := None |}.

(** A summary of three sentences, each followed by whitespace. *)
Definition sentence1 : jsstring :=
  js "Ada Lovelace was an English mathematician and writer".
Definition sentence2 : jsstring :=
  js "She worked on the Analytical Engine with Charles Babbage".
Definition sentence3 : jsstring :=
  js "She is often regarded as the first computer programmer".

Definition adaSummary : jsstring :=
  (sentence1 ++ js ". ") ++ (sentence2 ++ js ". ") ++ (sentence3 ++ js ". ").

(** A summary of three sentences of at most 20 characters. *)
Definition shortSummary : jsstring :=
  js "Ada was a writer. She did math. She died in 1852. ".

(** The same three sentences as an extract usually comes: nothing behind
    the last full stop. *)
Definition adaExtract : jsstring :=
  (sentence1 ++ js ". ") ++ (sentence2 ++ js ". ") ++ (sentence3 ++ js ".").

(** Three sentences, the first with a full stop and a space inside. *)
Definition titledSummary : jsstring :=
  js "Ada Lovelace worked with Mr. Babbage on the Analytical Engine. She wrote the first published program. She is often regarded as the first programmer. ".

Definition noon : jsstring := js "2026-01-01T12:00:00.000Z".

(** A coordinator whose analysis agent throws. *)
Definition typeError : JsError :=
  runtimeError (js "Cannot read properties of undefined").

Definition brokenAnalysis : Coordinator.Agents :=
  {| Coordinator.researchAgent := ResearchAgent.run (U := asciiOnly) (stub adaSummary);
     Coordinator.analysisAgent := fun _ => Throw typeError;
     Coordinator.taskAgent :=
       fun query researchResult analysisResult =>
         Return (TaskAgent.run (U := asciiOnly) query researchResult analysisResult) |}.

End Scenario.

(* ===================================================================== *)
(** * Theorems                                                             *)
(* ===================================================================== *)

Import Js Regex Exn Spec.

(** ** Topic extraction on the two documented inputs *)

(** C8: [extractTopic] maps "who is mahatma gandhi" to "Mahatma_Gandhi" and
    "what is the cost of a new elantra" to "Elantra". *)
Theorem extractTopic_documented_examples {U : Unicode} :
  ResearchAgent.extractTopic (js "who is mahatma gandhi") = js "Mahatma_Gandhi" /\
  ResearchAgent.extractTopic (js "what is the cost of a new elantra") = js "Elantra".
Proof. split; vm_compute; reflexivity. Qed.

(** ** Intent classification *)

Lemma containsAny_getting_started {U : Unicode} q :
  containsAny
    (map js [ "how to"; "how do i"; "get started"; "for beginners"; "learn" ]%string) q =
  (includes (js "how to") (toLowerCase q) || includes (js "how do i") (toLowerCase q) ||
   includes (js "get started") (toLowerCase q) ||
   includes (js "for beginners") (toLowerCase q) ||
   includes (js "learn") (toLowerCase q)).
Proof.
  unfold containsAny. cbn [existsb map].
  rewrite orb_false_r, !orb_assoc. reflexivity.
Qed.

Lemma containsAny_comparison {U : Unicode} q :
  containsAny (map js [ "compare"; " vs " ]%string) q =
  (includes (js "compare") (toLowerCase q) || includes (js " vs ") (toLowerCase q)).
Proof.
  unfold containsAny. cbn [existsb map]. rewrite orb_false_r. reflexivity.
Qed.

(** C5: [classifyIntent] applies the rules of the specification in priority
    order, the first matching rule winning: without content the mode is
    no-content whatever the query; otherwise a getting-started phrase
    gives getting-started, else "compare" or " vs " gives comparison, else
    overview.  The three documented queries get the documented modes. *)
Theorem classifyIntent_refines_spec {U : Unicode} :
  (forall q hasContent,
     TaskAgent.classifyIntent q hasContent = classify_spec q hasContent) /\
  (forall q, TaskAgent.classifyIntent q false = TaskAgent.no_content) /\
  TaskAgent.classifyIntent (js "how do I learn Kubernetes") true
    = TaskAgent.getting_started /\
  TaskAgent.classifyIntent (js "Python vs Go") true = TaskAgent.comparison /\
  TaskAgent.classifyIntent (js "tell me about Rome") true = TaskAgent.overview.
Proof.
  split; [| split; [| repeat split; vm_compute; reflexivity ] ].
  - intros q hasContent.
    unfold classify_spec, classify_rules, first_rule, TaskAgent.classifyIntent.
    rewrite containsAny_getting_started, containsAny_comparison.
    destruct hasContent; reflexivity.
  - intros q. reflexivity.
Qed.

(** ** The analyzer without content *)

(** C4: for a fetch result with [ok = false], or with an absent, null or
    empty summary, the analyzer returns exactly the no-content result; and
    whatever the fetch result, an analysis without content has difficulty
    unknown and no key points. *)
Theorem analyze_without_content {U : Unicode} (r : ResearchAgent.FetchResult)
  (H : ResearchAgent.ok r = false \/ ResearchAgent.summary r = undefined \/
       ResearchAgent.summary r = null \/ ResearchAgent.summary r = str []) :
  AnalysisAgent.run r = noContentResult /\
  (forall r', AnalysisInvariant (AnalysisAgent.run r')).
Proof.
  split.
  - unfold AnalysisAgent.run.
    destruct H as [H | [H | [H | H]]]; rewrite H; cbn.
    + reflexivity.
    + rewrite orb_true_r. reflexivity.
    + rewrite orb_true_r. reflexivity.
    + rewrite orb_true_r. reflexivity.
  - intros r'. unfold AnalysisInvariant, AnalysisAgent.run.
    destruct (negb (ResearchAgent.ok r') ||
              negb (truthy_value (ResearchAgent.summary r')));
      cbn; [ auto | discriminate ].
Qed.

Lemma analyze_without_content_witness :
  AnalysisAgent.run (U := asciiOnly) Scenario.failedFetch = noContentResult /\
  (forall r', AnalysisInvariant (AnalysisAgent.run (U := asciiOnly) r')).
Proof.
  apply (analyze_without_content (U := asciiOnly) Scenario.failedFetch).
  left. reflexivity.
Defined.

(** ** The analyzer with content *)

(** C10: for a fetch result with [ok = true] and a non-null, non-empty
    summary the analyzer reports content and at least one key point. *)
Theorem analyze_with_content_has_points {U : Unicode}
  (r : ResearchAgent.FetchResult) (s : jsstring)
  (Hok : ResearchAgent.ok r = true)
  (Hsum : ResearchAgent.summary r = str s)
  (Hne : s <> []) :
  AnalysisAgent.hasContent (AnalysisAgent.run r) = true /\
  AnalysisAgent.keyPoints (AnalysisAgent.run r) <> [].
Proof.
  unfold AnalysisAgent.run. rewrite Hok, Hsum.
  destruct s as [| c s']; [ congruence |].
  cbn [negb orb truthy_value truthy isEmpty AnalysisAgent.hasContent
       AnalysisAgent.keyPoints andb].
  split; [ reflexivity |].
  destruct (AnalysisAgent.extractKeyPoints (c :: s') 5) as [| p ps] eqn:E;
    cbn; discriminate.
Qed.

Lemma analyze_with_content_has_points_witness :
  AnalysisAgent.hasContent
    (AnalysisAgent.run (U := asciiOnly)
       (Scenario.fetched (js "Ada Lovelace was a writer."))) = true /\
  AnalysisAgent.keyPoints
    (AnalysisAgent.run (U := asciiOnly)
       (Scenario.fetched (js "Ada Lovelace was a writer."))) <> [].
Proof.
  apply (analyze_with_content_has_points (U := asciiOnly)
           (Scenario.fetched (js "Ada Lovelace was a writer."))
           (js "Ada Lovelace was a writer.")).
  - reflexivity.
  - reflexivity.
  - discriminate.
Defined.

(** ** The orchestrator *)

(** C2: whatever the three agents do, [orchestrate] returns a response and
    never throws, and the response is well formed.  When the analysis stage
    throws, the default analysis result is substituted and handed to the
    planning stage, which decides the response as usual. *)
Theorem orchestrate_never_throws (this : Coordinator.Agents) (now query : jsstring) :
  exists resp,
    Coordinator.orchestrate this now query = Return resp /\
    wellFormed resp = true /\
    forall researchResult err,
      Coordinator.researchAgent this query = Return researchResult ->
      Coordinator.analysisAgent this researchResult = Throw err ->
      let fallback :=
        {| AnalysisAgent.hasContent := false;
           AnalysisAgent.difficulty := AnalysisAgent.unknown;
           AnalysisAgent.keyPoints := [];
           AnalysisAgent.advisory := js "Analysis failed unexpectedly." |} in
      Coordinator.research resp = Some researchResult /\
      Coordinator.analysis resp = Some fallback /\
      match Coordinator.taskAgent this query researchResult fallback with
      | Return taskResult =>
          Coordinator.error resp = false /\
          Coordinator.task resp = TaskAgent.mode taskResult /\
          Coordinator.finalAnswer resp = TaskAgent.finalAnswer taskResult
      | Throw _ =>
          Coordinator.error resp = true /\
          Coordinator.errorMessage resp = Some (js "Task planning failed unexpectedly.")
      end.
Proof.
  unfold Coordinator.orchestrate.
  destruct (Coordinator.researchAgent this query) as [researchResult | e1].
  - destruct (Coordinator.analysisAgent this researchResult)
      as [analysisResult | e2] eqn:Hanalysis.
    + destruct (Coordinator.taskAgent this query researchResult analysisResult)
        as [taskResult | e3];
        eexists; (split; [ reflexivity |]); (split; [ reflexivity |]);
        intros rr err Hrr Hthrow; injection Hrr as <-; congruence.
    + destruct (Coordinator.taskAgent this query researchResult Coordinator.analysisFallback)
        as [taskResult | e3] eqn:Htask;
        eexists; (split; [ reflexivity |]); (split; [ reflexivity |]);
        intros rr err Hrr Hthrow; injection Hrr as <-; cbv zeta;
        unfold Coordinator.analysisFallback in Htask; rewrite Htask; auto.
  - eexists. split; [ reflexivity |]. split; [ reflexivity |].
    intros rr err Hrr. discriminate.
Qed.

Lemma orchestrate_never_throws_witness :
  exists resp,
    Coordinator.orchestrate Scenario.brokenAnalysis Scenario.noon
      (js "who is Ada Lovelace") = Return resp /\
    wellFormed resp = true /\
    Coordinator.analysis resp = Some Coordinator.analysisFallback /\
    Coordinator.error resp = false /\
    Coordinator.task resp = TaskAgent.no_content.
Proof.
  destruct (orchestrate_never_throws Scenario.brokenAnalysis Scenario.noon
              (js "who is Ada Lovelace")) as [resp [Hresp [Hwf Hthrow]]].
  exists resp. split; [ exact Hresp |]. split; [ exact Hwf |].
  destruct (Hthrow (Scenario.fetched Scenario.adaSummary) Scenario.typeError)
    as [_ [Hanalysis Htask]].
  - vm_compute. reflexivity.
  - reflexivity.
  - split; [ exact Hanalysis |]. cbn in Htask. tauto.
Defined.

(** ** The fetch boundary *)

Lemma member_some {A B} (o : option A) (get : A -> B) b :
  member o get = Return b <-> exists a, o = Some a /\ get a = b.
Proof.
  destruct o as [a |]; cbn; split.
  - intros H. injection H as <-. eauto.
  - intros [a' [Ha <-]]. injection Ha as <-. reflexivity.
  - discriminate.
  - intros [a' [Ha _]]. discriminate.
Qed.

(** A fetch that ends with [ok = true] read every member without a throw. *)
Lemma fetch_ok_true axios_get key r :
  ResearchAgent.fetchWikiSummary axios_get key = Return r ->
  ResearchAgent.ok r = true ->
  exists encoded data,
    ResearchAgent.encodeURIComponent key = Some encoded /\
    axios_get (ResearchAgent.WIKI_API_BASE ++ encoded) ResearchAgent.USER_AGENT
      = Return (Some data) /\
    ResearchAgent.topic r = ResearchAgent.title data /\
    ResearchAgent.summary r = ResearchAgent.extract data /\
    reportedUrl key data = Some (ResearchAgent.url r).
Proof.
  unfold ResearchAgent.fetchWikiSummary, try_catch, bind, reportedUrl.
  destruct (ResearchAgent.encodeURIComponent key) as [encoded |];
    [| intros H; injection H as <-; discriminate ].
  destruct (axios_get _ _) as [[data |] | err] eqn:Hcall; cbn [member];
    try (intros H; injection H as <-; discriminate).
  destruct (ResearchAgent.content_urls data) as [[[d |]] |] eqn:Hurls;
    cbn [member ResearchAgent.desktop];
    try (intros H; injection H as <-; discriminate);
    intros H Hok; injection H as <-; exists encoded, data; rewrite Hurls;
    repeat split; assumption.
Qed.

Lemma failure_message_set (e : JsError) :
  match response e with
  | Some httpStatus =>
      if httpStatus =? 404
      then js "Topic not found on Wikipedia (HTTP "
             ++ ResearchAgent.showNumber httpStatus ++ js ")."
      else js "Wikipedia API returned error status "
             ++ ResearchAgent.showNumber httpStatus ++ js "."
  | None =>
      if request e then js "No response received from Wikipedia API."
      else js "Network or unknown API error."
  end <> [].
Proof.
  destruct (response e) as [n |];
    [ destruct (n =? 404) | destruct (request e) ]; discriminate.
Qed.

Ltac failure_shape :=
  let H := fresh in
  intros H _; injection H as <-;
  split; [ reflexivity |]; do 2 (split; [ reflexivity |]);
  eexists; split; [ reflexivity | first [ apply failure_message_set | discriminate ] ].

Lemma fetch_ok_false axios_get key r :
  ResearchAgent.fetchWikiSummary axios_get key = Return r ->
  ResearchAgent.ok r = false ->
  ResearchAgent.topic r = str key /\ FailureShape r.
Proof.
  unfold ResearchAgent.fetchWikiSummary, try_catch, bind, FailureShape.
  destruct (ResearchAgent.encodeURIComponent key) as [encoded |];
    [| failure_shape ].
  destruct (axios_get _ _) as [[data |] | err] eqn:Hcall; cbn [member];
    try failure_shape.
  destruct (ResearchAgent.content_urls data) as [[[d |]] |] eqn:Hurls;
    cbn [member ResearchAgent.desktop];
    try failure_shape;
    intros H Hok; injection H as <-; discriminate.
Qed.

Lemma fetch_returns axios_get key :
  exists r, ResearchAgent.fetchWikiSummary axios_get key = Return r.
Proof.
  unfold ResearchAgent.fetchWikiSummary, try_catch.
  destruct (bind _ _); eauto.
Qed.

Lemma fetch_call_throws axios_get key encoded r :
  ResearchAgent.fetchWikiSummary axios_get key = Return r ->
  ResearchAgent.encodeURIComponent key = Some encoded ->
  throws (axios_get (ResearchAgent.WIKI_API_BASE ++ encoded) ResearchAgent.USER_AGENT)
    = true ->
  ResearchAgent.ok r = false.
Proof.
  intros Hr Henc Hthrow.
  destruct (ResearchAgent.ok r) eqn:Hok; [| reflexivity ].
  destruct (fetch_ok_true _ _ _ Hr Hok) as [encoded' [data [Henc' [Hcall _]]]].
  rewrite Henc in Henc'. injection Henc' as <-.
  rewrite Hcall in Hthrow. discriminate.
Qed.

(** C3, as the code has it: [fetchWikiSummary] never throws.  A failure of
    the outbound call ends in a result with [ok = false]; so does a key
    that cannot be encoded and a body whose members cannot be read.  A
    result with [ok = false] has no summary, no url and an error message.
    A result with [ok = true] comes from a call that returned a body: its
    summary is the member [extract] of the body and its url the desktop
    page of the body (the wiki url of the key for a body without
    [content_urls]), so they are non-null when the body has them.  The
    same holds of [ResearchAgent.run] for the extracted key. *)
Theorem fetch_never_throws {U : Unicode}
  (axios_get : jsstring -> jsstring -> Exc (option ResearchAgent.WikiData))
  (key query : jsstring) :
  let fetched key r :=
    (forall encoded,
       ResearchAgent.encodeURIComponent key = Some encoded ->
       throws (axios_get (ResearchAgent.WIKI_API_BASE ++ encoded)
                 ResearchAgent.USER_AGENT) = true ->
       ResearchAgent.ok r = false) /\
    (ResearchAgent.ok r = false -> FailureShape r) /\
    (ResearchAgent.ok r = true ->
     exists encoded data,
       ResearchAgent.encodeURIComponent key = Some encoded /\
       axios_get (ResearchAgent.WIKI_API_BASE ++ encoded) ResearchAgent.USER_AGENT
         = Return (Some data) /\
       ResearchAgent.summary r = ResearchAgent.extract data /\
       reportedUrl key data = Some (ResearchAgent.url r) /\
       (nonNull (ResearchAgent.extract data) = true ->
        nonNull (ResearchAgent.url r) = true -> FetchInvariant r)) in
  (exists r, ResearchAgent.fetchWikiSummary axios_get key = Return r /\ fetched key r) /\
  (exists r, ResearchAgent.run axios_get query = Return r /\
             fetched (ResearchAgent.extractTopic query) r).
Proof.
  intros fetched.
  assert (Hfetch : forall topic, exists r,
            ResearchAgent.fetchWikiSummary axios_get topic = Return r /\ fetched topic r).
  { intros topic. destruct (fetch_returns axios_get topic) as [r Hr].
    exists r. split; [ exact Hr |]. unfold fetched.
    split; [ intros encoded; apply fetch_call_throws; exact Hr |].
    split; [ intros Hok; apply (fetch_ok_false _ _ _ Hr Hok) |].
    intros Hok.
    destruct (fetch_ok_true _ _ _ Hr Hok) as [encoded [data [Henc [Hcall [_ [Hsum Hurl]]]]]].
    exists encoded, data. do 4 (split; [ assumption |]).
    intros Hextract Hpage. unfold FetchInvariant.
    split; [ intros _; rewrite Hsum; auto | congruence ]. }
  split; [ apply Hfetch |].
  destruct (Hfetch (ResearchAgent.extractTopic query)) as [r [Hr Hshape]].
  exists r. unfold ResearchAgent.run. rewrite Hr. cbn. auto.
Qed.

(** A call that returns a body without [extract] gives a result with
    [ok = true] and no summary. *)
Lemma fetch_ok_without_summary :
  exists r,
    ResearchAgent.fetchWikiSummary (fun _ _ => Return (Some Scenario.titleOnly))
      (js "Ada_Lovelace") = Return r /\
    ResearchAgent.ok r = true /\
    ResearchAgent.summary r = undefined /\
    ~ FetchInvariant r.
Proof.
  eexists. split; [ vm_compute; reflexivity |].
  split; [ reflexivity |]. split; [ reflexivity |].
  intros [H _]. destruct (H eq_refl) as [Hsummary _]. discriminate.
Qed.

(** A call that returns a body whose [content_urls] has no [desktop] gives
    a result with [ok = false], although the call succeeded. *)
Example fetch_unreadable_body :
  exists r,
    ResearchAgent.fetchWikiSummary
      (fun _ _ => Return (Some (Scenario.mobileOnly Scenario.adaSummary)))
      (js "Ada_Lovelace") = Return r /\
    ResearchAgent.ok r = false /\
    ResearchAgent.error r = str (js "Network or unknown API error.").
Proof. eexists. split; [ vm_compute; reflexivity |]. split; reflexivity. Qed.

(** ** Characters and strings *)

Ltac char_facts :=
  unfold ResearchAgent.isUnreserved, ResearchAgent.isHighSurrogate,
         ResearchAgent.isLowSurrogate, AnalysisAgent.isTerminator, keyChar, isDot,
         isWhiteSpace, isWordChar, isQuestionMark, isLineTerminator, isAsciiUnit,
         asciiUpper, asciiLower, between in *;
  cbn [existsb] in *;
  repeat match goal with
         | |- context [if ?b then _ else _] => destruct b eqn:?
         | H : context [if ?b then _ else _] |- _ => destruct b eqn:?
         end;
  repeat (progress
            rewrite ?orb_true_iff, ?andb_true_iff, ?negb_true_iff, ?orb_false_iff,
              ?andb_false_iff, ?negb_false_iff, ?N.leb_le, ?N.eqb_eq, ?N.ltb_lt,
              ?N.leb_gt, ?N.eqb_neq, ?N.ltb_ge in *);
  try lia.

Lemma asciiUpper_keyChar c : keyChar c = true -> keyChar (asciiUpper c) = true.
Proof. char_facts. Qed.

Lemma isWordChar_keyChar c : isWordChar c = true -> keyChar c = true.
Proof. char_facts. Qed.

Lemma isWhiteSpace_not_keyChar c : isWhiteSpace c = true -> keyChar c = false.
Proof. intros H. unfold keyChar. rewrite H. reflexivity. Qed.

Lemma keyChar_not_space c : keyChar c = true -> isWhiteSpace c = false.
Proof.
  unfold keyChar. intros H. apply andb_true_iff in H as [H _].
  apply negb_true_iff. exact H.
Qed.

Lemma isEmpty_true s : isEmpty s = true -> s = [].
Proof. destruct s; [ reflexivity | discriminate ]. Qed.

Lemma truthy_true s : truthy s = true <-> s <> [].
Proof.
  destruct s; cbn; split; intros H; try congruence; discriminate.
Qed.

Lemma forallb_impl (p q : N -> bool) s :
  (forall c, p c = true -> q c = true) ->
  forallb p s = true -> forallb q s = true.
Proof.
  intros Hpq. rewrite !forallb_forall. auto.
Qed.

Lemma forallb_filter (p : N -> bool) s : forallb p (filter p s) = true.
Proof.
  apply forallb_forall. intros c Hc. apply filter_In in Hc. tauto.
Qed.

(** Dropping characters that satisfy [q] does not change whether all
    characters satisfy [q]. *)
Lemma forallb_filter_other (p q : N -> bool) s :
  (forall c, p c = false -> q c = true) ->
  forallb q (filter p s) = forallb q s.
Proof.
  intros Hpq. induction s as [| c s IH]; cbn; [ reflexivity |].
  destruct (p c) eqn:E; cbn; rewrite IH; [ reflexivity |].
  rewrite (Hpq c E). reflexivity.
Qed.

Section Trim.
Variable q : N -> bool.
Hypothesis q_space : forall c, isWhiteSpace c = true -> q c = true.

Lemma forallb_trimStart s : forallb q (trimStart s) = forallb q s.
Proof.
  induction s as [| c s IH]; cbn; [ reflexivity |].
  destruct (isWhiteSpace c) eqn:E; [| reflexivity ].
  rewrite IH, (q_space c E). reflexivity.
Qed.

Lemma forallb_trimEnd s : forallb q (trimEnd s) = forallb q s.
Proof.
  induction s as [| c s IH]; cbn; [ reflexivity |].
  destruct (isWhiteSpace c) eqn:E; cbn.
  - destruct (isEmpty (trimEnd s)) eqn:Et; cbn.
    + apply isEmpty_true in Et. rewrite Et in IH. cbn in IH.
      rewrite <- IH, (q_space c E). reflexivity.
    + rewrite IH. reflexivity.
  - rewrite IH. reflexivity.
Qed.

Lemma forallb_trim s : forallb q (trim s) = forallb q s.
Proof. unfold trim. rewrite forallb_trimEnd, forallb_trimStart. reflexivity. Qed.
End Trim.

(** The pieces of a split hold no whitespace, and nothing else that the
    split string did not hold. *)
Lemma split_ws_go_pieces (p : N -> bool) s : forall in_sep cur,
  forallb p cur = true ->
  forallb (fun c => isWhiteSpace c || p c) s = true ->
  Forall (fun w => forallb p w = true) (split_ws_go in_sep cur s).
Proof.
  induction s as [| c s IH]; intros in_sep cur Hcur Hs; cbn.
  - constructor; [ exact Hcur | constructor ].
  - cbn in Hs. apply andb_true_iff in Hs as [Hc Hs].
    destruct (isWhiteSpace c) eqn:E.
    + destruct in_sep; [| constructor; [ exact Hcur |] ]; apply IH; auto.
    + apply IH; [| exact Hs ].
      rewrite forallb_app, Hcur. cbn in *. rewrite Hc. reflexivity.
Qed.

Lemma words_pieces (p : N -> bool) s :
  forallb (fun c => isWhiteSpace c || p c) s = true ->
  Forall (fun w => truthy w = true /\ forallb p w = true) (words s).
Proof.
  intros Hs. unfold words, split_ws.
  pose proof (split_ws_go_pieces p s false [] eq_refl Hs) as H.
  rewrite Forall_forall in *. intros w Hw.
  apply filter_In in Hw as [Hin Ht]. auto.
Qed.

(** A split that starts inside a piece yields that piece. *)
Lemma split_ws_go_open s : forall cur,
  cur <> [] -> filter truthy (split_ws_go false cur s) <> [].
Proof.
  induction s as [| c s IH]; intros cur Hcur; cbn.
  - apply truthy_true in Hcur. rewrite Hcur. discriminate.
  - destruct (isWhiteSpace c).
    + cbn. apply truthy_true in Hcur. rewrite Hcur. discriminate.
    + apply IH. destruct cur; discriminate.
Qed.

Lemma split_ws_go_no_words s : forall in_sep cur,
  filter truthy (split_ws_go in_sep cur s) = [] -> forallb isWhiteSpace s = true.
Proof.
  induction s as [| c s IH]; intros in_sep cur H; cbn; [ reflexivity |].
  cbn in H. destruct (isWhiteSpace c) eqn:E; cbn.
  - destruct in_sep.
    + eapply IH; eassumption.
    + cbn in H. destruct (truthy cur); [ discriminate |]. eapply IH; eassumption.
  - exfalso. revert H. apply split_ws_go_open. destruct cur; discriminate.
Qed.

Lemma words_nil s : words s = [] -> forallb isWhiteSpace s = true.
Proof. apply split_ws_go_no_words. Qed.

Section Capitalize.
Context {U : Unicode}.

Lemma upperUnit_keyChars c :
  keyChar c = true -> upperUnit c <> [] /\ forallb keyChar (upperUnit c) = true.
Proof.
  intros Hc. unfold upperUnit. destruct (isAsciiUnit c) eqn:Hascii.
  - split; [ discriminate |]. cbn. rewrite (asciiUpper_keyChar c Hc). reflexivity.
  - apply upper_visible; [ exact Hascii | apply keyChar_not_space; exact Hc ].
Qed.

Lemma capitalize_keyChars w :
  forallb keyChar w = true -> forallb keyChar (capitalize w) = true.
Proof.
  destruct w as [| c w]; cbn; [ auto |].
  intros H. apply andb_true_iff in H as [Hc Hw].
  rewrite forallb_app, Hw.
  destruct (upperUnit_keyChars c Hc) as [_ ->]. reflexivity.
Qed.

Lemma capitalize_truthy w :
  forallb keyChar w = true -> truthy w = true -> truthy (capitalize w) = true.
Proof.
  destruct w as [| c w]; cbn; [ auto |].
  intros H _. apply andb_true_iff in H as [Hc _].
  destruct (upperUnit_keyChars c Hc) as [Hne _].
  destruct (upperUnit c); [ congruence | reflexivity ].
Qed.

End Capitalize.

Lemma join_forallb (p : N -> bool) sep l :
  forallb p sep = true ->
  Forall (fun w => forallb p w = true) l ->
  forallb p (join sep l) = true.
Proof.
  intros Hsep Hl. induction Hl as [| w l Hw Hl IH]; cbn; [ reflexivity |].
  destruct l as [| w' l']; [ exact Hw |].
  rewrite !forallb_app, Hw, Hsep. exact IH.
Qed.

Lemma join_cons_truthy sep w l : truthy w = true -> truthy (join sep (w :: l)) = true.
Proof.
  destruct w as [| c w]; [ discriminate |].
  intros _. cbn. destruct l; reflexivity.
Qed.

(** A joined list that starts with a word of key characters has a key
    character. *)
Lemma join_cons_hasKeyChar sep w l :
  truthy w = true -> forallb keyChar w = true ->
  hasKeyChar (join sep (w :: l)) = true.
Proof.
  destruct w as [| c w]; [ discriminate |].
  intros _ H. cbn in H. apply andb_true_iff in H as [Hc _].
  unfold hasKeyChar. cbn. destruct l; cbn; rewrite Hc; reflexivity.
Qed.

(** ** Normalized titles *)

Section Titles.
Context {U : Unicode}.

(** The words that [normalizeTitle] capitalizes are non-empty and made of
    key characters. *)
Lemma title_words phrase :
  Forall (fun w => truthy w = true /\ forallb keyChar w = true)
    (words (filter (fun c => negb (isQuestionMark c)) (trim phrase))).
Proof.
  apply words_pieces.
  eapply forallb_impl; [| apply forallb_filter ].
  intros c Hc. cbn beta in Hc. unfold keyChar. rewrite Hc.
  destruct (isWhiteSpace c); reflexivity.
Qed.

Lemma normalizeTitle_keyChars phrase :
  forallb keyChar (ResearchAgent.normalizeTitle phrase) = true.
Proof.
  unfold ResearchAgent.normalizeTitle.
  apply join_forallb; [ reflexivity |].
  rewrite Forall_forall. intros w Hw.
  apply in_map_iff in Hw as [w0 [<- Hw0]].
  apply capitalize_keyChars.
  pose proof (title_words phrase) as H.
  rewrite Forall_forall in H. apply H. exact Hw0.
Qed.

Lemma normalizeTitle_truthy phrase :
  hasKeyChar phrase = true -> truthy (ResearchAgent.normalizeTitle phrase) = true.
Proof.
  intros Hkey. unfold ResearchAgent.normalizeTitle.
  pose proof (title_words phrase) as Hwords0.
  set (body := filter (fun c => negb (isQuestionMark c)) (trim phrase)) in *.
  destruct (words body) as [| w ws] eqn:Hwords.
  - exfalso. apply words_nil in Hwords.
    unfold hasKeyChar in Hkey. apply negb_true_iff in Hkey.
    assert (Hall : forallb (fun c => negb (keyChar c)) body = true).
    { eapply forallb_impl; [| exact Hwords ].
      intros c Hc. rewrite (isWhiteSpace_not_keyChar c Hc). reflexivity. }
    unfold body in Hall.
    rewrite forallb_filter_other in Hall.
    + rewrite forallb_trim in Hall; [ congruence |].
      intros c Hc. rewrite (isWhiteSpace_not_keyChar c Hc). reflexivity.
    + intros c Hc. unfold keyChar. apply negb_false_iff in Hc. rewrite Hc.
      rewrite andb_false_r. reflexivity.
  - cbn [map]. apply join_cons_truthy.
    inversion Hwords0 as [| ? ? [Ht Hk] _]; subst.
    apply capitalize_truthy; assumption.
Qed.

(** ** Topic extraction *)

Lemma In_slice_last {A} n (l : list A) x : In x (slice_last n l) -> In x l.
Proof.
  unfold slice_last. generalize (length l - n). intros k. revert l.
  induction k as [| k IH]; intros l H; [ exact H |].
  destruct l as [| y l]; [ exact H |]. right. apply IH. exact H.
Qed.

Lemma pattern_loop_key ps trimmed k :
  ResearchAgent.pattern_loop ps trimmed = Some k ->
  forallb keyChar k = true /\ 3 <= length k.
Proof.
  induction ps as [| pattern ps IH]; cbn [ResearchAgent.pattern_loop]; [ discriminate |].
  destruct (ResearchAgent.pattern_subject pattern trimmed) as [rawTopic |]; [| exact IH ].
  destruct (3 <=? length (ResearchAgent.subject_key rawTopic)) eqn:E; [| exact IH ].
  intros H. injection H as <-. split.
  - apply normalizeTitle_keyChars.
  - apply Nat.leb_le. exact E.
Qed.

(** The words of the keyword candidate are non-empty and made of word
    characters. *)
Lemma keyword_candidate_words lower w :
  In w (ResearchAgent.keyword_candidate lower) ->
  truthy w = true /\ forallb keyChar w = true.
Proof.
  unfold ResearchAgent.keyword_candidate.
  set (body := filter (fun c => isWordChar c || isWhiteSpace c) lower).
  set (ws := filter _ (words body)).
  assert (Hbody : Forall (fun w => truthy w = true /\ forallb isWordChar w = true)
                    (words body)).
  { apply words_pieces. eapply forallb_impl; [| apply forallb_filter ].
    intros c Hc. cbn beta in Hc. rewrite orb_comm. exact Hc. }
  assert (Hws : forall x, In x ws -> truthy x = true /\ forallb keyChar x = true).
  { intros x Hx. unfold ws in Hx. apply filter_In in Hx as [Hx _].
    rewrite Forall_forall in Hbody. destruct (Hbody x Hx) as [Ht Hw].
    split; [ exact Ht |]. eapply forallb_impl; [ apply isWordChar_keyChar | exact Hw ]. }
  assert (Hcand : forall x,
            In x match filter (fun w0 => negb (has ResearchAgent.PRICE_WORDS w0)) ws with
                 | [] => ws
                 | _ :: _ => filter (fun w0 => negb (has ResearchAgent.PRICE_WORDS w0)) ws
                 end -> In x ws).
  { intros x. destruct (filter _ ws) as [| y ys] eqn:E; [ auto |].
    rewrite <- E. intros Hx. apply filter_In in Hx. tauto. }
  intros Hin. apply Hws, Hcand.
  destruct (2 <=? _); [ eapply In_slice_last |]; exact Hin.
Qed.

Lemma keyword_or_query_truthy query lower :
  hasKeyChar query = true ->
  truthy (ResearchAgent.keyword_or_query query lower) = true.
Proof.
  intros Hkey. unfold ResearchAgent.keyword_or_query.
  destruct (3 <=? _) eqn:E; [| apply normalizeTitle_truthy; exact Hkey ].
  destruct (ResearchAgent.keyword_candidate lower) as [| w ws] eqn:Hcand;
    [ discriminate |].
  apply normalizeTitle_truthy.
  destruct (keyword_candidate_words lower w) as [Ht Hw];
    [ rewrite Hcand; left; reflexivity |].
  apply join_cons_hasKeyChar; assumption.
Qed.

Lemma keyword_or_query_keyChars query lower :
  forallb keyChar (ResearchAgent.keyword_or_query query lower) = true.
Proof.
  unfold ResearchAgent.keyword_or_query.
  destruct (3 <=? _); apply normalizeTitle_keyChars.
Qed.

(** Every key is free of whitespace and question marks. *)
Lemma extractTopic_keyChars query :
  forallb keyChar (ResearchAgent.extractTopic query) = true.
Proof.
  unfold ResearchAgent.extractTopic.
  destruct (negb (truthy query)); [ reflexivity |].
  destruct (negb (truthy (trim query))); [ reflexivity |].
  destruct (ResearchAgent.pattern_loop _ _) as [k |] eqn:E.
  - apply (pattern_loop_key _ _ _ E).
  - apply keyword_or_query_keyChars.
Qed.

End Titles.

Lemma hasKeyChar_truthy s : hasKeyChar s = true -> truthy s = true.
Proof. destruct s; [ discriminate | reflexivity ]. Qed.

Lemma hasKeyChar_trim s : hasKeyChar (trim s) = hasKeyChar s.
Proof.
  unfold hasKeyChar. rewrite forallb_trim; [ reflexivity |].
  intros c Hc. rewrite (isWhiteSpace_not_keyChar c Hc). reflexivity.
Qed.

(** C1, as the code has it: for every query with at least one character
    other than whitespace and '?', [extractTopic] returns a non-empty
    string that contains no whitespace character and no '?'. *)
Theorem extractTopic_key {U : Unicode} (query : jsstring)
  (H : hasKeyChar query = true) :
  ResearchAgent.extractTopic query <> [] /\
  forallb (fun c => negb (isWhiteSpace c)) (ResearchAgent.extractTopic query) = true /\
  forallb (fun c => negb (isQuestionMark c)) (ResearchAgent.extractTopic query) = true.
Proof.
  split.
  - apply truthy_true. unfold ResearchAgent.extractTopic.
    rewrite (hasKeyChar_truthy query H). cbn [negb].
    rewrite (hasKeyChar_truthy (trim query)) by (rewrite hasKeyChar_trim; exact H).
    cbn [negb].
    destruct (ResearchAgent.pattern_loop _ _) as [k |] eqn:E.
    + destruct (pattern_loop_key _ _ _ E) as [_ Hlen].
      destruct k; [ cbn in Hlen; lia | reflexivity ].
    + apply keyword_or_query_truthy. exact H.
  - pose proof (extractTopic_keyChars query) as Hk.
    split; (eapply forallb_impl; [| exact Hk ]); intros c Hc;
      unfold keyChar in Hc; apply andb_true_iff in Hc; tauto.
Qed.

Lemma extractTopic_key_witness :
  ResearchAgent.extractTopic (U := asciiOnly) (js "what is AI?") <> [] /\
  forallb (fun c => negb (isWhiteSpace c))
    (ResearchAgent.extractTopic (U := asciiOnly) (js "what is AI?")) = true /\
  forallb (fun c => negb (isQuestionMark c))
    (ResearchAgent.extractTopic (U := asciiOnly) (js "what is AI?")) = true.
Proof.
  apply (extractTopic_key (U := asciiOnly) (js "what is AI?")). reflexivity.
Defined.

(** The query "?" is neither empty nor made of whitespace only, and its key
    is the empty string, whatever the case mapping. *)
Lemma extractTopic_question_mark_only :
  js "?" <> [] /\ trim (js "?") <> [] /\ forallb isWhiteSpace (js "?") = false /\
  forall U : Unicode, ResearchAgent.extractTopic (js "?") = [].
Proof.
  split; [ discriminate |]. split; [ discriminate |]. split; [ reflexivity |].
  intros U. vm_compute. reflexivity.
Qed.

(** ** The question patterns *)

(** A successful match either begins with a character the pattern can
    begin with, or consumes nothing and succeeds in its continuation. *)
Lemma exec_first {R} (r : regex) :
  forall s caps (k : jsstring -> captures -> option R) x,
  exec r s caps k = Some x ->
  match s with
  | c :: _ => first r c = true
  | [] => False
  end \/
  (nullable r = true /\ exists caps', k s caps' = Some x).
Proof.
  induction r as [p | p | r1 IH1 r2 IH2 | r1 IH1 r2 IH2 | n r1 IH1 | |];
    intros s caps k x H; cbn [exec first nullable] in *.
  - destruct s as [| c s]; [ discriminate |].
    destruct (p c) eqn:E; [ left; reflexivity | discriminate ].
  - destruct s as [| c s]; [ discriminate |]. cbn in H.
    destruct (p c) eqn:E; [ left; reflexivity | discriminate ].
  - apply IH1 in H as [H | [Hn [caps' H]]].
    + left. destruct s; [ exact H |]. rewrite H. reflexivity.
    + apply IH2 in H as [H | [Hn2 H]].
      * left. destruct s; [ exact H |]. rewrite Hn, H. apply orb_true_r.
      * right. rewrite Hn, Hn2. auto.
  - destruct (exec r1 s caps k) as [y |] eqn:E.
    + apply IH1 in E as [E | [Hn [caps' E]]].
      * left. destruct s; [ exact E |]. rewrite E. reflexivity.
      * right. rewrite Hn. injection H as <-. eauto.
    + apply IH2 in H as [H | [Hn H]].
      * left. destruct s; [ exact H |]. rewrite H. apply orb_true_r.
      * right. rewrite Hn, orb_true_r. auto.
  - apply IH1 in H as [H | [Hn [caps' H]]]; [ left; exact H | right; eauto ].
  - right. eauto.
  - destruct s; [ right; eauto | discriminate ].
Qed.

(** The first character of a string a question pattern matches. *)
Lemma pattern_subject_first pattern trimmed subj :
  nullable pattern = false ->
  ResearchAgent.pattern_subject pattern trimmed = Some subj ->
  exists c rest, trimmed = c :: rest /\ first pattern c = true.
Proof.
  intros Hn H. unfold ResearchAgent.pattern_subject, match_anchored, match_prefix in H.
  destruct (exec pattern trimmed [] _) as [[rest m] |] eqn:E; [| discriminate ].
  apply exec_first in E as [E | [E _]]; [| congruence ].
  destruct trimmed as [| c t]; [ contradiction | eauto ].
Qed.

(** No two of the three patterns can begin with the same character. *)
Lemma patterns_disjoint_first c :
  forall i j, i < j < 3 ->
  first (nth i ResearchAgent.patterns Eos) c = true ->
  first (nth j ResearchAgent.patterns Eos) c = false.
Proof.
  intros i j Hij.
  assert (Hcases : (i = 0 /\ j = 1) \/ (i = 0 /\ j = 2) \/ (i = 1 /\ j = 2)) by lia.
  destruct Hcases as [[-> ->] | [[-> ->] | [-> ->]]]; cbn; char_facts.
Qed.

(** At most one pattern matches a given string. *)
Lemma patterns_exclusive trimmed p p' subj subj' :
  In p ResearchAgent.patterns -> In p' ResearchAgent.patterns ->
  ResearchAgent.pattern_subject p trimmed = Some subj ->
  ResearchAgent.pattern_subject p' trimmed = Some subj' ->
  subj' = subj.
Proof.
  intros Hp Hp' Hs Hs'.
  assert (Hidx : forall q, In q ResearchAgent.patterns ->
            exists i, i < 3 /\ q = nth i ResearchAgent.patterns Eos /\ nullable q = false).
  { intros q Hq. unfold ResearchAgent.patterns in Hq.
    destruct Hq as [<- | [<- | [<- | []]]];
      [ exists 0 | exists 1 | exists 2 ]; (split; [ lia |]); split; reflexivity. }
  destruct (Hidx p Hp) as [i [Hi [Ei Hni]]].
  destruct (Hidx p' Hp') as [j [Hj [Ej Hnj]]].
  destruct (pattern_subject_first p trimmed subj Hni Hs) as [c [rest [Ht Hc]]].
  destruct (pattern_subject_first p' trimmed subj' Hnj Hs') as [c' [rest' [Ht' Hc']]].
  rewrite Ht in Ht'. injection Ht' as <- <-.
  destruct (Nat.lt_total i j) as [Hlt | [Heq | Hgt]].
  - rewrite Ei in Hc. rewrite Ej in Hc'.
    rewrite (patterns_disjoint_first c i j) in Hc'; [ discriminate | lia | exact Hc ].
  - subst j. rewrite <- Ei in Ej. subst p'. congruence.
  - rewrite Ei in Hc. rewrite Ej in Hc'.
    rewrite (patterns_disjoint_first c j i) in Hc; [ discriminate | lia | exact Hc' ].
Qed.

Section Loop.
Context {U : Unicode}.

(** The loop falls through when no pattern yields a key of three
    characters. *)
Lemma pattern_loop_none ps trimmed :
  (forall p subj, In p ps ->
     ResearchAgent.pattern_subject p trimmed = Some subj ->
     length (ResearchAgent.subject_key subj) < 3) ->
  ResearchAgent.pattern_loop ps trimmed = None.
Proof.
  induction ps as [| p0 ps IH]; intros Hshort; [ reflexivity |].
  cbn [ResearchAgent.pattern_loop].
  assert (Htail : ResearchAgent.pattern_loop ps trimmed = None).
  { apply IH. intros p subj Hp. apply Hshort. right. exact Hp. }
  destruct (ResearchAgent.pattern_subject p0 trimmed) as [s0 |] eqn:E0; [| exact Htail ].
  assert (Hlt : length (ResearchAgent.subject_key s0) < 3)
    by (apply (Hshort p0); [ left; reflexivity | exact E0 ]).
  apply Nat.leb_gt in Hlt. rewrite Hlt. exact Htail.
Qed.

(** The loop, when every matching pattern of the list captures [subj]. *)
Lemma pattern_loop_subject ps trimmed p subj :
  (forall p' subj', In p' ps ->
     ResearchAgent.pattern_subject p' trimmed = Some subj' -> subj' = subj) ->
  In p ps ->
  ResearchAgent.pattern_subject p trimmed = Some subj ->
  ResearchAgent.pattern_loop ps trimmed =
    if 3 <=? length (ResearchAgent.subject_key subj)
    then Some (ResearchAgent.subject_key subj) else None.
Proof.
  intros Hsame Hin Hsubj.
  destruct (3 <=? length (ResearchAgent.subject_key subj)) eqn:E3.
  - induction ps as [| p0 ps IH]; [ contradiction |].
    cbn [ResearchAgent.pattern_loop].
    destruct (ResearchAgent.pattern_subject p0 trimmed) as [s0 |] eqn:E0.
    + assert (s0 = subj) as -> by (apply (Hsame p0); [ left; reflexivity | exact E0 ]).
      rewrite E3. reflexivity.
    + apply IH.
      * intros p' subj' Hp'. apply Hsame. right. exact Hp'.
      * destruct Hin as [-> | Hin]; [ congruence | exact Hin ].
  - apply pattern_loop_none. intros p' subj' Hp' Hs'.
    rewrite (Hsame p' subj' Hp' Hs'). apply Nat.leb_gt. exact E3.
Qed.

End Loop.

(** C7, as the code has it: when a pattern captures a subject, a key of at
    least three characters is returned as it is (the pattern match wins
    over the keyword fallback); a shorter key makes the extraction fall
    through to the keyword fallback, which returns the keyword key when the
    candidate joined by "_" has at least three characters and the
    normalization of the original query only otherwise.  Characters are
    counted in UTF-16 code units, as [length] does. *)
Theorem pattern_key_or_fall_through {U : Unicode}
  (query : jsstring) (pattern : regex) (subj : jsstring)
  (Hin : In pattern ResearchAgent.patterns)
  (Hsubj : ResearchAgent.pattern_subject pattern (trim query) = Some subj) :
  let key := ResearchAgent.subject_key subj in
  let candidate := ResearchAgent.keyword_candidate (toLowerCase (trim query)) in
  ResearchAgent.extractTopic query =
    if 3 <=? length key then key
    else if 3 <=? length (join (js "_") candidate)
         then ResearchAgent.normalizeTitle (join (js " ") candidate)
         else ResearchAgent.normalizeTitle query.
Proof.
  intros key candidate. unfold ResearchAgent.extractTopic.
  assert (Hquery : truthy (trim query) = true).
  { destruct (pattern_subject_first pattern (trim query) subj) as [c [rest [Ht _]]];
      [| exact Hsubj | rewrite Ht; reflexivity ].
    unfold ResearchAgent.patterns in Hin.
    destruct Hin as [<- | [<- | [<- | []]]]; reflexivity. }
  assert (Hq : truthy query = true).
  { destruct query; [ discriminate | reflexivity ]. }
  rewrite Hq, Hquery. cbn [negb].
  rewrite (pattern_loop_subject ResearchAgent.patterns (trim query) pattern subj);
    [| | exact Hin | exact Hsubj ].
  - fold key. destruct (3 <=? length key); reflexivity.
  - intros p' subj' Hp' Hs'.
    exact (patterns_exclusive (trim query) pattern p' subj subj' Hin Hp' Hsubj Hs').
Qed.

Lemma pattern_key_or_fall_through_witness :
  ResearchAgent.extractTopic (U := asciiOnly) (js "who is AI") = js "Who_Ai" /\
  ResearchAgent.extractTopic (U := asciiOnly) (js "who is Ada Lovelace")
    = js "Ada_Lovelace".
Proof.
  split.
  - apply (pattern_key_or_fall_through (U := asciiOnly) (js "who is AI")
             (nth 0 ResearchAgent.patterns Eos) (js "AI")).
    + left. reflexivity.
    + vm_compute. reflexivity.
  - apply (pattern_key_or_fall_through (U := asciiOnly) (js "who is Ada Lovelace")
             (nth 0 ResearchAgent.patterns Eos) (js "Ada Lovelace")).
    + left. reflexivity.
    + vm_compute. reflexivity.
Defined.

(** For "who is AI" the first pattern captures "AI", whose key "Ai" has two
    characters; the extraction then returns the keyword key "Who_Ai" and
    not the normalization "Who_Is_AI" of the original query. *)
Lemma short_pattern_key_not_last_resort :
  In (nth 0 ResearchAgent.patterns Eos) ResearchAgent.patterns /\
  ResearchAgent.pattern_subject (nth 0 ResearchAgent.patterns Eos)
    (trim (js "who is AI")) = Some (js "AI") /\
  forall U : Unicode,
    length (ResearchAgent.subject_key (js "AI")) < 3 /\
    ResearchAgent.normalizeTitle (js "who is AI") = js "Who_Is_AI" /\
    ResearchAgent.extractTopic (js "who is AI") = js "Who_Ai" /\
    ResearchAgent.extractTopic (js "who is AI")
      <> ResearchAgent.normalizeTitle (js "who is AI").
Proof.
  split; [ left; reflexivity |].
  split; [ vm_compute; reflexivity |].
  intros U.
  split; [ apply Nat.ltb_lt; vm_compute; reflexivity |].
  split; [ vm_compute; reflexivity |].
  split; [ vm_compute; reflexivity |].
  vm_compute. discriminate.
Qed.

(** The subject of "who is" followed by the two ideographs U+6771 U+4EAC
    has a key of two code units, so the keyword key "Who" is returned
    (under the case mapping that leaves the ideographs, which have no
    case, and the text around them alone). *)
Example two_ideographs_fall_through :
  ResearchAgent.extractTopic (U := asciiOnly) (js "who is " ++ [26481; 20140]%N)
    = js "Who".
Proof. vm_compute. reflexivity. Qed.

(** ** Key points *)

Lemma Subseq_refl {A} (l : list A) : Subseq l l.
Proof. induction l; constructor; assumption. Qed.

Lemma Subseq_trans {A} (l m n : list A) : Subseq l m -> Subseq m n -> Subseq l n.
Proof.
  intros Hlm Hmn. revert l Hlm.
  induction Hmn as [| x m n Hmn IH | x m n Hmn IH]; intros l Hlm.
  - exact Hlm.
  - constructor. apply IH. exact Hlm.
  - inversion Hlm; subst; constructor; apply IH; assumption.
Qed.

Lemma Subseq_filter {A} (f : A -> bool) (l : list A) : Subseq (filter f l) l.
Proof.
  induction l as [| x l IH]; cbn; [ constructor |].
  destruct (f x); [ apply Subseq_keep | apply Subseq_skip ]; exact IH.
Qed.

Lemma Subseq_firstn {A} n (l : list A) : Subseq (firstn n l) l.
Proof.
  revert l. induction n as [| n IH]; intros l; cbn.
  - induction l; constructor; assumption.
  - destruct l; [ apply Subseq_nil | apply Subseq_keep, IH ].
Qed.

Lemma Forall_Subseq {A} (P : A -> Prop) (l m : list A) :
  Subseq l m -> Forall P m -> Forall P l.
Proof.
  induction 1; intros Hm; [ exact Hm | |]; inversion Hm; subst; auto.
Qed.

Lemma trimEnd_idempotent s : trimEnd (trimEnd s) = trimEnd s.
Proof.
  induction s as [| c s IH]; cbn; [ reflexivity |].
  destruct (isWhiteSpace c && isEmpty (trimEnd s)) eqn:E; cbn; [ reflexivity |].
  rewrite IH, E. reflexivity.
Qed.

Lemma trimStart_stopsAt s : stopsAt isWhiteSpace (trimStart s) = true.
Proof.
  induction s as [| c s IH]; cbn; [ reflexivity |].
  destruct (isWhiteSpace c) eqn:E; [ exact IH |]. cbn. rewrite E. reflexivity.
Qed.

Lemma trimEnd_stopsAt s :
  stopsAt isWhiteSpace s = true -> stopsAt isWhiteSpace (trimEnd s) = true.
Proof.
  destruct s as [| c s]; cbn; [ auto |].
  intros H. apply negb_true_iff in H. rewrite H. cbn. rewrite H. reflexivity.
Qed.

Lemma trimStart_fixed s : stopsAt isWhiteSpace s = true -> trimStart s = s.
Proof.
  destruct s as [| c s]; cbn; [ auto |].
  intros H. apply negb_true_iff in H. rewrite H. reflexivity.
Qed.

Lemma trim_idempotent s : trim (trim s) = trim s.
Proof.
  unfold trim.
  rewrite (trimStart_fixed (trimEnd (trimStart s))).
  - apply trimEnd_idempotent.
  - apply trimEnd_stopsAt, trimStart_stopsAt.
Qed.

Lemma InOrder_after before ms s : InOrder ms s -> InOrder ms (before ++ s).
Proof.
  intros H. destruct H as [s | b m ms rest H]; [ constructor |].
  rewrite app_assoc. constructor. exact H.
Qed.

Lemma firstn_slice n : forall s : jsstring,
  s = firstn n s ++ slice (length (firstn n s)) s.
Proof.
  unfold slice.
  induction n as [| n IH]; intros s; [ destruct s; reflexivity |].
  destruct s as [| c s]; cbn; [ reflexivity |].
  rewrite <- IH. reflexivity.
Qed.

(** The matches of a global pattern lie in the scanned string one after
    the other. *)
Lemma match_all_go_InOrder r s : forall skip,
  InOrder (match_all_go r s skip) (slice skip s).
Proof.
  induction s as [| c s IH]; intros skip; [ constructor |].
  cbn [match_all_go]. destruct skip as [| n]; [| apply IH ].
  change (slice 0 (c :: s)) with (c :: s).
  destruct (match_prefix r (c :: s)) as [[rest caps] |].
  - set (m := consumed (c :: s) rest).
    pose proof (firstn_slice (length (c :: s) - length rest) (c :: s)) as Hsplit.
    fold (consumed (c :: s) rest) in Hsplit. fold m in Hsplit.
    assert (Htail : InOrder (match_all_go r s (length m - 1))
                      (slice (length m) (c :: s))).
    { destruct (length m) as [| k].
      - cbn. apply (InOrder_after [c]). apply (IH 0).
      - cbn. rewrite Nat.sub_0_r. apply IH. }
    pose proof (InOrder_cons [] m _ _ Htail) as H.
    cbn [app] in H. rewrite <- Hsplit in H. exact H.
  - apply (InOrder_after [c]). apply (IH 0).
Qed.

Lemma sentences_InOrder summary :
  InOrder (AnalysisAgent.sentences summary) summary.
Proof.
  unfold AnalysisAgent.sentences, match_all.
  pose proof (match_all_go_InOrder AnalysisAgent.sentence summary 0) as H.
  destruct (match_all_go AnalysisAgent.sentence summary 0) as [| m ms].
  - rewrite <- (app_nil_r summary) at 2. apply (InOrder_cons [] summary). constructor.
  - exact H.
Qed.

(** C6: for a fetch result with [ok = true] and a non-null, non-empty
    summary, either no candidate survives the filter and the key points are
    the one-element list of the full summary, or the key points are at
    most five, each longer than 20 characters (UTF-16 code units, as
    [length] counts them) once trimmed, and they are trimmed sentences of
    the summary in the order in which the sentences occur in it. *)
Theorem keyPoints_bounded_in_order {U : Unicode}
  (r : ResearchAgent.FetchResult) (s : jsstring)
  (Hok : ResearchAgent.ok r = true)
  (Hsum : ResearchAgent.summary r = str s)
  (Hne : s <> []) :
  let points := AnalysisAgent.keyPoints (AnalysisAgent.run r) in
  let candidates := AnalysisAgent.extractKeyPoints s 5 in
  (candidates = [] /\ points = [s]) \/
  (candidates <> [] /\ points = candidates /\
   length points <= 5 /\
   Forall (fun point => 20 < length (trim point)) points /\
   Subseq points (map trim (AnalysisAgent.sentences s)) /\
   InOrder (AnalysisAgent.sentences s) s).
Proof.
  intros points candidates. subst points.
  unfold AnalysisAgent.run. rewrite Hok, Hsum.
  apply truthy_true in Hne.
  cbn [negb orb truthy_value AnalysisAgent.keyPoints]. rewrite Hne.
  cbn [negb andb]. fold candidates.
  destruct candidates as [| p ps] eqn:Hcand; [ left; split; reflexivity |].
  right. cbn [length Nat.eqb].
  split; [ discriminate |]. split; [ reflexivity |].
  rewrite <- Hcand. unfold candidates, AnalysisAgent.extractKeyPoints.
  rewrite Hne. cbn [negb].
  set (trimmed := map trim (AnalysisAgent.sentences s)).
  set (long := filter (fun x => 20 <? length x) trimmed).
  split; [ apply firstn_le_length |].
  split; [| split; [| apply sentences_InOrder ] ].
  - apply (Forall_Subseq _ _ long (Subseq_firstn 5 long)).
    rewrite Forall_forall. intros x Hx.
    unfold long in Hx. apply filter_In in Hx as [Hx Hlen].
    unfold trimmed in Hx. apply in_map_iff in Hx as [y [<- _]].
    rewrite trim_idempotent. apply Nat.ltb_lt. exact Hlen.
  - apply (Subseq_trans _ long); [ apply Subseq_firstn | apply Subseq_filter ].
Qed.

Lemma keyPoints_bounded_in_order_witness :
  let points :=
    AnalysisAgent.keyPoints
      (AnalysisAgent.run (U := asciiOnly) (Scenario.fetched Scenario.adaSummary)) in
  length points <= 5 /\
  Forall (fun point => 20 < length (trim point)) points /\
  Subseq points (map trim (AnalysisAgent.sentences Scenario.adaSummary)).
Proof.
  destruct (keyPoints_bounded_in_order (U := asciiOnly)
              (Scenario.fetched Scenario.adaSummary) Scenario.adaSummary
              eq_refl eq_refl ltac:(discriminate)) as [[H _] | [_ [_ [H1 [H2 [H3 _]]]]]].
  - vm_compute in H. discriminate.
  - cbv zeta. auto.
Defined.

(** A sentence of 17 Cyrillic letters, spaces and a full stop is 17 code
    units long: it does not pass the filter, and the summary itself is the
    one key point. *)
Example short_cyrillic_sentence {U : Unicode} :
  let summary :=
    [1055; 1088; 1080; 1074; 1077; 1090; 44; 32; 1082; 1072; 1082; 32;
     1076; 1077; 1083; 1072; 46; 32]%N in
  AnalysisAgent.extractKeyPoints summary 5 = [] /\
  AnalysisAgent.keyPoints (AnalysisAgent.run (Scenario.fetched summary)) = [summary].
Proof. split; vm_compute; reflexivity. Qed.

(** ** Greedy runs and the sentence pattern *)

Lemma plus_k_run {R} p (k : jsstring -> option R) run rest x :
  truthy run = true -> forallb p run = true -> stopsAt p rest = true ->
  k rest = Some x ->
  plus_k p k (run ++ rest) = Some x.
Proof.
  intros Hrun Hall Hstop Hk.
  induction run as [| c run IH]; [ discriminate |].
  cbn in Hall. apply andb_true_iff in Hall as [Hc Hall].
  cbn. rewrite Hc.
  destruct run as [| d run].
  - cbn. destruct rest as [| e rest]; cbn; [ exact Hk |].
    cbn in Hstop. apply negb_true_iff in Hstop. rewrite Hstop. exact Hk.
  - rewrite IH; [ reflexivity | reflexivity | exact Hall ].
Qed.

Lemma firstn_prefix (a b : jsstring) : firstn (length a) (a ++ b) = a.
Proof.
  induction a as [| c a IH]; cbn; [ reflexivity |].
  rewrite IH. reflexivity.
Qed.

Lemma consumed_append (m rest : jsstring) : consumed (m ++ rest) rest = m.
Proof.
  unfold consumed. rewrite length_app.
  replace (length m + length rest - length rest) with (length m) by lia.
  apply firstn_prefix.
Qed.

Lemma match_all_go_skip r (a rest : jsstring) :
  match_all_go r (a ++ rest) (length a) = match_all_go r rest 0.
Proof.
  induction a as [| c a IH]; cbn; [ destruct rest; reflexivity | exact IH ].
Qed.

(** A match at the front of the scanned string is reported, and the scan
    goes on behind it. *)
Lemma match_all_go_step r (m rest : jsstring) caps :
  truthy m = true ->
  match_prefix r (m ++ rest) = Some (rest, caps) ->
  match_all_go r (m ++ rest) 0 = m :: match_all_go r rest 0.
Proof.
  intros Hm Hmatch. destruct m as [| c m]; [ discriminate |].
  change ((c :: m) ++ rest) with (c :: (m ++ rest)) in *.
  cbn [match_all_go]. rewrite Hmatch.
  change (c :: (m ++ rest)) with ((c :: m) ++ rest).
  rewrite consumed_append. cbn [length]. rewrite Nat.sub_succ, Nat.sub_0_r.
  rewrite match_all_go_skip. reflexivity.
Qed.

Lemma isTerminator_not_space t :
  AnalysisAgent.isTerminator t = true -> isWhiteSpace t = false.
Proof. char_facts. Qed.

Section Sentence.
Variables (body : jsstring) (t : N) (gap : jsstring).
Hypothesis Htext : sentenceText body t gap = true.

Let text : jsstring := body ++ t :: gap.

Lemma sentenceText_parts :
  truthy body = true /\
  forallb (fun c => negb (AnalysisAgent.isTerminator c)) body = true /\
  stopsAt isWhiteSpace body = true /\
  AnalysisAgent.isTerminator t = true /\
  truthy gap = true /\ forallb isWhiteSpace gap = true /\
  20 < length body + 1.
Proof.
  unfold sentenceText in Htext.
  repeat (apply andb_true_iff in Htext as [Htext ?]).
  repeat split; try assumption. apply Nat.ltb_lt. assumption.
Qed.

Lemma sentence_truthy : truthy text = true.
Proof.
  destruct sentenceText_parts as [Hb _]. unfold text.
  destruct body; [ discriminate | reflexivity ].
Qed.

Lemma sentence_stopsAt : stopsAt isWhiteSpace text = true.
Proof.
  destruct sentenceText_parts as [Hb [_ [Hs _]]]. unfold text.
  destruct body; [ discriminate | exact Hs ].
Qed.

(** The sentence pattern matches the sentence in front of what follows,
    when that does not begin with whitespace. *)
Lemma sentence_match rest :
  stopsAt isWhiteSpace rest = true ->
  match_prefix AnalysisAgent.sentence (text ++ rest) = Some (rest, []).
Proof.
  intros Hrest.
  destruct sentenceText_parts as [Hb [Hnt [_ [Ht [Hg [Hws _]]]]]].
  unfold text, match_prefix, AnalysisAgent.sentence.
  rewrite <- app_assoc. cbn [seqs exec app].
  apply plus_k_run; [ exact Hb | exact Hnt | cbn [stopsAt]; rewrite Ht; reflexivity |].
  cbn beta. cbn [exec]. rewrite Ht.
  apply plus_k_run; [ exact Hg | exact Hws | exact Hrest | reflexivity ].
Qed.

Lemma trimEnd_gap s : trimEnd (s ++ gap) = trimEnd s.
Proof.
  destruct sentenceText_parts as [_ [_ [_ [_ [_ [Hws _]]]]]].
  assert (Hgap : trimEnd gap = []).
  { clear Htext text. induction gap as [| c g IH]; [ reflexivity |].
    cbn in Hws. apply andb_true_iff in Hws as [Hc Hg].
    cbn. rewrite (IH Hg), Hc. reflexivity. }
  induction s as [| c s IH]; cbn; [ exact Hgap |].
  rewrite IH. reflexivity.
Qed.

Lemma trimEnd_terminated s : trimEnd (s ++ [t]) = s ++ [t].
Proof.
  destruct sentenceText_parts as [_ [_ [_ [Ht _]]]].
  apply isTerminator_not_space in Ht.
  induction s as [| c s IH]; cbn; [ rewrite Ht; reflexivity |].
  rewrite IH. destruct s; cbn; rewrite andb_false_r; reflexivity.
Qed.

Lemma sentence_trim : trim text = body ++ [t].
Proof.
  unfold trim. rewrite (trimStart_fixed text sentence_stopsAt). unfold text.
  change (t :: gap) with ([t] ++ gap).
  rewrite app_assoc, trimEnd_gap. apply trimEnd_terminated.
Qed.

Lemma sentence_long : (20 <? length (trim text)) = true.
Proof.
  rewrite sentence_trim, length_app. apply Nat.ltb_lt.
  destruct sentenceText_parts as [_ [_ [_ [_ [_ [_ H]]]]]]. exact H.
Qed.
End Sentence.

Lemma stopsAt_append p (a b : jsstring) :
  truthy a = true -> stopsAt p (a ++ b) = stopsAt p a.
Proof. destruct a; [ discriminate | reflexivity ]. Qed.

(** The sentences of a summary made of three sentence texts. *)
Lemma sentences_three b1 t1 g1 b2 t2 g2 b3 t3 g3 :
  sentenceText b1 t1 g1 = true ->
  sentenceText b2 t2 g2 = true ->
  sentenceText b3 t3 g3 = true ->
  AnalysisAgent.sentences
    ((b1 ++ t1 :: g1) ++ (b2 ++ t2 :: g2) ++ (b3 ++ t3 :: g3)) =
  [ b1 ++ t1 :: g1; b2 ++ t2 :: g2; b3 ++ t3 :: g3 ].
Proof.
  intros H1 H2 H3.
  unfold AnalysisAgent.sentences, match_all.
  rewrite (match_all_go_step _ _ _ [] (sentence_truthy b1 t1 g1 H1)).
  2:{ apply (sentence_match b1 t1 g1 H1).
      rewrite stopsAt_append by apply (sentence_truthy b2 t2 g2 H2).
      apply (sentence_stopsAt b2 t2 g2 H2). }
  rewrite (match_all_go_step _ _ _ [] (sentence_truthy b2 t2 g2 H2)).
  2:{ apply (sentence_match b2 t2 g2 H2). apply (sentence_stopsAt b3 t3 g3 H3). }
  rewrite <- (app_nil_r (b3 ++ t3 :: g3)) at 1.
  rewrite (match_all_go_step _ _ _ [] (sentence_truthy b3 t3 g3 H3)).
  2:{ apply (sentence_match b3 t3 g3 H3). reflexivity. }
  reflexivity.
Qed.

(** ** Rendering *)

Lemma startsWith_prefix (a b : jsstring) : startsWith a (a ++ b) = true.
Proof.
  induction a as [| c a IH]; cbn; [ reflexivity |].
  rewrite N.eqb_refl. exact IH.
Qed.

Lemma includes_prefix (a b : jsstring) : includes a (a ++ b) = true.
Proof. destruct (a ++ b) eqn:E; cbn; rewrite <- E, startsWith_prefix; reflexivity. Qed.

Lemma includes_self (a : jsstring) : includes a a = true.
Proof. rewrite <- (app_nil_r a) at 2. apply includes_prefix. Qed.

Lemma startsWith_append_l (n a b : jsstring) :
  startsWith n a = true -> startsWith n (a ++ b) = true.
Proof.
  revert a. induction n as [| c n IH]; intros a H; [ reflexivity |].
  destruct a as [| d a]; [ discriminate |]. cbn in *.
  apply andb_true_iff in H as [Hc Hn]. rewrite Hc. apply IH. exact Hn.
Qed.

Lemma includes_append_r (n a b : jsstring) :
  includes n b = true -> includes n (a ++ b) = true.
Proof.
  intros H. induction a as [| c a IH]; [ exact H |].
  cbn. rewrite IH. apply orb_true_r.
Qed.

Lemma includes_append_l (n a b : jsstring) :
  includes n a = true -> includes n (a ++ b) = true.
Proof.
  induction a as [| c a IH]; intros H.
  - cbn in H. rewrite orb_false_r in H. destruct n; [| discriminate ].
    destruct b; reflexivity.
  - cbn in H. apply orb_true_iff in H as [H | H].
    + pose proof (startsWith_append_l n (c :: a) b H) as H'.
      change ((c :: a) ++ b) with (c :: (a ++ b)) in *.
      cbn [includes]. rewrite H'. reflexivity.
    + change ((c :: a) ++ b) with (c :: (a ++ b)).
      cbn [includes]. rewrite (IH H). apply orb_true_r.
Qed.

Lemma appendPoints_append before after keyPoints answer :
  TaskAgent.appendPoints before after keyPoints answer =
  answer ++ TaskAgent.appendPoints before after keyPoints [].
Proof.
  unfold TaskAgent.appendPoints. revert answer.
  induction keyPoints as [| point points IH]; intros answer; cbn.
  - rewrite app_nil_r. reflexivity.
  - rewrite IH. rewrite (IH (before ++ point ++ after)).
    rewrite <- !app_assoc. reflexivity.
Qed.

(** Looks for the needle in a tree of concatenations. *)
Ltac find_included :=
  first [ apply includes_self
        | apply includes_prefix
        | apply includes_append_l; find_included
        | apply includes_append_r; find_included ].

(** In each of the three content modes the answer holds the heading with
    the topic and the url of the research result. *)
Lemma generateAnswer_heading_and_url {U : Unicode} research analysis mode :
  includes (TaskAgent.headingMark ++ show (ResearchAgent.topic research))
    (TaskAgent.generateAnswer research analysis mode) = true /\
  includes (show (ResearchAgent.url research))
    (TaskAgent.generateAnswer research analysis mode) = true.
Proof.
  unfold TaskAgent.generateAnswer.
  destruct mode; cbv zeta; rewrite appendPoints_append;
    rewrite (app_assoc TaskAgent.headingMark (show (ResearchAgent.topic research)));
    split; find_included.
Qed.

(** ** The end-to-end scenario *)

Lemma countIncluded_zero_intermediate {U : Unicode} summary :
  noVocabulary summary = true ->
  AnalysisAgent.inferDifficulty summary = AnalysisAgent.intermediate.
Proof.
  unfold noVocabulary, AnalysisAgent.inferDifficulty. intros H.
  apply andb_true_iff in H as [Ha Hb].
  apply Nat.eqb_eq in Ha, Hb. rewrite Ha, Hb. reflexivity.
Qed.

Lemma analysis_three_sentences {U : Unicode} r b1 t1 g1 b2 t2 g2 b3 t3 g3 :
  let summary := (b1 ++ t1 :: g1) ++ (b2 ++ t2 :: g2) ++ (b3 ++ t3 :: g3) in
  ResearchAgent.ok r = true ->
  ResearchAgent.summary r = str summary ->
  sentenceText b1 t1 g1 = true ->
  sentenceText b2 t2 g2 = true ->
  sentenceText b3 t3 g3 = true ->
  AnalysisAgent.hasContent (AnalysisAgent.run r) = true /\
  AnalysisAgent.difficulty (AnalysisAgent.run r) = AnalysisAgent.inferDifficulty summary /\
  AnalysisAgent.keyPoints (AnalysisAgent.run r) = [ b1 ++ [t1]; b2 ++ [t2]; b3 ++ [t3] ].
Proof.
  intros summary Hok Hsum H1 H2 H3.
  assert (Ht : truthy summary = true).
  { unfold summary. pose proof (sentence_truthy b1 t1 g1 H1) as H.
    destruct (b1 ++ t1 :: g1); [ discriminate | reflexivity ]. }
  assert (Hpoints : AnalysisAgent.extractKeyPoints summary 5 =
            [ b1 ++ [t1]; b2 ++ [t2]; b3 ++ [t3] ]).
  { unfold AnalysisAgent.extractKeyPoints. rewrite Ht. cbn [negb].
    unfold summary. rewrite (sentences_three _ _ _ _ _ _ _ _ _ H1 H2 H3).
    cbn [map filter].
    rewrite (sentence_long b1 t1 g1 H1), (sentence_long b2 t2 g2 H2),
      (sentence_long b3 t3 g3 H3).
    rewrite (sentence_trim b1 t1 g1 H1), (sentence_trim b2 t2 g2 H2),
      (sentence_trim b3 t3 g3 H3).
    reflexivity. }
  unfold AnalysisAgent.run. rewrite Hok, Hsum.
  cbn [negb orb truthy_value]. rewrite Ht. cbn [negb].
  cbn [AnalysisAgent.hasContent AnalysisAgent.keyPoints AnalysisAgent.difficulty].
  rewrite Hpoints. repeat split; reflexivity.
Qed.

Lemma ada_topic {U : Unicode} :
  ResearchAgent.extractTopic (js "who is Ada Lovelace") = js "Ada_Lovelace" /\
  ResearchAgent.encodeURIComponent (js "Ada_Lovelace") = Some (js "Ada_Lovelace") /\
  TaskAgent.classifyIntent (js "who is Ada Lovelace") true = TaskAgent.overview.
Proof. repeat split; vm_compute; reflexivity. Qed.

(** C9, as the code has it: for the query "who is Ada Lovelace" and an
    outbound call that succeeds with a body of title "Ada Lovelace", a
    readable url and a summary without vocabulary term that is made of
    three sentences, the pipeline answers in mode overview with difficulty
    intermediate and exactly the three sentences as key points, and the
    final answer holds the heading "## 📚 Ada Lovelace" and the url of the
    fetch result.  A sentence ([sentenceText]) is a non-empty text without
    '.', '!' and '?' that begins with a character other than whitespace,
    then one of '.', '!' and '?', then at least one whitespace character;
    text and terminator together are longer than 20 code units. *)
Theorem ada_pipeline_three_sentences {U : Unicode}
  (axios_get : jsstring -> jsstring -> Exc (option ResearchAgent.WikiData))
  (now : jsstring) (data : ResearchAgent.WikiData) (pageUrl : Value)
  (b1 b2 b3 : jsstring) (t1 t2 t3 : N) (g1 g2 g3 : jsstring)
  (Hcall : axios_get (ResearchAgent.WIKI_API_BASE ++ js "Ada_Lovelace")
             ResearchAgent.USER_AGENT = Return (Some data))
  (Htitle : ResearchAgent.title data = str (js "Ada Lovelace"))
  (Hurl : reportedUrl (js "Ada_Lovelace") data = Some pageUrl)
  (Hextract : ResearchAgent.extract data =
     str ((b1 ++ t1 :: g1) ++ (b2 ++ t2 :: g2) ++ (b3 ++ t3 :: g3)))
  (H1 : sentenceText b1 t1 g1 = true)
  (H2 : sentenceText b2 t2 g2 = true)
  (H3 : sentenceText b3 t3 g3 = true)
  (Hvocabulary :
     noVocabulary ((b1 ++ t1 :: g1) ++ (b2 ++ t2 :: g2) ++ (b3 ++ t3 :: g3)) = true) :
  exists resp research analysis,
    Coordinator.orchestrate (Coordinator.constructor axios_get) now
      (js "who is Ada Lovelace") = Return resp /\
    Coordinator.research resp = Some research /\
    ResearchAgent.url research = pageUrl /\
    Coordinator.analysis resp = Some analysis /\
    Coordinator.task resp = TaskAgent.overview /\
    AnalysisAgent.difficulty analysis = AnalysisAgent.intermediate /\
    AnalysisAgent.keyPoints analysis = [ b1 ++ [t1]; b2 ++ [t2]; b3 ++ [t3] ] /\
    length (AnalysisAgent.keyPoints analysis) = 3 /\
    includes (js "## " ++ TaskAgent.books ++ js " Ada Lovelace")
      (Coordinator.finalAnswer resp) = true /\
    includes (show pageUrl) (Coordinator.finalAnswer resp) = true.
Proof.
  destruct ada_topic as [Htopic [Hencode Hmode]].
  set (research := {|
         ResearchAgent.topic := str (js "Ada Lovelace");
         ResearchAgent.source := js "wikipedia";
         ResearchAgent.ok := true;
         ResearchAgent.summary := ResearchAgent.extract data;
         ResearchAgent.url := pageUrl;
         ResearchAgent.raw :=
           Some {| ResearchAgent.raw_pageid := ResearchAgent.pageid data;
                   ResearchAgent.raw_thumbnail := ResearchAgent.thumbnail data |};
         ResearchAgent.error := undefined;
         ResearchAgent.triedTopics := None;
         ResearchAgent.errorSummary := undefined |}).
  assert (Hrun : ResearchAgent.run axios_get (js "who is Ada Lovelace") = Return research).
  { unfold ResearchAgent.run, ResearchAgent.fetchWikiSummary.
    rewrite Htopic, Hencode. cbn [bind]. rewrite Hcall. cbn [bind member].
    rewrite Htitle. unfold reportedUrl in Hurl.
    destruct (ResearchAgent.content_urls data) as [[[d |]] |];
      cbn [option_map ResearchAgent.desktop] in Hurl; [| discriminate |];
      injection Hurl as <-; reflexivity. }
  destruct (analysis_three_sentences research b1 t1 g1 b2 t2 g2 b3 t3 g3
              eq_refl Hextract H1 H2 H3) as [Hcontent [Hdifficulty Hpoints]].
  rewrite (countIncluded_zero_intermediate _ Hvocabulary) in Hdifficulty.
  destruct (generateAnswer_heading_and_url research (AnalysisAgent.run research)
              TaskAgent.overview) as [Hheading Hpage].
  exists {| Coordinator.error := false;
            Coordinator.errorMessage := None;
            Coordinator.query := Some (js "who is Ada Lovelace");
            Coordinator.timestamp := Some now;
            Coordinator.research := Some research;
            Coordinator.analysis := Some (AnalysisAgent.run research);
            Coordinator.task := TaskAgent.overview;
            Coordinator.finalAnswer :=
              TaskAgent.generateAnswer research (AnalysisAgent.run research)
                TaskAgent.overview |},
    research, (AnalysisAgent.run research).
  split.
  { unfold Coordinator.orchestrate, Coordinator.constructor.
    cbn [Coordinator.researchAgent Coordinator.analysisAgent Coordinator.taskAgent].
    rewrite Hrun. unfold TaskAgent.run. rewrite Hcontent, Hmode. reflexivity. }
  cbn [Coordinator.research Coordinator.analysis Coordinator.task Coordinator.finalAnswer].
  do 6 (split; [ first [ reflexivity | assumption ] |]).
  split; [ rewrite Hpoints; reflexivity |].
  split; assumption.
Qed.

Lemma ada_pipeline_three_sentences_witness :
  exists resp research analysis,
    Coordinator.orchestrate
      (Coordinator.constructor (U := asciiOnly) (Scenario.stub Scenario.adaSummary))
      Scenario.noon (js "who is Ada Lovelace") = Return resp /\
    Coordinator.research resp = Some research /\
    ResearchAgent.url research = str Scenario.adaUrl /\
    Coordinator.analysis resp = Some analysis /\
    Coordinator.task resp = TaskAgent.overview /\
    AnalysisAgent.difficulty analysis = AnalysisAgent.intermediate /\
    AnalysisAgent.keyPoints analysis =
      [ Scenario.sentence1 ++ js "."; Scenario.sentence2 ++ js ".";
        Scenario.sentence3 ++ js "." ] /\
    length (AnalysisAgent.keyPoints analysis) = 3 /\
    includes (js "## " ++ TaskAgent.books ++ js " Ada Lovelace")
      (Coordinator.finalAnswer resp) = true /\
    includes (show (str Scenario.adaUrl)) (Coordinator.finalAnswer resp) = true.
Proof.
  apply (ada_pipeline_three_sentences (U := asciiOnly)
           (Scenario.stub Scenario.adaSummary) Scenario.noon
           (Scenario.adaData Scenario.adaSummary) (str Scenario.adaUrl)
           Scenario.sentence1 Scenario.sentence2 Scenario.sentence3
           46%N 46%N 46%N (js " ") (js " ") (js " ")).
  - reflexivity.
  - reflexivity.
  - reflexivity.
  - reflexivity.
  - vm_compute. reflexivity.
  - vm_compute. reflexivity.
  - vm_compute. reflexivity.
  - vm_compute. reflexivity.
Defined.

(** Three summaries of three sentences, without vocabulary term, for which
    the pipeline does not report three key points.  Sentences of at most
    20 characters: the pattern finds the three of them, none survives the
    length filter, and the one key point is the full summary.  Nothing
    behind the last full stop: the last sentence is no match, two key
    points.  A full stop with whitespace behind it inside a sentence
    ("Mr. Babbage"): the sentence is cut there, four key points. *)
Lemma three_sentences_not_three_key_points :
  AnalysisAgent.sentences Scenario.shortSummary =
    [ js "Ada was a writer. "; js "She did math. "; js "She died in 1852. " ] /\
  forall U : Unicode,
    let keyPointsOf summary :=
      match Coordinator.orchestrate (Coordinator.constructor (Scenario.stub summary))
              Scenario.noon (js "who is Ada Lovelace") with
      | Return resp =>
          match Coordinator.analysis resp with
          | Some analysis =>
              if AnalysisAgent.hasContent analysis
              then Some (Coordinator.task resp, AnalysisAgent.difficulty analysis,
                         AnalysisAgent.keyPoints analysis)
              else None
          | None => None
          end
      | Throw _ => None
      end in
    (noVocabulary Scenario.shortSummary = true /\
     keyPointsOf Scenario.shortSummary =
       Some (TaskAgent.overview, AnalysisAgent.intermediate, [ Scenario.shortSummary ])) /\
    (noVocabulary Scenario.adaExtract = true /\
     keyPointsOf Scenario.adaExtract =
       Some (TaskAgent.overview, AnalysisAgent.intermediate,
             [ Scenario.sentence1 ++ js "."; Scenario.sentence2 ++ js "." ])) /\
    (noVocabulary Scenario.titledSummary = true /\
     keyPointsOf Scenario.titledSummary =
       Some (TaskAgent.overview, AnalysisAgent.intermediate,
             [ js "Ada Lovelace worked with Mr.";
               js "Babbage on the Analytical Engine.";
               js "She wrote the first published program.";
               js "She is often regarded as the first programmer." ])).
Proof.
  split; [ vm_compute; reflexivity |].
  intros U. repeat split; vm_compute; reflexivity.
Qed.

(** The sentence pattern asks for whitespace behind the terminator: with
    nothing behind the last full stop, the last sentence is no match and
    the analyzer reports the first two sentences only. *)
Example last_sentence_without_gap {U : Unicode} :
  AnalysisAgent.sentences Scenario.adaExtract =
    [ Scenario.sentence1 ++ js ". "; Scenario.sentence2 ++ js ". " ] /\
  AnalysisAgent.keyPoints (AnalysisAgent.run (Scenario.fetched Scenario.adaExtract)) =
    [ Scenario.sentence1 ++ js "."; Scenario.sentence2 ++ js "." ].
Proof. split; vm_compute; reflexivity. Qed.

(** A full stop inside a sentence that no whitespace follows makes every
    match attempt in front of it fail: of "It shipped as version 1.0 in
    1852. " only the part behind that full stop is matched. *)
Example full_stop_inside_sentence :
  AnalysisAgent.sentences (js "It shipped as version 1.0 in 1852. Then it grew. ") =
    [ js "0 in 1852. "; js "Then it grew. " ] /\
  AnalysisAgent.sentences (js "Ada met Mr. Babbage in London. ") =
    [ js "Ada met Mr. "; js "Babbage in London. " ].
Proof. split; vm_compute; reflexivity. Qed.

(* ===================================================================== *)
(** * Further properties of the code                                       *)
(* ===================================================================== *)

(** ** Strings without whitespace *)

Lemma asciiUpper_idempotent c : asciiUpper (asciiUpper c) = asciiUpper c.
Proof. char_facts. Qed.

Lemma asciiUpper_ascii c : isAsciiUnit c = true -> isAsciiUnit (asciiUpper c) = true.
Proof. char_facts. Qed.

Lemma asciiLower_idempotent c : asciiLower (asciiLower c) = asciiLower c.
Proof. char_facts. Qed.

Lemma asciiLower_ascii c : isAsciiUnit c = true -> isAsciiUnit (asciiLower c) = true.
Proof. char_facts. Qed.

Lemma asciiLower_not_keyChar c : keyChar c = false -> asciiLower c = c.
Proof. char_facts. Qed.

Lemma keyChar_not_question c : keyChar c = true -> isQuestionMark c = false.
Proof.
  unfold keyChar. intros H. apply andb_true_iff in H as [_ H].
  apply negb_true_iff. exact H.
Qed.

Lemma filter_all (p : N -> bool) s : forallb p s = true -> filter p s = s.
Proof.
  induction s as [| c s IH]; cbn; [ reflexivity |].
  intros H. apply andb_true_iff in H as [Hc Hs]. rewrite Hc, (IH Hs). reflexivity.
Qed.

Lemma trimEnd_keyChars s : forallb keyChar s = true -> trimEnd s = s.
Proof.
  induction s as [| c s IH]; cbn; [ reflexivity |].
  intros H. apply andb_true_iff in H as [Hc Hs].
  rewrite (keyChar_not_space c Hc), (IH Hs). reflexivity.
Qed.

Lemma trim_keyChars s : forallb keyChar s = true -> trim s = s.
Proof.
  intros H. unfold trim. rewrite trimStart_fixed.
  - apply trimEnd_keyChars. exact H.
  - destruct s as [| c s]; [ reflexivity |]. cbn in *.
    apply andb_true_iff in H as [Hc _]. rewrite (keyChar_not_space c Hc). reflexivity.
Qed.

Lemma split_ws_go_keyChars s : forall cur,
  forallb keyChar s = true -> split_ws_go false cur s = [cur ++ s].
Proof.
  induction s as [| c s IH]; intros cur H; cbn.
  - rewrite app_nil_r. reflexivity.
  - cbn in H. apply andb_true_iff in H as [Hc Hs].
    rewrite (keyChar_not_space c Hc), (IH _ Hs), <- app_assoc. reflexivity.
Qed.

Lemma words_keyChars s :
  truthy s = true -> forallb keyChar s = true -> words s = [s].
Proof.
  intros Ht H. unfold words, split_ws. rewrite (split_ws_go_keyChars s [] H).
  cbn. rewrite Ht. reflexivity.
Qed.

Lemma split_ws_go_spaces s : forall in_sep,
  forallb isWhiteSpace s = true -> filter truthy (split_ws_go in_sep [] s) = [].
Proof.
  induction s as [| c s IH]; intros in_sep H; [ reflexivity |].
  cbn in H. apply andb_true_iff in H as [Hc Hs].
  cbn [split_ws_go]. rewrite Hc. destruct in_sep; cbn; apply IH; exact Hs.
Qed.

Lemma words_spaces s : forallb isWhiteSpace s = true -> words s = [].
Proof. apply split_ws_go_spaces. Qed.

(** ** Normalization is idempotent *)

Section Idempotence.
Context {U : Unicode}.

(** The first unit of an upper-cased character is its own upper case. *)
Lemma upperUnit_head c u rest : upperUnit c = u :: rest -> upperUnit u = [u].
Proof.
  unfold upperUnit. destruct (isAsciiUnit c) eqn:Hc.
  - intros H. injection H as <- _.
    rewrite (asciiUpper_ascii c Hc), asciiUpper_idempotent. reflexivity.
  - intros H. pose proof (upper_stable c u rest Hc H) as Hu.
    destruct (isAsciiUnit u); [ rewrite Hu; reflexivity | exact Hu ].
Qed.

Lemma capitalize_join_capitalized sep w l :
  truthy w = true -> forallb keyChar w = true ->
  capitalize (join sep (map capitalize (w :: l))) = join sep (map capitalize (w :: l)).
Proof.
  destruct w as [| c w]; [ discriminate |]. intros _ Hk.
  cbn in Hk. apply andb_true_iff in Hk as [Hc _].
  destruct (upperUnit_keyChars c Hc) as [Hne _].
  cbn [map capitalize].
  destruct (upperUnit c) as [| u t] eqn:Eu; [ congruence |].
  pose proof (upperUnit_head c u t Eu) as Hu.
  cbn [join]. destruct (map capitalize l); cbn [app capitalize]; rewrite Hu; reflexivity.
Qed.

End Idempotence.

(** X1: [normalizeTitle] is idempotent: a normalized title is its own
    normalization. *)
Theorem normalizeTitle_idempotent {U : Unicode} (phrase : jsstring) :
  ResearchAgent.normalizeTitle (ResearchAgent.normalizeTitle phrase) =
  ResearchAgent.normalizeTitle phrase.
Proof.
  pose proof (normalizeTitle_keyChars phrase) as Hkey.
  destruct (ResearchAgent.normalizeTitle phrase) as [| c t] eqn:Ht; [ reflexivity |].
  unfold ResearchAgent.normalizeTitle at 1.
  rewrite (trim_keyChars _ Hkey).
  rewrite filter_all.
  2:{ eapply forallb_impl; [| exact Hkey ]. intros x Hx.
      rewrite (keyChar_not_question x Hx). reflexivity. }
  rewrite (words_keyChars (c :: t) eq_refl Hkey). cbn [map join].
  rewrite <- Ht. unfold ResearchAgent.normalizeTitle in *.
  pose proof (title_words phrase) as Hwords.
  destruct (words _) as [| w ws] eqn:Hw; [ discriminate |].
  inversion Hwords as [| ? ? [Htruthy Hk] _]; subst.
  apply capitalize_join_capitalized; assumption.
Qed.

(** ** The empty key *)

Lemma toLowerCase_without_keyChar {U : Unicode} s :
  hasKeyChar s = false -> toLowerCase s = s.
Proof.
  unfold hasKeyChar. intros H. apply negb_false_iff in H.
  unfold toLowerCase. destruct (isAscii s); [| apply lower_uncased; exact H ].
  induction s as [| c s IH]; [ reflexivity |].
  cbn in H. apply andb_true_iff in H as [Hc Hs]. apply negb_true_iff in Hc.
  cbn [map]. rewrite (asciiLower_not_keyChar c Hc), (IH Hs). reflexivity.
Qed.

(** Without a key character, what is left of a string after dropping
    characters that are no whitespace is whitespace. *)
Lemma filter_only_spaces (p : N -> bool) s :
  (forall c, p c = true -> keyChar c = true \/ isWhiteSpace c = true) ->
  hasKeyChar s = false ->
  forallb isWhiteSpace (filter p s) = true.
Proof.
  intros Hp H. unfold hasKeyChar in H. apply negb_false_iff in H.
  induction s as [| c s IH]; cbn; [ reflexivity |].
  cbn in H. apply andb_true_iff in H as [Hc Hs]. apply negb_true_iff in Hc.
  destruct (p c) eqn:E; [| exact (IH Hs) ].
  cbn. destruct (Hp c E) as [Hk | Hw]; [ congruence |]. rewrite Hw. exact (IH Hs).
Qed.

Lemma normalizeTitle_without_keyChar {U : Unicode} phrase :
  hasKeyChar phrase = false -> ResearchAgent.normalizeTitle phrase = [].
Proof.
  intros H. unfold ResearchAgent.normalizeTitle.
  rewrite words_spaces; [ reflexivity |].
  apply filter_only_spaces.
  - intros c Hc. apply negb_true_iff in Hc. unfold keyChar. rewrite Hc.
    destruct (isWhiteSpace c); auto.
  - rewrite hasKeyChar_trim. exact H.
Qed.

Lemma pattern_first_keyChar pattern c :
  In pattern ResearchAgent.patterns -> first pattern c = true -> keyChar c = true.
Proof.
  intros Hin. unfold ResearchAgent.patterns in Hin.
  destruct Hin as [<- | [<- | [<- | []]]]; cbn; char_facts.
Qed.

Lemma pattern_subject_hasKeyChar pattern trimmed subj :
  In pattern ResearchAgent.patterns ->
  ResearchAgent.pattern_subject pattern trimmed = Some subj ->
  hasKeyChar trimmed = true.
Proof.
  intros Hin Hsubj.
  destruct (pattern_subject_first pattern trimmed subj) as [c [rest [-> Hc]]];
    [| exact Hsubj |].
  - unfold ResearchAgent.patterns in Hin.
    destruct Hin as [<- | [<- | [<- | []]]]; reflexivity.
  - unfold hasKeyChar. cbn. rewrite (pattern_first_keyChar pattern c Hin Hc). reflexivity.
Qed.

Section EmptyKey.
Context {U : Unicode}.

Lemma extractTopic_without_keyChar query :
  hasKeyChar query = false -> ResearchAgent.extractTopic query = [].
Proof.
  intros H. unfold ResearchAgent.extractTopic.
  destruct (negb (truthy query)); [ reflexivity |].
  destruct (negb (truthy (trim query))); [ reflexivity |].
  rewrite pattern_loop_none.
  - unfold ResearchAgent.keyword_or_query, ResearchAgent.keyword_candidate.
    rewrite words_spaces.
    + cbn. apply normalizeTitle_without_keyChar. exact H.
    + apply filter_only_spaces.
      * intros c Hc. apply orb_true_iff in Hc as [Hc | Hc];
          [ left; apply isWordChar_keyChar; exact Hc | right; exact Hc ].
      * rewrite toLowerCase_without_keyChar; rewrite hasKeyChar_trim; exact H.
  - intros p subj Hp Hsubj. exfalso.
    pose proof (pattern_subject_hasKeyChar p (trim query) subj Hp Hsubj) as Hk.
    rewrite hasKeyChar_trim in Hk. congruence.
Qed.

Lemma extractTopic_with_keyChar query :
  hasKeyChar query = true -> truthy (ResearchAgent.extractTopic query) = true.
Proof.
  intros H. unfold ResearchAgent.extractTopic.
  rewrite (hasKeyChar_truthy query H). cbn [negb].
  rewrite (hasKeyChar_truthy (trim query)) by (rewrite hasKeyChar_trim; exact H).
  cbn [negb].
  destruct (ResearchAgent.pattern_loop _ _) as [k |] eqn:E.
  - destruct (pattern_loop_key _ _ _ E) as [_ Hlen].
    destruct k; [ cbn in Hlen; lia | reflexivity ].
  - apply keyword_or_query_truthy. exact H.
Qed.

End EmptyKey.

(** X2: the key is the empty string exactly for the queries made of
    whitespace and question marks only (the empty query included). *)
Theorem extractTopic_empty_iff {U : Unicode} (query : jsstring) :
  ResearchAgent.extractTopic query = [] <-> hasKeyChar query = false.
Proof.
  split.
  - intros H. destruct (hasKeyChar query) eqn:E; [| reflexivity ].
    apply extractTopic_with_keyChar in E. rewrite H in E. discriminate.
  - apply extractTopic_without_keyChar.
Qed.

(** A query of one no-break space has the empty key. *)
Example no_break_space_query {U : Unicode} :
  hasKeyChar [160%N] = false /\ ResearchAgent.extractTopic [160%N] = [].
Proof. split; reflexivity. Qed.

(** ** Whitespace around the query *)

Lemma trimStart_spaces_append pre s :
  forallb isWhiteSpace pre = true -> trimStart (pre ++ s) = trimStart s.
Proof.
  induction pre as [| c pre IH]; cbn; [ reflexivity |].
  intros H. apply andb_true_iff in H as [Hc Hp]. rewrite Hc. exact (IH Hp).
Qed.

Lemma trimEnd_spaces post : forallb isWhiteSpace post = true -> trimEnd post = [].
Proof.
  induction post as [| c post IH]; cbn; [ reflexivity |].
  intros H. apply andb_true_iff in H as [Hc Hp]. rewrite (IH Hp), Hc. reflexivity.
Qed.

Lemma trimEnd_append_spaces s post :
  forallb isWhiteSpace post = true -> trimEnd (s ++ post) = trimEnd s.
Proof.
  intros H. induction s as [| c s IH]; cbn; [ apply trimEnd_spaces; exact H |].
  rewrite IH. reflexivity.
Qed.

Lemma trim_padded pre s post :
  forallb isWhiteSpace pre = true -> forallb isWhiteSpace post = true ->
  trim (pre ++ s ++ post) = trim s.
Proof.
  intros Hpre Hpost. unfold trim. rewrite (trimStart_spaces_append pre _ Hpre).
  induction s as [| c s IH]; cbn.
  - apply trimEnd_spaces. rewrite forallb_trimStart; auto.
  - destruct (isWhiteSpace c) eqn:E; [ exact IH |].
    change (c :: (s ++ post)) with ((c :: s) ++ post).
    apply trimEnd_append_spaces. exact Hpost.
Qed.

Lemma normalizeTitle_trim_eq {U : Unicode} a b :
  trim a = trim b -> ResearchAgent.normalizeTitle a = ResearchAgent.normalizeTitle b.
Proof. intros H. unfold ResearchAgent.normalizeTitle. rewrite H. reflexivity. Qed.

(** X3: whitespace in front of and behind the query does not change the
    key. *)
Theorem extractTopic_padding {U : Unicode} (pre query post : jsstring)
  (Hpre : forallb isWhiteSpace pre = true)
  (Hpost : forallb isWhiteSpace post = true) :
  ResearchAgent.extractTopic (pre ++ query ++ post) = ResearchAgent.extractTopic query.
Proof.
  pose proof (trim_padded pre query post Hpre Hpost) as Htrim.
  unfold ResearchAgent.extractTopic. rewrite Htrim.
  destruct (truthy (trim query)) eqn:Et; cbn [negb].
  - assert (Hq : truthy query = true).
    { destruct query; [ discriminate | reflexivity ]. }
    assert (Hp : truthy (pre ++ query ++ post) = true).
    { destruct (pre ++ query ++ post); [ rewrite <- Htrim in Et; discriminate
                                       | reflexivity ]. }
    rewrite Hq, Hp. cbn [negb].
    destruct (ResearchAgent.pattern_loop _ _); [ reflexivity |].
    unfold ResearchAgent.keyword_or_query.
    rewrite (normalizeTitle_trim_eq (pre ++ query ++ post) query Htrim). reflexivity.
  - destruct (negb (truthy (pre ++ query ++ post))), (negb (truthy query)); reflexivity.
Qed.

Lemma extractTopic_padding_witness :
  ResearchAgent.extractTopic (U := asciiOnly)
    (js "  " ++ js "who is Ada Lovelace" ++ [160%N]) =
  ResearchAgent.extractTopic (U := asciiOnly) (js "who is Ada Lovelace").
Proof.
  apply (extractTopic_padding (U := asciiOnly)
           (js "  ") (js "who is Ada Lovelace") [160%N]); reflexivity.
Defined.

(** ** Substrings *)

Lemma startsWith_split n : forall s,
  startsWith n s = true -> exists post, s = n ++ post.
Proof.
  induction n as [| c n IH]; intros s H; [ exists s; reflexivity |].
  destruct s as [| d s]; [ discriminate |]. cbn in H.
  apply andb_true_iff in H as [Hc Hn]. apply N.eqb_eq in Hc. subst d.
  destruct (IH s Hn) as [post ->]. exists post. reflexivity.
Qed.

Lemma includes_split n s :
  includes n s = true -> exists pre post, s = pre ++ n ++ post.
Proof.
  induction s as [| c s IH]; cbn; intros H.
  - rewrite orb_false_r in H. apply startsWith_split in H as [post ->].
    exists [], post. reflexivity.
  - apply orb_true_iff in H as [H | H].
    + apply startsWith_split in H as [post ->]. exists [], post. reflexivity.
    + destruct (IH H) as [pre [post ->]]. exists (c :: pre), post. reflexivity.
Qed.

Lemma includes_middle pre n post : includes n (pre ++ n ++ post) = true.
Proof. apply includes_append_r, includes_prefix. Qed.

Lemma includes_trans a b c :
  includes a b = true -> includes b c = true -> includes a c = true.
Proof.
  intros Hab Hbc.
  apply includes_split in Hbc as [pre [post ->]].
  apply includes_append_r, includes_append_l. exact Hab.
Qed.

Lemma trimStart_suffix s : exists pre, s = pre ++ trimStart s.
Proof.
  induction s as [| c s [pre IH]]; [ exists []; reflexivity |].
  cbn. destruct (isWhiteSpace c).
  - exists (c :: pre). cbn. rewrite <- IH. reflexivity.
  - exists []. reflexivity.
Qed.

Lemma trimEnd_prefix s : exists post, s = trimEnd s ++ post.
Proof.
  induction s as [| c s [post IH]]; [ exists []; reflexivity |].
  cbn. destruct (isWhiteSpace c && isEmpty (trimEnd s)).
  - exists (c :: s). reflexivity.
  - exists post. cbn. rewrite <- IH. reflexivity.
Qed.

Lemma includes_trim s : includes (trim s) s = true.
Proof.
  unfold trim. destruct (trimStart_suffix s) as [pre Hpre].
  destruct (trimEnd_prefix (trimStart s)) as [post Hpost].
  rewrite Hpre at 2. rewrite Hpost at 2. apply includes_middle.
Qed.

Lemma InOrder_includes ms s : InOrder ms s -> forall m, In m ms -> includes m s = true.
Proof.
  induction 1 as [s | before m ms rest H IH]; intros x Hx; [ contradiction |].
  destruct Hx as [<- | Hx]; [ apply includes_middle |].
  apply includes_append_r, includes_append_r, IH. exact Hx.
Qed.

Lemma Subseq_In {A} (l m : list A) x : Subseq l m -> In x l -> In x m.
Proof.
  induction 1 as [| y l m H IH | y l m H IH]; intros Hx; [ exact Hx | right; auto |].
  destruct Hx as [<- | Hx]; [ left; reflexivity | right; auto ].
Qed.

Lemma extractKeyPoints_excerpts summary n point :
  In point (AnalysisAgent.extractKeyPoints summary n) ->
  trim point = point /\ includes point summary = true.
Proof.
  unfold AnalysisAgent.extractKeyPoints.
  destruct (negb (truthy summary)); [ contradiction |].
  intros H. apply (Subseq_In _ _ _ (Subseq_firstn n _)) in H.
  apply filter_In in H as [H _].
  apply in_map_iff in H as [m [<- Hm]]. split; [ apply trim_idempotent |].
  apply (includes_trans _ m); [ apply includes_trim |].
  exact (InOrder_includes _ _ (sentences_InOrder summary) m Hm).
Qed.

(** X4: every key point the analyzer reports is an excerpt of the summary:
    it occurs in the summary character for character. *)
Theorem keyPoints_are_excerpts {U : Unicode}
  (r : ResearchAgent.FetchResult) (point : jsstring)
  (H : In point (AnalysisAgent.keyPoints (AnalysisAgent.run r))) :
  exists summary,
    ResearchAgent.summary r = str summary /\ includes point summary = true.
Proof.
  unfold AnalysisAgent.run in H.
  destruct (negb (ResearchAgent.ok r) || negb (truthy_value (ResearchAgent.summary r)))
    eqn:Hguard; [ contradiction |].
  destruct (ResearchAgent.summary r) as [| | summary] eqn:Hs;
    try (cbn in Hguard; rewrite orb_true_r in Hguard; discriminate).
  exists summary. split; [ reflexivity |].
  cbn [AnalysisAgent.keyPoints] in H.
  destruct (_ && _) in H.
  - cbn [In] in H. destruct H as [<- | H]; [ apply includes_self | contradiction ].
  - apply (extractKeyPoints_excerpts summary 5 point H).
Qed.

Lemma keyPoints_are_excerpts_witness :
  exists summary,
    ResearchAgent.summary (Scenario.fetched Scenario.adaExtract) = str summary /\
    includes (js "She worked on the Analytical Engine with Charles Babbage.") summary
      = true.
Proof.
  apply (keyPoints_are_excerpts (U := asciiOnly) (Scenario.fetched Scenario.adaExtract)
           (js "She worked on the Analytical Engine with Charles Babbage.")).
  vm_compute. right. left. reflexivity.
Defined.

(** ** The shape of a sentence match *)

Lemma plus_k_split {R} p (k : jsstring -> option R) s x :
  plus_k p k s = Some x ->
  exists run rest,
    s = run ++ rest /\ truthy run = true /\ forallb p run = true /\
    k rest = Some x.
Proof.
  induction s as [| c s IH]; cbn; [ discriminate |].
  destruct (p c) eqn:Hc; [| discriminate ].
  destruct (plus_k p k s) as [y |] eqn:E.
  - intros H. injection H as <-.
    destruct (IH eq_refl) as [run [rest [-> [_ [Hall Hk]]]]].
    exists (c :: run), rest. cbn. rewrite Hc, Hall. auto.
  - intros H. exists [c], s. cbn. rewrite Hc. auto.
Qed.

Lemma sentence_match_split s rest caps :
  match_prefix AnalysisAgent.sentence s = Some (rest, caps) ->
  exists body t gap,
    s = body ++ t :: (gap ++ rest) /\
    forallb (fun c => negb (AnalysisAgent.isTerminator c)) body = true /\
    AnalysisAgent.isTerminator t = true /\
    forallb isWhiteSpace gap = true.
Proof.
  unfold match_prefix, AnalysisAgent.sentence. cbn [seqs exec]. intros H.
  apply plus_k_split in H as [body [s1 [-> [_ [Hbody H]]]]].
  destruct s1 as [| t s1]; [ discriminate |].
  destruct (AnalysisAgent.isTerminator t) eqn:Ht; [| discriminate ].
  apply plus_k_split in H as [gap [rest' [-> [_ [Hgap H]]]]].
  injection H as -> _.
  exists body, t, gap. auto.
Qed.

Lemma match_all_go_members r s : forall skip m,
  In m (match_all_go r s skip) ->
  exists s' rest caps, match_prefix r s' = Some (rest, caps) /\ m = consumed s' rest.
Proof.
  induction s as [| c s IH]; intros skip m H; [ contradiction |].
  cbn [match_all_go] in H. destruct skip as [| n]; [| exact (IH _ _ H) ].
  destruct (match_prefix r (c :: s)) as [[rest caps] |] eqn:E; [| exact (IH _ _ H) ].
  destruct H as [<- | H]; [| exact (IH _ _ H) ].
  exists (c :: s), rest, caps. auto.
Qed.

Lemma isWhiteSpace_not_terminator c :
  isWhiteSpace c = true -> negb (AnalysisAgent.isTerminator c) = true.
Proof. char_facts. Qed.

Lemma trimStart_append_visible a b :
  truthy b = true -> stopsAt isWhiteSpace b = true ->
  trimStart (a ++ b) = trimStart a ++ b.
Proof.
  intros Hb Hs. induction a as [| c a IH]; cbn.
  - apply trimStart_fixed. exact Hs.
  - destruct (isWhiteSpace c); [ exact IH | reflexivity ].
Qed.

Lemma trimEnd_append_visible a t :
  isWhiteSpace t = false -> trimEnd (a ++ [t]) = a ++ [t].
Proof.
  intros Ht. induction a as [| c a IH]; cbn; [ rewrite Ht; reflexivity |].
  rewrite IH. destruct a; cbn; rewrite andb_false_r; reflexivity.
Qed.

(** The trimmed match of the sentence pattern: a body without terminator
    and the terminator. *)
Lemma sentence_member_trimmed summary m :
  In m (match_all_go AnalysisAgent.sentence summary 0) ->
  exists body t,
    trim m = body ++ [t] /\
    forallb (fun c => negb (AnalysisAgent.isTerminator c)) body = true /\
    AnalysisAgent.isTerminator t = true.
Proof.
  intros H. apply match_all_go_members in H as [s' [rest [caps [Hmatch ->]]]].
  apply sentence_match_split in Hmatch as [body [t [gap [-> [Hbody [Ht Hgap]]]]]].
  change (t :: (gap ++ rest)) with ((t :: gap) ++ rest).
  rewrite app_assoc, consumed_append.
  pose proof (isTerminator_not_space t Ht) as Hvisible.
  exists (trimStart body), t. split; [| split; [| exact Ht ] ].
  - unfold trim.
    rewrite trimStart_append_visible;
      [| reflexivity | cbn; rewrite Hvisible; reflexivity ].
    change (t :: gap) with ([t] ++ gap).
    rewrite app_assoc, trimEnd_append_spaces by exact Hgap.
    apply trimEnd_append_visible. exact Hvisible.
  - rewrite forallb_trimStart; [ exact Hbody | apply isWhiteSpace_not_terminator ].
Qed.

(** X5: when the summary has a sentence boundary (a terminator followed by
    whitespace), every extracted key point is one sentence: it ends with
    '.', '!' or '?' and holds no terminator before that. *)
Theorem keyPoints_single_sentences
  (summary : jsstring) (maxPoints : nat) (point : jsstring)
  (Hboundary : match_all AnalysisAgent.sentence summary <> None)
  (Hpoint : In point (AnalysisAgent.extractKeyPoints summary maxPoints)) :
  exists body t,
    point = body ++ [t] /\
    forallb (fun c => negb (AnalysisAgent.isTerminator c)) body = true /\
    AnalysisAgent.isTerminator t = true.
Proof.
  unfold AnalysisAgent.extractKeyPoints in Hpoint.
  destruct (negb (truthy summary)); [ contradiction |].
  apply (Subseq_In _ _ _ (Subseq_firstn maxPoints _)) in Hpoint.
  apply filter_In in Hpoint as [Hpoint _].
  apply in_map_iff in Hpoint as [m [<- Hm]].
  apply (sentence_member_trimmed summary).
  unfold AnalysisAgent.sentences in Hm. unfold match_all in *.
  destruct (match_all_go AnalysisAgent.sentence summary 0); [ congruence | exact Hm ].
Qed.

Lemma keyPoints_single_sentences_witness :
  exists body t,
    js "She worked on the Analytical Engine with Charles Babbage." = body ++ [t] /\
    forallb (fun c => negb (AnalysisAgent.isTerminator c)) body = true /\
    AnalysisAgent.isTerminator t = true.
Proof.
  apply (keyPoints_single_sentences Scenario.adaExtract 5).
  - vm_compute. discriminate.
  - vm_compute. right. left. reflexivity.
Defined.

(** ** Difficulty *)

Lemma fold_count (f : jsstring -> bool) (l : list jsstring) : forall n,
  fold_left (fun count word => if f word then count + 1 else count) l n =
  n + length (filter f l).
Proof.
  induction l as [| w l IH]; intros n; cbn; [ lia |].
  rewrite IH. destruct (f w); cbn; lia.
Qed.

Lemma countIncluded_filter vocabulary text :
  AnalysisAgent.countIncluded vocabulary text =
  length (filter (fun word => includes word text) vocabulary).
Proof. unfold AnalysisAgent.countIncluded. rewrite fold_count. reflexivity. Qed.

(** X6: the difficulty is decided by the numbers [a] and [b] of advanced
    and beginner terms that occur in the lower-cased summary: beginner
    exactly when [a < b] (the test [b >= 1] of the source adds nothing),
    intermediate-advanced exactly when [b <= a] and [2 <= a], intermediate
    exactly when [b <= a] and [a < 2]; it is never unknown. *)
Theorem inferDifficulty_by_counts {U : Unicode} (summary : jsstring) :
  let a := length (filter (fun word => includes word (toLowerCase summary))
                     AnalysisAgent.ADVANCED_WORDS) in
  let b := length (filter (fun word => includes word (toLowerCase summary))
                     AnalysisAgent.BEGINNER_WORDS) in
  (AnalysisAgent.inferDifficulty summary = AnalysisAgent.beginner <-> a < b) /\
  (AnalysisAgent.inferDifficulty summary = AnalysisAgent.intermediate_advanced
     <-> b <= a /\ 2 <= a) /\
  (AnalysisAgent.inferDifficulty summary = AnalysisAgent.intermediate
     <-> b <= a /\ a < 2) /\
  AnalysisAgent.inferDifficulty summary <> AnalysisAgent.unknown.
Proof.
  intros a b. unfold AnalysisAgent.inferDifficulty.
  rewrite !countIncluded_filter. fold a b.
  destruct (a <? b) eqn:Eab; [ apply Nat.ltb_lt in Eab | apply Nat.ltb_ge in Eab ].
  - assert (H1 : (1 <=? b) = true) by (apply Nat.leb_le; lia).
    rewrite H1. cbn [andb].
    repeat split; intros; try discriminate; try lia.
  - cbn [andb].
    destruct (2 <=? a) eqn:E2; [ apply Nat.leb_le in E2 | apply Nat.leb_gt in E2 ];
      repeat split; intros; try discriminate; try lia; try tauto.
    all: destruct H; lia.
Qed.

(** ** Letter case of ASCII text *)

Lemma asciiLower_asciiUpper c : asciiLower (asciiUpper c) = asciiLower c.
Proof. char_facts. Qed.

Lemma isAscii_map (f : N -> N) s :
  (forall c, isAsciiUnit c = true -> isAsciiUnit (f c) = true) ->
  isAscii s = true -> isAscii (map f s) = true.
Proof.
  intros Hf. unfold isAscii. rewrite !forallb_forall. intros H c Hc.
  apply in_map_iff in Hc as [d [<- Hd]]. auto.
Qed.

Section AsciiCase.
Context {U : Unicode}.

Lemma toLowerCase_ascii s : isAscii s = true -> toLowerCase s = map asciiLower s.
Proof. intros H. unfold toLowerCase. rewrite H. reflexivity. Qed.

Lemma toLowerCase_upper s :
  isAscii s = true -> toLowerCase (map asciiUpper s) = toLowerCase s.
Proof.
  intros H. rewrite !toLowerCase_ascii;
    [| exact H | apply isAscii_map; [ apply asciiUpper_ascii | exact H ] ].
  rewrite map_map. apply map_ext. apply asciiLower_asciiUpper.
Qed.

Lemma toLowerCase_lower s :
  isAscii s = true -> toLowerCase (toLowerCase s) = toLowerCase s.
Proof.
  intros H. rewrite (toLowerCase_ascii s H).
  rewrite toLowerCase_ascii by (apply isAscii_map; [ apply asciiLower_ascii | exact H ]).
  rewrite map_map. apply map_ext. apply asciiLower_idempotent.
Qed.

End AsciiCase.

(** X7: for ASCII text, letter case does not matter to the classification
    of the query nor to the difficulty of a summary: the text in upper
    case ([map asciiUpper], which is [toUpperCase] on ASCII text) and the
    text in lower case give the results of the text as written. *)
Theorem classification_ignores_case {U : Unicode} (text : jsstring)
  (Hascii : isAscii text = true) :
  (forall hasContent,
     TaskAgent.classifyIntent (map asciiUpper text) hasContent =
       TaskAgent.classifyIntent text hasContent /\
     TaskAgent.classifyIntent (toLowerCase text) hasContent =
       TaskAgent.classifyIntent text hasContent) /\
  AnalysisAgent.inferDifficulty (map asciiUpper text) =
    AnalysisAgent.inferDifficulty text /\
  AnalysisAgent.inferDifficulty (toLowerCase text) = AnalysisAgent.inferDifficulty text.
Proof.
  unfold TaskAgent.classifyIntent, AnalysisAgent.inferDifficulty.
  rewrite (toLowerCase_upper text Hascii), (toLowerCase_lower text Hascii). auto.
Qed.

Lemma classification_ignores_case_witness :
  TaskAgent.classifyIntent (U := asciiOnly) (js "HOW DO I LEARN GO") true =
    TaskAgent.classifyIntent (U := asciiOnly) (js "How do I learn Go") true /\
  AnalysisAgent.inferDifficulty (U := asciiOnly) (js "A SIMPLE INTRODUCTION") =
    AnalysisAgent.inferDifficulty (U := asciiOnly) (js "A simple introduction").
Proof.
  split.
  - apply (classification_ignores_case (U := asciiOnly) (js "How do I learn Go")
             eq_refl).
  - apply (classification_ignores_case (U := asciiOnly) (js "A simple introduction")
             eq_refl).
Defined.

(** ** The rendered answer *)

Lemma appendPoints_includes before after keyPoints point :
  In point keyPoints ->
  includes point (TaskAgent.appendPoints before after keyPoints []) = true.
Proof.
  induction keyPoints as [| p ps IH]; intros H; [ contradiction |].
  rewrite appendPoints_append.
  unfold TaskAgent.appendPoints at 1. cbn [fold_left].
  fold (TaskAgent.appendPoints before after ps ([] ++ before ++ p ++ after)).
  rewrite appendPoints_append.
  destruct H as [<- | H].
  - apply includes_append_r, includes_append_l.
    cbn [app]. apply includes_append_r, includes_prefix.
  - apply includes_append_r, includes_append_r, IH. exact H.
Qed.

Lemma startsWith_self (a : jsstring) : startsWith a a = true.
Proof. rewrite <- (app_nil_r a) at 2. apply startsWith_prefix. Qed.

(** Looks for the start of a concatenation, and for a part of it that a
    hypothesis finds the needle in. *)
Ltac find_start :=
  first [ apply startsWith_self | apply startsWith_append_l; find_start ].

Ltac find_part :=
  first [ assumption
        | apply includes_append_l; find_part
        | apply includes_append_r; find_part ].

(** X8: in every mode the rendered answer begins with the heading of the
    topic, holds every key point and the url of the research result, and
    ends with the advisory line. *)
Theorem generateAnswer_structure {U : Unicode}
  (research : ResearchAgent.FetchResult) (analysis : AnalysisAgent.AnalysisResult)
  (mode : TaskAgent.Mode) :
  let answer := TaskAgent.generateAnswer research analysis mode in
  startsWith
    (js "## " ++ TaskAgent.books ++ js " " ++ show (ResearchAgent.topic research)
       ++ TaskAgent.nl ++ TaskAgent.nl)
    answer = true /\
  (forall point, In point (AnalysisAgent.keyPoints analysis) ->
     includes point answer = true) /\
  includes (show (ResearchAgent.url research)) answer = true /\
  exists front,
    answer = front ++ js "**Advisory:** *" ++ AnalysisAgent.advisory analysis ++ js "*"
               ++ TaskAgent.nl.
Proof.
  cbv zeta. split; [| split; [| split ] ].
  - change (js "## " ++ TaskAgent.books ++ js " " ++ show (ResearchAgent.topic research)
              ++ TaskAgent.nl ++ TaskAgent.nl)
      with (TaskAgent.headingMark ++ show (ResearchAgent.topic research)
              ++ TaskAgent.nl ++ TaskAgent.nl).
    unfold TaskAgent.generateAnswer.
    destruct mode; cbv zeta; rewrite appendPoints_append; find_start.
  - intros point Hpoint. unfold TaskAgent.generateAnswer.
    pose proof (appendPoints_includes (js "- **") (js "**" ++ TaskAgent.nl)
                  (AnalysisAgent.keyPoints analysis) point Hpoint) as Hbold.
    pose proof (appendPoints_includes (js "* ") TaskAgent.nl
                  (AnalysisAgent.keyPoints analysis) point Hpoint) as Hplain.
    destruct mode; cbv zeta; rewrite appendPoints_append; find_part.
  - apply generateAnswer_heading_and_url.
  - unfold TaskAgent.generateAnswer.
    destruct mode; eexists; reflexivity.
Qed.

(** ** The task agent *)

Lemma classifyIntent_no_content {U : Unicode} query hasContent :
  TaskAgent.classifyIntent query hasContent = TaskAgent.no_content <-> hasContent = false.
Proof.
  unfold TaskAgent.classifyIntent. destruct hasContent; cbn [negb].
  - split; [| discriminate ].
    destruct (_ || _); [ discriminate |]. destruct (_ || _); discriminate.
  - split; reflexivity.
Qed.

(** The failure text of the task agent. *)
Lemma task_run_without_content {U : Unicode} query research analysis :
  AnalysisAgent.hasContent analysis = false ->
  let result := TaskAgent.run query research analysis in
  TaskAgent.mode result = TaskAgent.no_content /\
  includes (js "Query: " ++ query) (TaskAgent.finalAnswer result) = true /\
  (ResearchAgent.triedTopics research = None ->
   truthy_value (ResearchAgent.topic research) = true ->
   includes (js "Topics tried: " ++ show (ResearchAgent.topic research))
     (TaskAgent.finalAnswer result) = true) /\
  (forall message,
     truthy_value (ResearchAgent.errorSummary research) = false ->
     ResearchAgent.error research = str message ->
     truthy message = true ->
     includes (js "Reason: " ++ message) (TaskAgent.finalAnswer result) = true).
Proof.
  intros H. cbv zeta. unfold TaskAgent.run.
  cbn [TaskAgent.mode TaskAgent.finalAnswer]. rewrite H.
  cbn [TaskAgent.classifyIntent negb join].
  split; [ reflexivity |]. split; [| split ].
  - find_included.
  - intros Htried Htopic. rewrite Htried, Htopic. find_included.
  - intros message Hsummary Herror Hmessage.
    rewrite Hsummary, Herror. cbn [truthy_value show]. rewrite Hmessage.
    find_included.
Qed.

(** X9: the task agent answers in mode no-content exactly when the
    analysis has no content.  With content the answer is the rendering in
    the classified mode; without, it is the failure text, which holds the
    query, the topic of the research result (when no list of tried topics
    is given and the topic is not empty) and the error message of the
    research result (when no error summary is given and the message is not
    empty). *)
Theorem task_run_answer {U : Unicode}
  (query : jsstring) (research : ResearchAgent.FetchResult)
  (analysis : AnalysisAgent.AnalysisResult) :
  let result := TaskAgent.run query research analysis in
  (TaskAgent.mode result = TaskAgent.no_content
     <-> AnalysisAgent.hasContent analysis = false) /\
  (AnalysisAgent.hasContent analysis = true ->
     TaskAgent.finalAnswer result =
       TaskAgent.generateAnswer research analysis (TaskAgent.classifyIntent query true)) /\
  (AnalysisAgent.hasContent analysis = false ->
     includes (js "Query: " ++ query) (TaskAgent.finalAnswer result) = true /\
     (ResearchAgent.triedTopics research = None ->
      truthy_value (ResearchAgent.topic research) = true ->
      includes (js "Topics tried: " ++ show (ResearchAgent.topic research))
        (TaskAgent.finalAnswer result) = true) /\
     (forall message,
        truthy_value (ResearchAgent.errorSummary research) = false ->
        ResearchAgent.error research = str message ->
        truthy message = true ->
        includes (js "Reason: " ++ message) (TaskAgent.finalAnswer result) = true)).
Proof.
  cbv zeta. split; [| split ].
  - unfold TaskAgent.run. cbn [TaskAgent.mode]. apply classifyIntent_no_content.
  - intros H. unfold TaskAgent.run. cbn [TaskAgent.finalAnswer]. rewrite H.
    pose proof (classifyIntent_no_content query true) as Hmode.
    destruct (TaskAgent.classifyIntent query true); try reflexivity.
    destruct Hmode as [Hmode _]. discriminate (Hmode eq_refl).
  - intros H. apply (task_run_without_content query research analysis H).
Qed.

(** ** The pipeline with the installed agents *)

(** A fetch whose call, if it is made at all, throws. *)
Lemma fetch_failed axios_get key :
  (forall encoded,
     ResearchAgent.encodeURIComponent key = Some encoded ->
     exists err,
       axios_get (ResearchAgent.WIKI_API_BASE ++ encoded) ResearchAgent.USER_AGENT
         = Throw err) ->
  exists message,
    truthy message = true /\
    ResearchAgent.fetchWikiSummary axios_get key =
      Return {| ResearchAgent.topic := str key;
                ResearchAgent.source := js "wikipedia";
                ResearchAgent.ok := false;
                ResearchAgent.summary := null;
                ResearchAgent.url := null;
                ResearchAgent.raw := None;
                ResearchAgent.error := str message;
                ResearchAgent.triedTopics := None;
                ResearchAgent.errorSummary := undefined |}.
Proof.
  intros Hcall. unfold ResearchAgent.fetchWikiSummary.
  destruct (ResearchAgent.encodeURIComponent key) as [encoded |].
  - destruct (Hcall encoded eq_refl) as [err Herr]. cbn [bind]. rewrite Herr.
    cbn [bind try_catch]. eexists. split; [| reflexivity ].
    apply truthy_true, failure_message_set.
  - cbn [bind try_catch]. eexists. split; [| reflexivity ]. reflexivity.
Qed.

(** X10: when the outbound call fails (or the key cannot be encoded, so
    that no call is made), the pipeline with the installed agents still
    completes normally: the response carries no error flag, echoes the
    query and the timestamp, holds the failed research result (with the
    extracted key as topic) and the no-content analysis, has mode
    no-content, and its final answer holds the query, the key that was
    tried and the error message of the fetch. *)
Theorem failed_fetch_pipeline {U : Unicode}
  (axios_get : jsstring -> jsstring -> Exc (option ResearchAgent.WikiData))
  (now query : jsstring)
  (Hcall : forall encoded,
     ResearchAgent.encodeURIComponent (ResearchAgent.extractTopic query) = Some encoded ->
     exists err,
       axios_get (ResearchAgent.WIKI_API_BASE ++ encoded) ResearchAgent.USER_AGENT
         = Throw err) :
  exists resp research message,
    Coordinator.orchestrate (Coordinator.constructor axios_get) now query = Return resp /\
    Coordinator.error resp = false /\
    Coordinator.query resp = Some query /\
    Coordinator.timestamp resp = Some now /\
    Coordinator.research resp = Some research /\
    ResearchAgent.ok research = false /\
    ResearchAgent.topic research = str (ResearchAgent.extractTopic query) /\
    ResearchAgent.error research = str message /\
    Coordinator.analysis resp = Some noContentResult /\
    Coordinator.task resp = TaskAgent.no_content /\
    includes (js "Query: " ++ query) (Coordinator.finalAnswer resp) = true /\
    includes (js "Reason: " ++ message) (Coordinator.finalAnswer resp) = true /\
    (truthy (ResearchAgent.extractTopic query) = true ->
     includes (js "Topics tried: " ++ ResearchAgent.extractTopic query)
       (Coordinator.finalAnswer resp) = true).
Proof.
  destruct (fetch_failed axios_get _ Hcall) as [message [Hmessage Hfetch]].
  unfold Coordinator.orchestrate, Coordinator.constructor.
  cbn [Coordinator.researchAgent Coordinator.analysisAgent Coordinator.taskAgent].
  unfold ResearchAgent.run. rewrite Hfetch. cbn [bind].
  set (research := {| ResearchAgent.topic := str (ResearchAgent.extractTopic query);
                      ResearchAgent.ok := false |}).
  assert (Hanalysis : AnalysisAgent.run research = noContentResult) by reflexivity.
  rewrite Hanalysis.
  destruct (task_run_without_content query research noContentResult eq_refl)
    as [_ [Hquery [Htopic Hreason]]].
  eexists. exists research, message.
  split; [ reflexivity |].
  cbn [Coordinator.error Coordinator.query Coordinator.timestamp Coordinator.research
       Coordinator.analysis Coordinator.task Coordinator.finalAnswer].
  do 9 (split; [ reflexivity |]).
  split; [ exact Hquery |]. split.
  - apply Hreason; [ reflexivity | reflexivity | exact Hmessage ].
  - intros Ht. apply (Htopic eq_refl Ht).
Qed.

Lemma failed_fetch_pipeline_witness :
  exists resp,
    Coordinator.orchestrate
      (Coordinator.constructor (U := asciiOnly) (fun _ _ => Throw Scenario.typeError))
      Scenario.noon (js "who is Ada Lovelace") = Return resp /\
    Coordinator.error resp = false /\
    Coordinator.task resp = TaskAgent.no_content /\
    includes (js "Reason: Network or unknown API error.") (Coordinator.finalAnswer resp)
      = true.
Proof.
  destruct (failed_fetch_pipeline (U := asciiOnly) (fun _ _ => Throw Scenario.typeError)
              Scenario.noon (js "who is Ada Lovelace")
              (fun _ _ => ex_intro _ Scenario.typeError eq_refl))
    as [resp [research [message [H1 [H2 [_ [_ [Hr [_ [_ [Hm [_ [H4 [_ [H5 _]]]]]]]]]]]]]]].
  exists resp. repeat split; try assumption.
  vm_compute in H1. injection H1 as <-.
  vm_compute in Hr. injection Hr as <-.
  vm_compute in Hm. injection Hm as <-.
  exact H5.
Defined.

(** X11: with the installed agents the pipeline always completes normally
    (no error flag, the query and the timestamp echoed, research and
    analysis present), and its mode is no-content exactly when the fetch
    found no usable body: the key cannot be encoded, the outbound call
    failed, it returned no body, or a body whose url cannot be read or
    whose extract is not a non-empty string. *)
Theorem installed_pipeline_completes {U : Unicode}
  (axios_get : jsstring -> jsstring -> Exc (option ResearchAgent.WikiData))
  (now query : jsstring) :
  exists resp research,
    Coordinator.orchestrate (Coordinator.constructor axios_get) now query = Return resp /\
    Coordinator.error resp = false /\
    Coordinator.query resp = Some query /\
    Coordinator.timestamp resp = Some now /\
    ResearchAgent.run axios_get query = Return research /\
    Coordinator.research resp = Some research /\
    Coordinator.analysis resp = Some (AnalysisAgent.run research) /\
    (Coordinator.task resp = TaskAgent.no_content <->
     ResearchAgent.ok research = false \/
     truthy_value (ResearchAgent.summary research) = false) /\
    (Coordinator.task resp = TaskAgent.no_content <->
     match ResearchAgent.encodeURIComponent (ResearchAgent.extractTopic query) with
     | None => True
     | Some encoded =>
         match axios_get (ResearchAgent.WIKI_API_BASE ++ encoded)
                 ResearchAgent.USER_AGENT with
         | Throw _ => True
         | Return None => True
         | Return (Some data) =>
             usableBody (ResearchAgent.extractTopic query) data = false
         end
     end).
Proof.
  destruct (fetch_returns axios_get (ResearchAgent.extractTopic query)) as [research Hr].
  assert (Hmode : forall analysis,
            TaskAgent.mode (TaskAgent.run query research analysis) = TaskAgent.no_content
            <-> AnalysisAgent.hasContent analysis = false).
  { intros analysis. unfold TaskAgent.run. cbn [TaskAgent.mode].
    apply classifyIntent_no_content. }
  assert (Hcontent : AnalysisAgent.hasContent (AnalysisAgent.run research) = false <->
            ResearchAgent.ok research = false \/
            truthy_value (ResearchAgent.summary research) = false).
  { unfold AnalysisAgent.run.
    destruct (ResearchAgent.ok research), (truthy_value (ResearchAgent.summary research));
      cbn; intuition congruence. }
  exists {| Coordinator.error := false;
            Coordinator.errorMessage := None;
            Coordinator.query := Some query;
            Coordinator.timestamp := Some now;
            Coordinator.research := Some research;
            Coordinator.analysis := Some (AnalysisAgent.run research);
            Coordinator.task :=
              TaskAgent.mode (TaskAgent.run query research (AnalysisAgent.run research));
            Coordinator.finalAnswer :=
              TaskAgent.finalAnswer
                (TaskAgent.run query research (AnalysisAgent.run research)) |},
    research.
  assert (Hrun : ResearchAgent.run axios_get query = Return research).
  { unfold ResearchAgent.run. rewrite Hr. reflexivity. }
  split.
  { unfold Coordinator.orchestrate, Coordinator.constructor.
    cbn [Coordinator.researchAgent Coordinator.analysisAgent Coordinator.taskAgent].
    rewrite Hrun. reflexivity. }
  cbn [Coordinator.error Coordinator.query Coordinator.timestamp Coordinator.research
       Coordinator.analysis Coordinator.task].
  do 3 (split; [ reflexivity |]). split; [ exact Hrun |].
  do 2 (split; [ reflexivity |]).
  split; [ rewrite Hmode; exact Hcontent |].
  rewrite Hmode, Hcontent.
  destruct (ResearchAgent.ok research) eqn:Hok.
  - destruct (fetch_ok_true _ _ _ Hr Hok)
      as [encoded [data [Henc [Hcall [_ [Hsum Hurl]]]]]].
    rewrite Henc, Hcall. unfold usableBody. rewrite Hurl, <- Hsum.
    intuition congruence.
  - split; [ intros _ | auto ].
    destruct (ResearchAgent.encodeURIComponent _) as [encoded |] eqn:Henc; [| exact I ].
    destruct (axios_get _ _) as [[data |] | err] eqn:Hcall; try exact I.
    unfold usableBody.
    destruct (reportedUrl _ data) as [pageUrl |] eqn:Hurl; [| reflexivity ].
    exfalso. revert Hr Hok.
    unfold ResearchAgent.fetchWikiSummary. rewrite Henc. cbn [bind]. rewrite Hcall.
    cbn [bind member]. unfold reportedUrl in Hurl.
    destruct (ResearchAgent.content_urls data) as [[[d |]] |];
      cbn [option_map ResearchAgent.desktop] in Hurl; try discriminate;
      cbn [bind member ResearchAgent.desktop try_catch];
      intros H; injection H as <-; discriminate.
Qed.

(** ** The error flag of the orchestrator *)

(** X12: whatever the agents do, the response of [orchestrate] has the
    error flag exactly when the research agent or the task agent throws.
    After a research failure it carries neither research nor analysis;
    otherwise it carries the research result and the analysis that was
    handed to the task agent.  A flagged response has mode no-content and
    neither query nor timestamp. *)
Theorem orchestrate_error_flag (this : Coordinator.Agents) (now query : jsstring) :
  exists resp,
    Coordinator.orchestrate this now query = Return resp /\
    match Coordinator.researchAgent this query with
    | Throw _ =>
        Coordinator.error resp = true /\
        Coordinator.research resp = None /\ Coordinator.analysis resp = None
    | Return researchResult =>
        exists analysisResult,
          Coordinator.research resp = Some researchResult /\
          Coordinator.analysis resp = Some analysisResult /\
          Coordinator.error resp =
            throws (Coordinator.taskAgent this query researchResult analysisResult)
    end /\
    (if Coordinator.error resp
     then Coordinator.task resp = TaskAgent.no_content /\
          Coordinator.query resp = None /\ Coordinator.timestamp resp = None
     else Coordinator.query resp = Some query /\ Coordinator.timestamp resp = Some now).
Proof.
  unfold Coordinator.orchestrate.
  destruct (Coordinator.researchAgent this query) as [researchResult | e1].
  - set (analysisResult :=
           match Coordinator.analysisAgent this researchResult with
           | Return a => a
           | Throw _ => Coordinator.analysisFallback
           end).
    destruct (Coordinator.taskAgent this query researchResult analysisResult)
      as [taskResult | e3] eqn:Htask;
      eexists; (split; [ reflexivity |]);
      cbn [Coordinator.error Coordinator.research Coordinator.analysis Coordinator.task
           Coordinator.query Coordinator.timestamp];
      (split; [ exists analysisResult; rewrite Htask; auto | auto ]).
  - eexists. split; [ reflexivity |].
    cbn [Coordinator.error Coordinator.research Coordinator.analysis Coordinator.task
         Coordinator.query Coordinator.timestamp]. auto.
Qed.

(** ** The request handler *)

Lemma orchestrate_returns (this : Coordinator.Agents) (now query : jsstring) :
  exists resp, Coordinator.orchestrate this now query = Return resp.
Proof.
  unfold Coordinator.orchestrate.
  destruct (Coordinator.researchAgent this query); [| eauto ].
  destruct (Coordinator.taskAgent this query _ _); eauto.
Qed.

(** X13: for a request with a body, the handler answers 200 with the
    response of the orchestrator when the [query] member of the body is a
    non-empty string, and 400 with the error object in every other case
    (member missing, null, not a string, or the empty string).  For a
    request whose body is [undefined] the destructuring in front of the
    [try] throws, and the handler sends no answer.  Whatever the agents do,
    the handler never sends its 500 answer. *)
Theorem handleQuery_status (coordinator : Coordinator.Agents) (now : jsstring)
  (req : Server.Request) :
  match Server.body req with
  | None => throws (Server.handleQuery coordinator now req) = true
  | Some body =>
      match Server.query body with
      | Some (Server.JString (c :: s)) =>
          exists resp,
            Coordinator.orchestrate coordinator now (c :: s) = Return resp /\
            Server.handleQuery coordinator now req =
              Return {| Server.status := 200; Server.payload := Server.Result resp |}
      | _ =>
          Server.handleQuery coordinator now req =
            Return {| Server.status := 400;
                      Server.payload :=
                        Server.BadRequest
                          (js "Invalid or missing query in request body.") |}
      end
  end /\
  (forall response,
     Server.handleQuery coordinator now req = Return response ->
     Server.status response <> 500).
Proof.
  unfold Server.handleQuery.
  destruct (Server.body req) as [[query] |]; cbn [member bind Server.query];
    [| split; [ reflexivity | discriminate ] ].
  destruct query as [[| b | n | s | |] |]; cbn [Server.falsy Server.isString negb orb];
    try (split; [ reflexivity | intros response H; injection H as <-; discriminate ]).
  - destruct b; (split; [ reflexivity | intros response H; injection H as <-; discriminate ]).
  - rewrite orb_true_r.
    split; [ reflexivity | intros response H; injection H as <-; discriminate ].
  - destruct s as [| c s]; cbn [isEmpty orb];
      [ split; [ reflexivity | intros response H; injection H as <-; discriminate ] |].
    destruct (orchestrate_returns coordinator now (c :: s)) as [resp Hresp].
    rewrite Hresp. cbn [bind try_catch].
    split; [ exists resp; auto | intros response H; injection H as <-; discriminate ].
Qed.

(** A request without a body makes the handler throw, whatever the
    coordinator. *)
Example handleQuery_without_body coordinator :
  Server.handleQuery coordinator Scenario.noon {| Server.body := None |}
    = Throw (runtimeError (js "Cannot read properties of undefined")).
Proof. reflexivity. Qed.

(** X14: a query of whitespace and question marks only passes the check
    of the handler; the pipeline then asks the summary service for the
    empty key and answers 200 with what comes of it. *)
Theorem blank_query_fetches_empty_key {U : Unicode}
  (axios_get : jsstring -> jsstring -> Exc (option ResearchAgent.WikiData))
  (now query : jsstring)
  (Hquery : truthy query = true)
  (Hblank : hasKeyChar query = false) :
  ResearchAgent.run axios_get query = ResearchAgent.fetchWikiSummary axios_get [] /\
  exists resp research,
    ResearchAgent.fetchWikiSummary axios_get [] = Return research /\
    Server.handleQuery (Coordinator.constructor axios_get) now
      {| Server.body := Some {| Server.query := Some (Server.JString query) |} |} =
      Return {| Server.status := 200; Server.payload := Server.Result resp |} /\
    Coordinator.research resp = Some research.
Proof.
  assert (Hrun : ResearchAgent.run axios_get query =
                 ResearchAgent.fetchWikiSummary axios_get []).
  { unfold ResearchAgent.run. rewrite (extractTopic_without_keyChar query Hblank).
    destruct (ResearchAgent.fetchWikiSummary axios_get []); reflexivity. }
  split; [ exact Hrun |].
  destruct (fetch_returns axios_get []) as [research Hr].
  destruct query as [| c q]; [ discriminate |].
  unfold Server.handleQuery.
  cbn [member bind Server.body Server.query Server.falsy Server.isString isEmpty negb orb].
  unfold Coordinator.orchestrate, Coordinator.constructor.
  cbn [Coordinator.researchAgent Coordinator.analysisAgent Coordinator.taskAgent].
  rewrite Hrun, Hr. cbn [bind try_catch].
  eexists. exists research. split; [ reflexivity |]. split; reflexivity.
Qed.

Lemma blank_query_fetches_empty_key_witness :
  ResearchAgent.run (U := asciiOnly) (Scenario.stub []) (js " ? ") =
    ResearchAgent.fetchWikiSummary (Scenario.stub []) [] /\
  exists resp research,
    ResearchAgent.fetchWikiSummary (Scenario.stub []) [] = Return research /\
    Server.handleQuery (Coordinator.constructor (U := asciiOnly) (Scenario.stub []))
      Scenario.noon
      {| Server.body := Some {| Server.query := Some (Server.JString (js " ? ")) |} |} =
      Return {| Server.status := 200; Server.payload := Server.Result resp |} /\
    Coordinator.research resp = Some research.
Proof.
  apply (blank_query_fetches_empty_key (U := asciiOnly) (Scenario.stub [])
           Scenario.noon (js " ? "));
    reflexivity.
Defined.

(** ** The request url *)

Lemma cons_eq {A} (a b : A) l m : a :: l = b :: m -> a = b /\ l = m.
Proof. intros H. split; congruence. Qed.

Ltac split_cons :=
  repeat match goal with
         | H : _ :: _ = _ :: _ |- _ =>
             let E := fresh "E" in apply cons_eq in H as [E H]
         end.

Ltac order_facts :=
  repeat match goal with
         | E : (_ <? _)%N = true |- _ => apply N.ltb_lt in E
         | E : (_ <? _)%N = false |- _ => apply N.ltb_ge in E
         end.

Section Octets.
Local Ltac Zify.zify_post_hook ::= Z.to_euclidean_division_equations.

(** UTF-8 is a prefix code: the octets of a code point tell where they
    end. *)
Lemma utf8_prefix c1 c2 r1 r2 :
  (c1 < 1114112)%N -> (c2 < 1114112)%N ->
  ResearchAgent.utf8 c1 ++ r1 = ResearchAgent.utf8 c2 ++ r2 -> c1 = c2 /\ r1 = r2.
Proof.
  intros H1 H2. unfold ResearchAgent.utf8.
  destruct (c1 <? 128)%N eqn:A1; [| destruct (c1 <? 2048)%N eqn:B1;
                                     [| destruct (c1 <? 65536)%N eqn:C1 ] ];
  (destruct (c2 <? 128)%N eqn:A2; [| destruct (c2 <? 2048)%N eqn:B2;
                                      [| destruct (c2 <? 65536)%N eqn:C2 ] ]);
  cbn [app]; intros H; split_cons; order_facts;
  first [ exfalso; lia | split; [ lia | exact H ] ].
Qed.

Lemma utf8_octets cp :
  (cp < 1114112)%N -> Forall (fun b => (b < 256)%N) (ResearchAgent.utf8 cp).
Proof.
  intros H. unfold ResearchAgent.utf8.
  destruct (cp <? 128)%N eqn:A; [| destruct (cp <? 2048)%N eqn:B;
                                     [| destruct (cp <? 65536)%N eqn:C ] ];
  order_facts; repeat (constructor; [ lia |]); constructor.
Qed.

Lemma hex_pair b1 b2 :
  (b1 < 256)%N -> (b2 < 256)%N ->
  ResearchAgent.hexDigit (b1 / 16) = ResearchAgent.hexDigit (b2 / 16) ->
  ResearchAgent.hexDigit (b1 mod 16) = ResearchAgent.hexDigit (b2 mod 16) ->
  b1 = b2.
Proof.
  unfold ResearchAgent.hexDigit. intros H1 H2.
  destruct (b1 / 16 <? 10)%N eqn:A1, (b2 / 16 <? 10)%N eqn:A2,
           (b1 mod 16 <? 10)%N eqn:B1, (b2 mod 16 <? 10)%N eqn:B2;
    order_facts; lia.
Qed.

Lemma hexDigit_unreserved b :
  (b < 256)%N ->
  ResearchAgent.isUnreserved (ResearchAgent.hexDigit (b / 16)) = true /\
  ResearchAgent.isUnreserved (ResearchAgent.hexDigit (b mod 16)) = true.
Proof.
  intros H.
  assert (Hdigit : forall n, (n < 16)%N ->
            ResearchAgent.isUnreserved (ResearchAgent.hexDigit n) = true).
  { intros n Hn. unfold ResearchAgent.hexDigit. char_facts. }
  split; apply Hdigit; lia.
Qed.

End Octets.

(** The escaped octets tell where they end, too. *)
Lemma escapeOctet_prefix b1 b2 r1 r2 :
  (b1 < 256)%N -> (b2 < 256)%N ->
  ResearchAgent.escapeOctet b1 ++ r1 = ResearchAgent.escapeOctet b2 ++ r2 ->
  b1 = b2 /\ r1 = r2.
Proof.
  intros H1 H2. unfold ResearchAgent.escapeOctet.
  destruct (ResearchAgent.isUnreserved b1) eqn:A1,
           (ResearchAgent.isUnreserved b2) eqn:A2;
    cbn [app]; intros H; split_cons.
  - auto.
  - subst b1. discriminate.
  - subst b2. discriminate.
  - split; [ apply hex_pair; assumption | exact H ].
Qed.

Lemma escapeOctets_injective l1 : forall l2,
  Forall (fun b => (b < 256)%N) l1 -> Forall (fun b => (b < 256)%N) l2 ->
  flat_map ResearchAgent.escapeOctet l1 = flat_map ResearchAgent.escapeOctet l2 ->
  l1 = l2.
Proof.
  assert (Hne : forall b r, ResearchAgent.escapeOctet b ++ r <> []).
  { intros b r. unfold ResearchAgent.escapeOctet.
    destruct (ResearchAgent.isUnreserved b); discriminate. }
  induction l1 as [| b1 l1 IH]; intros [| b2 l2] F1 F2 H; cbn [flat_map] in H.
  - reflexivity.
  - symmetry in H. destruct (Hne _ _ H).
  - destruct (Hne _ _ H).
  - inversion F1; inversion F2; subst.
    apply escapeOctet_prefix in H as [-> H]; [| assumption | assumption ].
    rewrite (IH l2); auto.
Qed.

Lemma utf8_injective l1 : forall l2,
  Forall validCodePoint l1 -> Forall validCodePoint l2 ->
  flat_map ResearchAgent.utf8 l1 = flat_map ResearchAgent.utf8 l2 -> l1 = l2.
Proof.
  assert (Hne : forall cp r, ResearchAgent.utf8 cp ++ r <> []).
  { intros cp r. unfold ResearchAgent.utf8.
    destruct (cp <? 128)%N; [| destruct (cp <? 2048)%N; [| destruct (cp <? 65536)%N ] ];
      discriminate. }
  induction l1 as [| c1 l1 IH]; intros [| c2 l2] F1 F2 H; cbn [flat_map] in H.
  - reflexivity.
  - symmetry in H. destruct (Hne _ _ H).
  - destruct (Hne _ _ H).
  - inversion F1; inversion F2; subst.
    apply utf8_prefix in H as [-> H]; [| assumption | assumption ].
    rewrite (IH l2); auto.
Qed.

Lemma utf8_all_octets l :
  Forall validCodePoint l -> Forall (fun b => (b < 256)%N) (flat_map ResearchAgent.utf8 l).
Proof.
  induction 1 as [| cp l Hcp _ IH]; cbn [flat_map]; [ constructor |].
  apply Forall_app. split; [ apply utf8_octets; exact Hcp | exact IH ].
Qed.

(** The first code point of a string: one unit that is no surrogate, or a
    surrogate pair. *)
Lemma codePoints_cons c s l :
  ResearchAgent.codePoints (c :: s) = Some l ->
  (exists l',
     l = c :: l' /\ ResearchAgent.codePoints s = Some l' /\ (c < 65536)%N) \/
  (exists lo s' l',
     s = lo :: s' /\
     l = (65536 + (c - 55296) * 1024 + (lo - 56320))%N :: l' /\
     ResearchAgent.codePoints s' = Some l' /\
     (55296 <= c <= 56319)%N /\ (56320 <= lo <= 57343)%N).
Proof.
  cbn [ResearchAgent.codePoints].
  destruct (ResearchAgent.isHighSurrogate c) eqn:Hhigh.
  - destruct s as [| lo s']; [ discriminate |].
    destruct (ResearchAgent.isLowSurrogate lo) eqn:Hlow; [| discriminate ].
    destruct (ResearchAgent.codePoints s') as [l' |] eqn:Hl; [| discriminate ].
    intros H. injection H as <-. right. exists lo, s', l'.
    do 2 (split; [ reflexivity |]). split; [ exact Hl |]. clear - Hhigh Hlow. char_facts.
  - destruct (ResearchAgent.isLowSurrogate c || (65536 <=? c)%N) eqn:Hlow;
      [ discriminate |].
    destruct (ResearchAgent.codePoints s) as [l' |] eqn:Hl; [| discriminate ].
    intros H. injection H as <-. left. exists l'.
    do 2 (split; [ reflexivity |]). clear - Hlow. char_facts.
Qed.

Lemma codePoints_valid n : forall s l,
  length s <= n -> ResearchAgent.codePoints s = Some l -> Forall validCodePoint l.
Proof.
  induction n as [| n IH]; intros [| c s] l Hlen H;
    try (injection H as <-; constructor); cbn [length] in Hlen; [ lia |].
  apply codePoints_cons in H
    as [[l' [-> [H Hc]]] | [lo [s' [l' [-> [-> [H [Hc Hlo]]]]]]]].
  - constructor; [ unfold validCodePoint; lia | apply (IH s); [ lia | exact H ] ].
  - cbn [length] in Hlen.
    constructor; [ unfold validCodePoint; lia | apply (IH s'); [ lia | exact H ] ].
Qed.

Lemma codePoints_injective n : forall a b l,
  length a <= n ->
  ResearchAgent.codePoints a = Some l -> ResearchAgent.codePoints b = Some l -> a = b.
Proof.
  induction n as [| n IH]; intros [| c a] [| d b] l Hlen Ha Hb;
    try reflexivity; cbn [length] in Hlen; try lia;
    try (injection Ha as <-; apply codePoints_cons in Hb
           as [[? [? _]] | [? [? [? [_ [? _]]]]]]; discriminate);
    try (injection Hb as <-; apply codePoints_cons in Ha
           as [[? [? _]] | [? [? [? [_ [? _]]]]]]; discriminate).
  apply codePoints_cons in Ha
    as [[la [-> [Ha Hc]]] | [lo [a' [la [-> [-> [Ha [Hc Hlo]]]]]]]];
    apply codePoints_cons in Hb
      as [[lb [E [Hb Hd]]] | [lo' [b' [lb [-> [E [Hb [Hd Hlo']]]]]]]];
    apply cons_eq in E as [E <-].
  - subst d. rewrite (IH a b la); [ reflexivity | lia | exact Ha | exact Hb ].
  - exfalso. lia.
  - exfalso. lia.
  - cbn [length] in Hlen.
    assert (c = d /\ lo = lo') as [-> ->] by lia.
    rewrite (IH a' b' la); [ reflexivity | lia | exact Ha | exact Hb ].
Qed.

Lemma encodeURIComponent_injective a b encoded :
  ResearchAgent.encodeURIComponent a = Some encoded ->
  ResearchAgent.encodeURIComponent b = Some encoded -> a = b.
Proof.
  unfold ResearchAgent.encodeURIComponent.
  destruct (ResearchAgent.codePoints a) as [la |] eqn:Ha; [| discriminate ].
  destruct (ResearchAgent.codePoints b) as [lb |] eqn:Hb; [| discriminate ].
  cbn [option_map]. intros H1 H2. injection H1 as <-. injection H2 as H.
  pose proof (codePoints_valid _ a la (le_n _) Ha) as Va.
  pose proof (codePoints_valid _ b lb (le_n _) Hb) as Vb.
  apply escapeOctets_injective in H; try (apply utf8_all_octets; assumption).
  apply utf8_injective in H; try assumption. subst lb.
  exact (codePoints_injective _ a b la (le_n _) Ha Hb).
Qed.

Lemma escapeOctets_unreserved l :
  Forall (fun b => (b < 256)%N) l ->
  forallb (fun c => ResearchAgent.isUnreserved c || (c =? 37)%N)
    (flat_map ResearchAgent.escapeOctet l) = true.
Proof.
  induction 1 as [| b l Hb _ IH]; [ reflexivity |].
  cbn [flat_map]. rewrite forallb_app, IH, andb_true_r.
  unfold ResearchAgent.escapeOctet.
  destruct (ResearchAgent.isUnreserved b) eqn:E; cbn [forallb].
  - rewrite E. reflexivity.
  - destruct (hexDigit_unreserved b Hb) as [-> ->]. reflexivity.
Qed.

Lemma unreserved_unit c :
  ResearchAgent.isUnreserved c = true ->
  ResearchAgent.isHighSurrogate c = false /\
  (ResearchAgent.isLowSurrogate c || (65536 <=? c)%N) = false /\
  (c <? 128)%N = true.
Proof. intros H. repeat split; char_facts. Qed.

Lemma encodeURIComponent_unreserved key :
  forallb ResearchAgent.isUnreserved key = true ->
  ResearchAgent.encodeURIComponent key = Some key.
Proof.
  unfold ResearchAgent.encodeURIComponent.
  induction key as [| c key IH]; [ reflexivity |].
  cbn [forallb]. intros H. apply andb_true_iff in H as [Hc Hkey].
  specialize (IH Hkey).
  destruct (unreserved_unit c Hc) as [Hhigh [Hlow Hascii]].
  cbn [ResearchAgent.codePoints]. rewrite Hhigh, Hlow.
  destruct (ResearchAgent.codePoints key) as [l |]; [| discriminate ].
  cbn [option_map] in *. injection IH as IH.
  cbn [flat_map]. unfold ResearchAgent.utf8 at 1. rewrite Hascii.
  cbn [flat_map app]. unfold ResearchAgent.escapeOctet at 1. rewrite Hc.
  cbn [app]. rewrite IH. reflexivity.
Qed.

(** X15: the url that [fetchWikiSummary] requests determines the key:
    two keys with the same request url are equal.  The encoded key holds
    only unreserved characters and '%', and a key of unreserved characters
    is requested as it is. *)
Theorem request_url_determines_key :
  (forall a b ea eb : jsstring,
     ResearchAgent.encodeURIComponent a = Some ea ->
     ResearchAgent.encodeURIComponent b = Some eb ->
     (ResearchAgent.WIKI_API_BASE ++ ea = ResearchAgent.WIKI_API_BASE ++ eb <-> a = b)) /\
  (forall key encoded,
     ResearchAgent.encodeURIComponent key = Some encoded ->
     forallb (fun c => ResearchAgent.isUnreserved c || (c =? 37)%N) encoded = true) /\
  (forall key,
     forallb ResearchAgent.isUnreserved key = true ->
     ResearchAgent.encodeURIComponent key = Some key).
Proof.
  split; [| split ].
  - intros a b ea eb Ha Hb. split.
    + intros H. apply app_inv_head in H. subst eb.
      exact (encodeURIComponent_injective a b ea Ha Hb).
    + intros <-. rewrite Ha in Hb. injection Hb as <-. reflexivity.
  - intros key encoded. unfold ResearchAgent.encodeURIComponent.
    destruct (ResearchAgent.codePoints key) as [l |] eqn:Hl; [| discriminate ].
    cbn [option_map]. intros H. injection H as <-.
    apply escapeOctets_unreserved, utf8_all_octets.
    exact (codePoints_valid _ key l (le_n _) Hl).
  - apply encodeURIComponent_unreserved.
Qed.

(** A high surrogate without its partner cannot be encoded; the fetch then
    ends in a failure result without having made the call. *)
Example lone_surrogate_key axios_get :
  ResearchAgent.encodeURIComponent [55357%N] = None /\
  exists r,
    ResearchAgent.fetchWikiSummary axios_get [55357%N] = Return r /\
    ResearchAgent.ok r = false /\
    ResearchAgent.error r = str (js "Network or unknown API error.").
Proof. split; [ reflexivity |]. eexists. repeat split; reflexivity. Qed.

(** ** The error message of a failed fetch *)

(** X16: after a failed outbound call the result names the requested key
    as its topic, and its error message tells the kind of failure: the
    not-found message exactly for HTTP 404, the message with the status
    for every other status, the no-response message exactly when there is
    a request and no response, and the generic message exactly when there
    is neither. *)
Theorem fetch_failure_message
  (axios_get : jsstring -> jsstring -> Exc (option ResearchAgent.WikiData))
  (key encoded : jsstring) (err : JsError)
  (Hencoded : ResearchAgent.encodeURIComponent key = Some encoded)
  (Hcall : axios_get (ResearchAgent.WIKI_API_BASE ++ encoded) ResearchAgent.USER_AGENT
             = Throw err) :
  exists r message,
    ResearchAgent.fetchWikiSummary axios_get key = Return r /\
    ResearchAgent.topic r = str key /\
    ResearchAgent.error r = str message /\
    (message = js "Topic not found on Wikipedia (HTTP 404)." <-> response err = Some 404) /\
    (forall status, response err = Some status -> status <> 404 ->
       message = js "Wikipedia API returned error status "
                   ++ ResearchAgent.showNumber status ++ js ".") /\
    (message = js "No response received from Wikipedia API."
       <-> response err = None /\ request err = true) /\
    (message = js "Network or unknown API error."
       <-> response err = None /\ request err = false).
Proof.
  unfold ResearchAgent.fetchWikiSummary. rewrite Hencoded. cbn [bind]. rewrite Hcall.
  cbn [bind try_catch].
  eexists. eexists. split; [ reflexivity |]. cbn [ResearchAgent.topic ResearchAgent.error].
  split; [ reflexivity |]. split; [ reflexivity |].
  destruct (response err) as [status |].
  - destruct (status =? 404) eqn:E.
    + apply Nat.eqb_eq in E. subst status.
      repeat split; intros; try reflexivity; try discriminate; try congruence;
        try (destruct H; discriminate).
    + apply Nat.eqb_neq in E.
      repeat split; intros; try discriminate; try congruence;
        try (destruct H; discriminate).
  - destruct (request err);
      repeat split; intros; try reflexivity; try discriminate; try congruence;
        try (destruct H; discriminate).
Qed.

Lemma fetch_failure_message_witness :
  exists r,
    ResearchAgent.fetchWikiSummary
      (fun _ _ => Throw {| response := Some 404; request := true; message := [] |})
      (js "Zzyzx_Qq") = Return r /\
    ResearchAgent.error r = str (js "Topic not found on Wikipedia (HTTP 404).").
Proof.
  destruct (fetch_failure_message
              (fun _ _ => Throw {| response := Some 404; request := true; message := [] |})
              (js "Zzyzx_Qq") (js "Zzyzx_Qq")
              {| response := Some 404; request := true; message := [] |} eq_refl eq_refl)
    as [r [message [H1 [_ [H2 [[_ H3] _]]]]]].
  exists r. split; [ exact H1 |]. rewrite H2, (H3 eq_refl). reflexivity.
Defined.

(** ** Queries in one of the question forms *)

Lemma exec_word_ci {R} w : forall s caps (k : jsstring -> captures -> option R),
  exec (word_ci w) (w ++ s) caps k = k s caps.
Proof.
  induction w as [| c w IH]; intros s caps k; [ reflexivity |].
  cbn [word_ci char_ci exec app]. rewrite N.eqb_refl. apply IH.
Qed.

Lemma exec_question_word {R} w s caps (k : jsstring -> captures -> option R) :
  In w questionWords ->
  exec (alts (js "who") (map js [ "what"; "where"; "when"; "why"; "how" ]%string))
    (w ++ s) caps k = k s caps.
Proof.
  intros Hw. unfold questionWords in Hw. cbn [map In] in Hw.
  destruct Hw as [<- | [<- | [<- | [<- | [<- | [<- | []]]]]]];
    vm_compute; destruct (k s caps); reflexivity.
Qed.

Lemma exec_question_verb {R} v s caps (k : jsstring -> captures -> option R) :
  In v questionVerbs ->
  exec (alts (js "is") (map js [ "was"; "are"; "were" ]%string)) (v ++ s) caps k
    = k s caps.
Proof.
  intros Hv. unfold questionVerbs in Hv. cbn [map In] in Hv.
  destruct Hv as [<- | [<- | [<- | [<- | []]]]];
    vm_compute; destruct (k s caps); reflexivity.
Qed.

Lemma consumed_all s : consumed s [] = s.
Proof.
  rewrite <- (app_nil_r s) at 1. apply consumed_append.
Qed.

Lemma plus_k_all {R} p (k : jsstring -> option R) s x :
  truthy s = true -> forallb p s = true -> k [] = Some x -> plus_k p k s = Some x.
Proof.
  intros Ht Hall Hk. rewrite <- (app_nil_r s). apply plus_k_run; auto.
Qed.

Section Subject.
Variable subject : jsstring.
Hypothesis Htruthy : truthy subject = true.
Hypothesis Hvisible : stopsAt isWhiteSpace subject = true.
Hypothesis Hline : forallb isDot subject = true.

Lemma subject_tail (caps : captures) (n : nat) :
  exec (seqs (Plus isWhiteSpace) [ Group n (Plus isDot); Eos ]) (js " " ++ subject) caps
    (fun rest caps' => Some (rest, caps')) =
  Some ([], (n, subject) :: caps).
Proof.
  cbn [seqs exec].
  apply plus_k_run; [ reflexivity | reflexivity | exact Hvisible |].
  apply plus_k_all; [ exact Htruthy | exact Hline |].
  rewrite consumed_all. reflexivity.
Qed.

Lemma question_subject w v :
  In w questionWords -> In v questionVerbs ->
  ResearchAgent.pattern_subject (nth 0 ResearchAgent.patterns Eos)
    (w ++ js " " ++ v ++ js " " ++ subject) = Some subject.
Proof.
  intros Hw Hv.
  unfold ResearchAgent.pattern_subject, match_anchored, match_prefix.
  cbn [nth ResearchAgent.patterns seqs exec].
  rewrite (exec_question_word w _ _ _ Hw). rewrite consumed_append.
  assert (Hverb : stopsAt isWhiteSpace (v ++ js " " ++ subject) = true).
  { unfold questionVerbs in Hv. cbn [map In] in Hv.
    destruct Hv as [<- | [<- | [<- | [<- | []]]]]; reflexivity. }
  rewrite (plus_k_run isWhiteSpace _ (js " ") (v ++ js " " ++ subject)
             (([] : jsstring), [(3, subject); (2, v); (1, w)]) eq_refl eq_refl Hverb).
  - unfold ResearchAgent.rawTopic_of.
    cbn [option_map snd capture Nat.eqb]. rewrite Htruthy.
    cbn [capture Nat.eqb]. rewrite Htruthy. reflexivity.
  - rewrite (exec_question_verb v _ _ _ Hv). rewrite consumed_append.
    apply (subject_tail [(2, v); (1, w)] 3).
Qed.

Lemma request_subject phrase :
  ResearchAgent.pattern_subject
    (seqs (Group 1 (word_ci phrase)) [ Plus isWhiteSpace; Group 2 (Plus isDot); Eos ])
    (phrase ++ js " " ++ subject) = Some subject.
Proof.
  unfold ResearchAgent.pattern_subject, match_anchored, match_prefix.
  cbn [seqs exec]. rewrite exec_word_ci, consumed_append.
  pose proof (subject_tail [(1, phrase)] 2) as H. cbn [seqs exec] in H. rewrite H.
  unfold ResearchAgent.rawTopic_of.
  cbn [option_map snd capture Nat.eqb]. rewrite Htruthy. reflexivity.
Qed.
End Subject.

Lemma trimEnd_append_truthy a b :
  truthy (trimEnd b) = true -> trimEnd (a ++ b) = a ++ trimEnd b.
Proof.
  intros H. induction a as [| c a IH]; cbn; [ reflexivity |].
  rewrite IH. destruct a; cbn.
  - destruct (trimEnd b); [ discriminate |]. cbn. rewrite andb_false_r. reflexivity.
  - rewrite andb_false_r. reflexivity.
Qed.

Lemma trim_fixed_parts s :
  trim s = s -> stopsAt isWhiteSpace s = true /\ trimEnd s = s.
Proof.
  intros H. split.
  - rewrite <- H. unfold trim. apply trimEnd_stopsAt, trimStart_stopsAt.
  - rewrite <- H at 1. unfold trim. rewrite trimEnd_idempotent. exact H.
Qed.

Lemma trim_question prefix subject :
  truthy prefix = true -> stopsAt isWhiteSpace prefix = true ->
  truthy subject = true -> trim subject = subject ->
  trim (prefix ++ js " " ++ subject) = prefix ++ js " " ++ subject.
Proof.
  intros Hp Hs Ht Hfixed. destruct (trim_fixed_parts subject Hfixed) as [_ Hend].
  unfold trim. rewrite trimStart_fixed by (rewrite stopsAt_append; assumption).
  rewrite app_assoc, trimEnd_append_truthy, Hend; [ reflexivity |].
  rewrite Hend. exact Ht.
Qed.

Lemma question_key {U : Unicode} pattern prefix subject :
  In pattern ResearchAgent.patterns ->
  truthy prefix = true -> stopsAt isWhiteSpace prefix = true ->
  truthy subject = true -> trim subject = subject ->
  ResearchAgent.pattern_subject pattern (prefix ++ js " " ++ subject) = Some subject ->
  3 <= length (ResearchAgent.subject_key subject) ->
  ResearchAgent.extractTopic (prefix ++ js " " ++ subject) =
    ResearchAgent.subject_key subject.
Proof.
  intros Hin Hp Hs Ht Hfixed Hsubj Hlen.
  unfold ResearchAgent.extractTopic.
  rewrite (trim_question prefix subject Hp Hs Ht Hfixed).
  assert (Hq : truthy (prefix ++ js " " ++ subject) = true)
    by (destruct prefix; [ discriminate | reflexivity ]).
  rewrite Hq. cbn [negb].
  rewrite (pattern_loop_subject ResearchAgent.patterns _ pattern subject);
    [| | exact Hin | exact Hsubj ].
  - apply Nat.leb_le in Hlen. rewrite Hlen. reflexivity.
  - intros p' subj' Hp' Hs'.
    exact (patterns_exclusive _ pattern p' subject subj' Hin Hp' Hsubj Hs').
Qed.

(** X17: for a query in one of the question forms, "<who, what, where,
    when, why or how> <is, was, are or were> <subject>", "tell me about
    <subject>" or "give me an overview of <subject>", with single spaces
    and a subject without line break and without whitespace at its ends,
    the key is the key of the subject alone, whenever that key has at
    least three characters (code units). *)
Theorem question_form_key {U : Unicode} (subject : jsstring)
  (Htruthy : truthy subject = true)
  (Hfixed : trim subject = subject)
  (Hline : forallb isDot subject = true)
  (Hlen : 3 <= length (ResearchAgent.subject_key subject)) :
  (forall w v,
     In w (map js [ "who"; "what"; "where"; "when"; "why"; "how" ]%string) ->
     In v (map js [ "is"; "was"; "are"; "were" ]%string) ->
     ResearchAgent.extractTopic (w ++ js " " ++ v ++ js " " ++ subject) =
       ResearchAgent.subject_key subject) /\
  ResearchAgent.extractTopic (js "tell me about" ++ js " " ++ subject) =
    ResearchAgent.subject_key subject /\
  ResearchAgent.extractTopic (js "give me an overview of" ++ js " " ++ subject) =
    ResearchAgent.subject_key subject.
Proof.
  destruct (trim_fixed_parts subject Hfixed) as [Hvisible _].
  split; [| split ].
  - intros w v Hw Hv.
    pose proof (question_subject subject Htruthy Hvisible Hline w v Hw Hv) as Hsubj.
    assert (Hprefix : truthy (w ++ js " " ++ v) = true /\
                      stopsAt isWhiteSpace (w ++ js " " ++ v) = true).
    { cbn [map In] in Hw.
      destruct Hw as [<- | [<- | [<- | [<- | [<- | [<- | []]]]]]]; auto. }
    destruct Hprefix as [Hp Hs].
    pose proof (question_key (nth 0 ResearchAgent.patterns Eos) (w ++ js " " ++ v) subject
                  ltac:(left; reflexivity) Hp Hs Htruthy Hfixed) as Hkey.
    rewrite <- !app_assoc in Hkey.
    apply Hkey; [ exact Hsubj | exact Hlen ].
  - apply (question_key (nth 1 ResearchAgent.patterns Eos));
      [ right; left; reflexivity | reflexivity | reflexivity | exact Htruthy | exact Hfixed
      | | exact Hlen ].
    apply (request_subject subject Htruthy Hvisible Hline (js "tell me about")).
  - apply (question_key (nth 2 ResearchAgent.patterns Eos));
      [ right; right; left; reflexivity | reflexivity | reflexivity | exact Htruthy
      | exact Hfixed | | exact Hlen ].
    apply (request_subject subject Htruthy Hvisible Hline (js "give me an overview of")).
Qed.

Lemma question_form_key_witness :
  (forall w v,
     In w (map js [ "who"; "what"; "where"; "when"; "why"; "how" ]%string) ->
     In v (map js [ "is"; "was"; "are"; "were" ]%string) ->
     ResearchAgent.extractTopic (U := asciiOnly)
       (w ++ js " " ++ v ++ js " " ++ js "mahatma gandhi") = js "Mahatma_Gandhi") /\
  ResearchAgent.extractTopic (U := asciiOnly)
    (js "tell me about" ++ js " " ++ js "mahatma gandhi") = js "Mahatma_Gandhi" /\
  ResearchAgent.extractTopic (U := asciiOnly)
    (js "give me an overview of" ++ js " " ++ js "mahatma gandhi") = js "Mahatma_Gandhi".
Proof.
  apply (question_form_key (U := asciiOnly) (js "mahatma gandhi")).
  - reflexivity.
  - reflexivity.
  - reflexivity.
  - vm_compute. lia.
Defined.

(** ** A summary without sentence boundary *)

Lemma sentence_needs_terminator s :
  forallb (fun c => negb (AnalysisAgent.isTerminator c)) s = true ->
  match_prefix AnalysisAgent.sentence s = None.
Proof.
  intros Hall. destruct (match_prefix AnalysisAgent.sentence s) as [[rest caps] |] eqn:E;
    [| reflexivity ].
  apply sentence_match_split in E as [body [t [gap [-> [_ [Ht _]]]]]].
  rewrite forallb_app in Hall. cbn [forallb] in Hall. rewrite Ht in Hall.
  cbn [negb andb] in Hall. rewrite andb_false_r in Hall. discriminate.
Qed.

Lemma match_all_go_without_terminator s : forall skip,
  forallb (fun c => negb (AnalysisAgent.isTerminator c)) s = true ->
  match_all_go AnalysisAgent.sentence s skip = [].
Proof.
  induction s as [| c s IH]; intros skip Hall; [ reflexivity |].
  cbn [match_all_go]. destruct skip as [| n].
  - rewrite (sentence_needs_terminator _ Hall).
    cbn in Hall. apply andb_true_iff in Hall as [_ Hall]. apply IH. exact Hall.
  - cbn in Hall. apply andb_true_iff in Hall as [_ Hall]. apply IH. exact Hall.
Qed.

(** X18: for a fetched summary that is not empty and holds none of '.',
    '!' and '?', the analyzer reports exactly one key point: the trimmed
    summary when that is longer than 20 characters (code units), the
    summary as it is otherwise. *)
Theorem unpunctuated_summary_one_point {U : Unicode}
  (r : ResearchAgent.FetchResult) (summary : jsstring)
  (Hok : ResearchAgent.ok r = true)
  (Hsummary : ResearchAgent.summary r = str summary)
  (Htruthy : truthy summary = true)
  (Hplain : forallb (fun c => negb (AnalysisAgent.isTerminator c)) summary = true) :
  AnalysisAgent.keyPoints (AnalysisAgent.run r) =
    if 20 <? length (trim summary) then [trim summary] else [summary].
Proof.
  unfold AnalysisAgent.run. rewrite Hok, Hsummary.
  cbn [negb orb truthy_value]. rewrite Htruthy. cbn [negb AnalysisAgent.keyPoints].
  unfold AnalysisAgent.extractKeyPoints, AnalysisAgent.sentences, match_all.
  rewrite Htruthy, (match_all_go_without_terminator summary 0 Hplain).
  cbn [negb map filter].
  destruct (20 <? length (trim summary)); reflexivity.
Qed.

Lemma unpunctuated_summary_one_point_witness :
  AnalysisAgent.keyPoints
    (AnalysisAgent.run (U := asciiOnly)
       (Scenario.fetched (js "  English mathematician and writer  "))) =
  [ js "English mathematician and writer" ].
Proof.
  apply (unpunctuated_summary_one_point (U := asciiOnly)
           (Scenario.fetched (js "  English mathematician and writer  "))
           (js "  English mathematician and writer  ")); reflexivity.
Defined.

(** A summary of 19 code units between two spaces, four of its letters
    outside ASCII: the trimmed summary is not longer than 20, and the one
    key point is the summary as it is. *)
Example short_summary_with_umlauts {U : Unicode} :
  let summary :=
    js " " ++ [220%N] ++ js "nl" ++ [252%N] ++ js " bir yazar " ++ [246%N] ++ js "ld"
       ++ [252%N] ++ js " " in
  length (trim summary) = 19 /\
  AnalysisAgent.keyPoints (AnalysisAgent.run (Scenario.fetched summary)) = [summary].
Proof. split; vm_compute; reflexivity. Qed.

(** ** Normalization word by word *)

Lemma split_ws_go_flag s :
  filter truthy (split_ws_go true [] s) = filter truthy (split_ws_go false [] s).
Proof.
  destruct s as [| c s]; [ reflexivity |]. cbn [split_ws_go].
  destruct (isWhiteSpace c); reflexivity.
Qed.

Lemma split_ws_go_append x c y : forall in_sep cur,
  isWhiteSpace c = true ->
  (in_sep = true -> cur = []) ->
  filter truthy (split_ws_go in_sep cur (x ++ c :: y)) =
  filter truthy (split_ws_go in_sep cur x) ++ words y.
Proof.
  induction x as [| d x IH]; intros in_sep cur Hc Hsep.
  - cbn [app split_ws_go]. rewrite Hc. unfold words, split_ws.
    destruct in_sep.
    + rewrite (Hsep eq_refl). cbn. apply split_ws_go_flag.
    + cbn [filter]. rewrite split_ws_go_flag. destruct (truthy cur); reflexivity.
  - cbn [app split_ws_go]. destruct (isWhiteSpace d).
    + destruct in_sep.
      * apply IH; auto.
      * cbn [filter]. rewrite (IH true [] Hc (fun _ => eq_refl)).
        destruct (truthy cur); reflexivity.
    + apply IH; [ exact Hc | discriminate ].
Qed.

Lemma words_append x c y :
  isWhiteSpace c = true -> words (x ++ c :: y) = words x ++ words y.
Proof.
  intros Hc. unfold words at 1 2, split_ws.
  apply split_ws_go_append; [ exact Hc | discriminate ].
Qed.

Lemma words_after_spaces pre s :
  forallb isWhiteSpace pre = true -> words (pre ++ s) = words s.
Proof.
  induction pre as [| c pre IH]; intros H; [ reflexivity |].
  cbn in H. apply andb_true_iff in H as [Hc Hpre].
  change ((c :: pre) ++ s) with ([] ++ c :: (pre ++ s)).
  rewrite (words_append [] c _ Hc). exact (IH Hpre).
Qed.

Lemma words_before_spaces s post :
  forallb isWhiteSpace post = true -> words (s ++ post) = words s.
Proof.
  destruct post as [| c post]; intros H; [ rewrite app_nil_r; reflexivity |].
  cbn in H. apply andb_true_iff in H as [Hc Hpost].
  rewrite (words_append s c post Hc), (words_spaces post Hpost). apply app_nil_r.
Qed.

Lemma trimStart_spaces s :
  exists pre, s = pre ++ trimStart s /\ forallb isWhiteSpace pre = true.
Proof.
  induction s as [| c s [pre [IH Hpre]]]; [ exists []; auto |].
  cbn. destruct (isWhiteSpace c) eqn:E.
  - exists (c :: pre). cbn. rewrite <- IH, E. auto.
  - exists []. auto.
Qed.

Lemma trimEnd_spaces_split s :
  exists post, s = trimEnd s ++ post /\ forallb isWhiteSpace post = true.
Proof.
  induction s as [| c s [post [IH Hpost]]]; [ exists []; auto |].
  cbn. destruct (isWhiteSpace c && isEmpty (trimEnd s)) eqn:E.
  - exists (c :: s). split; [ reflexivity |].
    apply andb_true_iff in E as [Hc He]. apply isEmpty_true in He.
    rewrite He in IH. cbn in IH. cbn. rewrite Hc, IH. exact Hpost.
  - exists post. cbn. rewrite <- IH. auto.
Qed.

Lemma space_not_question c : isWhiteSpace c = true -> negb (isQuestionMark c) = true.
Proof. char_facts. Qed.

Lemma questionless_spaces s :
  forallb isWhiteSpace s = true ->
  filter (fun c => negb (isQuestionMark c)) s = s.
Proof.
  intros H. apply filter_all. eapply forallb_impl; [| exact H ].
  apply space_not_question.
Qed.

(** The words of a phrase do not depend on its trimming. *)
Lemma title_words_trim phrase :
  words (filter (fun c => negb (isQuestionMark c)) (trim phrase)) =
  words (filter (fun c => negb (isQuestionMark c)) phrase).
Proof.
  destruct (trimStart_spaces phrase) as [pre [Hpre Hws1]].
  destruct (trimEnd_spaces_split (trimStart phrase)) as [post [Hpost Hws2]].
  fold (trim phrase) in Hpost. rewrite Hpre at 2. rewrite Hpost.
  rewrite !filter_app, (questionless_spaces pre Hws1),
    (questionless_spaces post Hws2).
  rewrite words_after_spaces, words_before_spaces; auto.
Qed.

Lemma join_append sep (l1 l2 : list jsstring) :
  l1 <> [] -> l2 <> [] ->
  join sep (l1 ++ l2) = join sep l1 ++ sep ++ join sep l2.
Proof.
  intros H1 H2. induction l1 as [| x l1 IH]; [ congruence |].
  destruct l1 as [| y l1].
  - cbn. destruct l2; [ congruence | reflexivity ].
  - change (join sep ((x :: y :: l1) ++ l2))
      with (x ++ sep ++ join sep ((y :: l1) ++ l2)).
    rewrite IH by discriminate.
    change (join sep (x :: y :: l1)) with (x ++ sep ++ join sep (y :: l1)).
    rewrite <- !app_assoc. reflexivity.
Qed.

(** X19: normalization works word by word: the title of two phrases with
    whitespace between them is the title of the first, an underscore and
    the title of the second; when one of the two titles is empty, it is the
    other one. *)
Theorem normalizeTitle_two_phrases {U : Unicode} (a b : jsstring) (c : N)
  (Hc : isWhiteSpace c = true) :
  ResearchAgent.normalizeTitle (a ++ c :: b) =
    if isEmpty (ResearchAgent.normalizeTitle a) then ResearchAgent.normalizeTitle b
    else if isEmpty (ResearchAgent.normalizeTitle b) then ResearchAgent.normalizeTitle a
    else ResearchAgent.normalizeTitle a ++ js "_" ++ ResearchAgent.normalizeTitle b.
Proof.
  assert (Hjoin : forall s,
            words (filter (fun c => negb (isQuestionMark c)) s) <> [] ->
            isEmpty (ResearchAgent.normalizeTitle s) = false).
  { intros s Hne. unfold ResearchAgent.normalizeTitle.
    pose proof (title_words s) as Hall.
    destruct (words (filter _ (trim s))) as [| w ws] eqn:Hw.
    - rewrite title_words_trim in Hw. congruence.
    - inversion Hall as [| ? ? [Ht Hk] _]; subst. cbn [map].
      pose proof (join_cons_truthy (js "_") (capitalize w) (map capitalize ws)
                    (capitalize_truthy w Hk Ht)) as Hj.
      unfold truthy in Hj. apply negb_true_iff in Hj. exact Hj. }
  pose proof (Hjoin a) as Ha. pose proof (Hjoin b) as Hb.
  unfold ResearchAgent.normalizeTitle in *. rewrite !title_words_trim in *.
  rewrite filter_app. cbn [filter].
  rewrite (space_not_question c Hc).
  rewrite (words_append _ c _ Hc), map_app.
  destruct (words (filter _ a)) as [| w1 ws1] eqn:Ea.
  - reflexivity.
  - rewrite Ha by discriminate.
    destruct (words (filter _ b)) as [| w2 ws2] eqn:Eb.
    + cbn [map]. rewrite app_nil_r. reflexivity.
    + rewrite Hb by discriminate.
      apply join_append; discriminate.
Qed.

Lemma normalizeTitle_two_phrases_witness :
  ResearchAgent.normalizeTitle (U := asciiOnly)
    (js "  who is?" ++ 32%N :: js "ada  lovelace ") = js "Who_Is_Ada_Lovelace".
Proof.
  apply (normalizeTitle_two_phrases (U := asciiOnly)
           (js "  who is?") (js "ada  lovelace ") 32%N).
  reflexivity.
Defined.

